(** * better-github-mail: webhook events to threaded mail notifications

    A shallow embedding of [app/bettermail.go].  Go strings are byte
    sequences, modelled by [string]; [len], [s[lo:]] and [s[:hi]] count
    bytes.  Pointer-typed payload fields ([*string]) are [option string], and
    dereferencing [None] panics.  The App Engine services (datastore, log,
    mail), the JSON decoder, the template engine and the markdown renderer are
    external: their calls are recorded in a trace, and their answers come
    from a record of collaborators or from a schedule of RPC outcomes. *)

From stdpp Require Import base strings list gmap.

Set Default Proof Using "Type".

(** ** Go run-time behaviour: results, panics, slicing *)

Inductive panic : Type :=
  | NilDereference
  | SliceBoundsOutOfRange (bound len : nat)
  | IndexOutOfRange (idx len : nat).

Inductive result (A : Type) : Type :=
  | Ret (a : A)
  | Panic (p : panic).
Arguments Ret {A} a.
Arguments Panic {A} p.

(** Go's [error] values are represented by their message. *)
Definition error : Type := string.

(** Timestamps are seconds since the epoch. *)
Definition UnixTime : Type := Z.

(** ** Payload types

    The struct declarations live outside [bettermail.go]; the fields below
    are the ones the handlers touch, with the pointer-ness the handlers'
    dereferences show. *)

Module User.
Record t : Type := mk { Login : option string }.
End User.

Module Pusher.
Record t : Type := mk { Name : option string }.
End Pusher.

Module Repository.
Record t : Type := mk {
  FullName : option string;
  URL : option string;
  PushedAt : UnixTime
}.
End Repository.

Module WebHookAuthor.
Record t : Type := mk {
  Name : option string;
  Username : option string
}.
End WebHookAuthor.

Module WebHookCommit.
Record t : Type := mk {
  ID : string;
  Message : string;
  Timestamp : UnixTime;
  URL : string;
  Author : WebHookAuthor.t;
  Committer : WebHookAuthor.t
}.
End WebHookCommit.

Module PushPayload.
Record t : Type := mk {
  Ref : option string;
  Compare : option string;
  Repo : Repository.t;
  Pusher : Pusher.t;
  Sender : User.t;
  Commits : list WebHookCommit.t
}.
End PushPayload.

Module Comment.
Record t : Type := mk {
  CommitID : option string;
  Body : option string;
  UpdatedAt : UnixTime
}.
End Comment.

Module CommitCommentPayload.
Record t : Type := mk {
  Comment : Comment.t;
  Repo : Repository.t;
  Sender : User.t
}.
End CommitCommentPayload.

Module DisplayCommit.
Record t : Type := mk {
  SHA : string;
  ShortSHA : string;
  Title : string;
  URL : string;
  AuthorDisplayName : string;
  DisplayDate : string;
  DisplayDateTooltip : string
}.
End DisplayCommit.

Module mail.
Record Message : Type := mkMessage {
  Sender : string;
  To : list string;
  Subject : string;
  HTMLBody : string
}.
End mail.

Module http.
(** The parts of a request [hookHandler] reads, and what it writes to the
    [http.ResponseWriter].  [Header] is keyed by canonical header names, so
    [r.Header.Get(k)] is the lookup of [k], the empty string when absent. *)
Record Request : Type := mkRequest {
  Header : gmap string string;
  Body : string
}.
Record Response : Type := mkResponse {
  Status : nat;
  Written : string
}.
Definition StatusOK : nat := 200.
Definition StatusInternalServerError : nat := 500.
(** [http.Error(w, msg, code)] *)
Definition Error (msg : string) (code : nat) : Response :=
  mkResponse code (msg +:+ String (Ascii.ascii_of_nat 10) EmptyString).
End http.

(** [type EmailThread struct] *)
Record EmailThread : Type := mkEmailThread {
  CommitSHA : string;
  Subject : string
}.

(** The values stored in the [map[string]interface{}] handed to a template. *)
Inductive Value : Type :=
  | VString (s : string)
  | VPushPayload (p : PushPayload.t)
  | VCommitCommentPayload (p : CommitCommentPayload.t)
  | VCommits (l : list DisplayCommit.t)
  | VComment (c : Comment.t)
  | VUser (u : User.t)
  | VRepository (r : Repository.t).

(** ** The world outside the handlers *)

Inductive Event : Type :=
  | LogInfo (msg : string)
  | LogWarning (msg : string)
  | LogError (msg : string)
  | DatastorePut (key : string) (thread : EmailThread)
  | DatastoreGet (key : string)
  | JsonDecode (body : string)
  | TemplateExecute (name : string) (data : gmap string Value)
  | MarkdownRender (body : string)
  | MailSend (m : mail.Message).

(** [entities] is the [EmailThread] kind of the datastore, keyed by string id.
    [rpc_faults] schedules the outcome of the coming fallible service calls
    (datastore put and get, mail send), one entry per call: [None] lets the
    call through, [Some e] makes it fail with error [e]; an exhausted
    schedule lets every call through. *)
Record World : Type := mkWorld {
  entities : gmap string EmailThread;
  rpc_faults : list (option error);
  trace : list Event
}.

Definition next_fault (w : World) : option error :=
  match rpc_faults w with
  | [] => None
  | f :: _ => f
  end.

(** ** A state-and-panic monad *)

Definition M (A : Type) : Type := World → result A * World.

Definition ret {A : Type} (a : A) : M A := λ w, (Ret a, w).

Definition bind {A B : Type} (m : M A) (f : A → M B) : M B :=
  λ w, match m w with
       | (Ret a, w') => f a w'
       | (Panic p, w') => (Panic p, w')
       end.

Definition raise {A : Type} (p : panic) : M A := λ w, (Panic p, w).

Notation "'let*' x ':=' c1 'in' c2" := (bind c1 (λ x, c2))
  (at level 10, x pattern, c1 at level 100, c2 at level 200).

Definition emit (e : Event) : M unit :=
  λ w, (Ret (), mkWorld (entities w) (rpc_faults w) (trace w ++ [e])).

(** [*p] *)
Definition deref {A : Type} (p : option A) : M A :=
  match p with
  | Some a => ret a
  | None => raise NilDereference
  end.

(** [s[lo:]] *)
Definition sliceFrom (s : string) (lo : nat) : M string :=
  if decide (lo ≤ String.length s)
  then ret (String.substring lo (String.length s - lo) s)
  else raise (SliceBoundsOutOfRange lo (String.length s)).

(** [s[:hi]] *)
Definition sliceTo (s : string) (hi : nat) : M string :=
  if decide (hi ≤ String.length s)
  then ret (String.substring 0 hi s)
  else raise (SliceBoundsOutOfRange hi (String.length s)).

(** [l[i]] *)
Definition index {A : Type} (l : list A) (i : nat) : M A :=
  match l !! i with
  | Some a => ret a
  | None => raise (IndexOutOfRange i (length l))
  end.

(** ** Service calls *)

Definition pop_fault (w : World) : option error * World :=
  match rpc_faults w with
  | [] => (None, w)
  | f :: rest => (f, mkWorld (entities w) rest (trace w))
  end.

(** [datastore.Put(c, key, &thread)]: an upsert under the key, or an error. *)
Definition datastore_Put (key : string) (thread : EmailThread) : M (option error) :=
  let* _ := emit (DatastorePut key thread) in
  λ w, let '(f, w') := pop_fault w in
       match f with
       | Some e => (Ret (Some e), w')
       | None =>
           (Ret None,
            mkWorld (<[key := thread]> (entities w')) (rpc_faults w') (trace w'))
       end.

(** [datastore.Get(c, key, thread)]: the stored entity, or an error when the
    call fails or no entity is stored under the key. *)
Definition datastore_Get (key : string) : M (EmailThread + error) :=
  let* _ := emit (DatastoreGet key) in
  λ w, let '(f, w') := pop_fault w in
       match f with
       | Some e => (Ret (inr e), w')
       | None =>
           match entities w' !! key with
           | Some thread => (Ret (inl thread), w')
           | None => (Ret (inr "datastore: no such entity"), w')
           end
       end.

(** [mail.Send(c, message)] *)
Definition mail_Send (message : mail.Message) : M (option error) :=
  let* _ := emit (MailSend message) in
  λ w, let '(f, w') := pop_fault w in (Ret f, w').

(** [%v] of an [EmailThread] *)
Definition showEmailThread (thread : EmailThread) : string :=
  "{" +:+ CommitSHA thread +:+ " " +:+ Subject thread +:+ "}".

(** ** Collaborators

    What the handlers call but [bettermail.go] does not define: App Engine's
    environment, the loaded templates, the JSON decoder, the markdown
    renderer and the date helpers. *)
Record Collaborators : Type := mkCollaborators {
  (** [appengine.AppID(c)] *)
  appID : string;
  (** [appengine.IsDevAppServer()] *)
  isDevAppServer : bool;
  (** [templates[name].Execute(&buf, data)]: the rendered buffer or an error *)
  templateOutput : string → gmap string Value → string + error;
  (** [renderMessageMarkdown(body, repo, c)] *)
  markdownHTML : string → Repository.t → string;
  (** [json.NewDecoder(r).Decode(&payload)] at the two payload types *)
  decodePushPayload : string → PushPayload.t + error;
  decodeCommitCommentPayload : string → CommitCommentPayload.t + error;
  (** [t.In(location).Format(layout)] *)
  formatTime : string → string → UnixTime → string;
  DisplayDateFormat : string;
  DisplayDateFullFormat : string;
  safeFormattedDate : string → string;
  (** the display name [newDisplayCommit] picks for a commit's author *)
  authorDisplayName : WebHookCommit.t → User.t → string
}.

(** The first line of a commit message: everything before the first newline,
    the whole message when it has none. *)
Fixpoint firstLine (s : string) : string :=
  match s with
  | EmptyString => EmptyString
  | String a rest =>
      if Ascii.eqb a (Ascii.ascii_of_nat 10) then EmptyString else String a (firstLine rest)
  end.

Section Handlers.

Variable E : Collaborators.

Definition logInfof (msg : string) : M unit := emit (LogInfo msg).
Definition logWarningf (msg : string) : M unit := emit (LogWarning msg).
Definition logErrorf (msg : string) : M unit := emit (LogError msg).

(** [templates[name].Execute(&mailHtml, data)] *)
Definition templateExecute (name : string) (data : gmap string Value)
  : M (string + error) :=
  let* _ := emit (TemplateExecute name data) in
  ret (templateOutput E name data).

(** [renderMessageMarkdown(body, repo, c)] *)
Definition renderMessageMarkdown (body : string) (repo : Repository.t) : M string :=
  let* _ := emit (MarkdownRender body) in
  ret (markdownHTML E body repo).

Definition createThread (sha subject : string) : M unit :=
  let thread := {| CommitSHA := sha; Subject := subject |} in
  let key := sha in
  let* err := datastore_Put key thread in
  match err with
  | Some e => logErrorf ("Error creating thread: " +:+ e)
  | None => logInfof ("Created thread: " +:+ showEmailThread thread)
  end.

Definition getSubjectForCommit (sha : string) : M string :=
  let key := sha in
  let* got := datastore_Get key in
  match got with
  | inr _ =>
      let* _ := logInfof ("No thread found for SHA = " +:+ sha) in
      ret ""
  | inl thread => ret (Subject thread)
  end.

Definition getRecipient : string :=
  if isDevAppServer E then "mihai@quip.com" else "eng+commits@quip.com".

(** Modelled from the spec: [newDisplayCommit] is defined outside
    [bettermail.go].  Section 4.3: the short id is the first 7 characters of
    the id (read as the Go slice [id[:7]], the expression
    [handleCommitCommentPayload] applies to a commit id), the title is the
    first line of the commit message, the url is [{repoURL}/commit/{id}], and
    the two dates are the commit's timestamp in the configured zone under
    the two display layouts. *)
Definition newDisplayCommit (commit : WebHookCommit.t) (sender : User.t)
    (repo : Repository.t) (location : string) : M DisplayCommit.t :=
  let id := WebHookCommit.ID commit in
  let* shortSHA := sliceTo id 7 in
  let* repoURL := deref (Repository.URL repo) in
  ret {| DisplayCommit.SHA := id;
         DisplayCommit.ShortSHA := shortSHA;
         DisplayCommit.Title := firstLine (WebHookCommit.Message commit);
         DisplayCommit.URL := repoURL +:+ "/commit/" +:+ id;
         DisplayCommit.AuthorDisplayName := authorDisplayName E commit sender;
         DisplayCommit.DisplayDate :=
           safeFormattedDate E
             (formatTime E location (DisplayDateFormat E)
                (WebHookCommit.Timestamp commit));
         DisplayCommit.DisplayDateTooltip :=
           formatTime E location (DisplayDateFullFormat E)
             (WebHookCommit.Timestamp commit) |}.

(** [for i := range payload.Commits { displayCommits = append(displayCommits, ...) }] *)
Fixpoint displayCommitsLoop (payload : PushPayload.t) (location : string)
    (commits : list WebHookCommit.t) (displayCommits : list DisplayCommit.t)
  : M (list DisplayCommit.t) :=
  match commits with
  | [] => ret displayCommits
  | commit :: rest =>
      let* d := newDisplayCommit commit (PushPayload.Sender payload)
                  (PushPayload.Repo payload) location in
      displayCommitsLoop payload location rest (displayCommits ++ [d])
  end.

(** The loop that looks for the pusher among the commits' authors and
    committers; [senderName] is returned as it stands when the loop ends or
    as the matching branch sets it before [break]. *)
Fixpoint senderNameLoop (commits : list WebHookCommit.t)
    (senderUserName senderName : string) : M string :=
  match commits with
  | [] => ret senderName
  | commit :: rest =>
      let* authorUsername :=
        deref (WebHookAuthor.Username (WebHookCommit.Author commit)) in
      if String.eqb authorUsername senderUserName
      then deref (WebHookAuthor.Name (WebHookCommit.Author commit))
      else
        let* committerUsername :=
          deref (WebHookAuthor.Username (WebHookCommit.Committer commit)) in
        if String.eqb committerUsername senderUserName
        then deref (WebHookAuthor.Name (WebHookCommit.Committer commit))
        else senderNameLoop rest senderUserName senderName
  end.

(** [for _, commit := range displayCommits { createThread(commit.SHA, subject, c) }] *)
Fixpoint createThreadsLoop (displayCommits : list DisplayCommit.t)
    (subject : string) : M unit :=
  match displayCommits with
  | [] => ret ()
  | commit :: rest =>
      let* _ := createThread (DisplayCommit.SHA commit) subject in
      createThreadsLoop rest subject
  end.

Definition senderAddress (senderName senderUserName : string) : string :=
  senderName +:+ " <" +:+ senderUserName +:+ "@" +:+ appID E
    +:+ ".appspotmail.com>".

Definition pushTemplateData (payload : PushPayload.t)
    (displayCommits : list DisplayCommit.t)
    (branchName branchUrl location extensionUrl : string) : gmap string Value :=
  let pushedAt := Repository.PushedAt (PushPayload.Repo payload) in
  list_to_map
    [ ("Payload", VPushPayload payload);
      ("Commits", VCommits displayCommits);
      ("BranchName", VString branchName);
      ("BranchURL", VString branchUrl);
      ("PushedDisplayDate",
        VString (safeFormattedDate E
                   (formatTime E location (DisplayDateFormat E) pushedAt)));
      ("PushedDisplayDateTooltip",
        VString (formatTime E location (DisplayDateFullFormat E) pushedAt));
      ("ExtensionURL", VString extensionUrl) ].

Definition handlePushPayload (payload : PushPayload.t)
  : M (option mail.Message * option error) :=
  let location := "America/Los_Angeles" in
  let* displayCommits :=
    displayCommitsLoop payload location (PushPayload.Commits payload) [] in
  let* ref := deref (PushPayload.Ref payload) in
  let* branchName := sliceFrom ref 11 in
  let* fullName := deref (Repository.FullName (PushPayload.Repo payload)) in
  let branchUrl := "https://github.com/" +:+ fullName +:+ "/tree/" +:+ branchName in
  let* firstCommit := index displayCommits 0 in
  let* extensionUrl :=
    if decide (1 < length displayCommits)
    then deref (PushPayload.Compare payload)
    else ret (DisplayCommit.URL firstCommit) in
  let data :=
    pushTemplateData payload displayCommits branchName branchUrl location
      extensionUrl in
  let* rendered := templateExecute "push" data in
  match rendered with
  | inr err => ret (None, Some err)
  | inl mailHtml =>
      let* senderUserName := deref (Pusher.Name (PushPayload.Pusher payload)) in
      let* senderName :=
        senderNameLoop (PushPayload.Commits payload) senderUserName
          senderUserName in
      let sender := senderAddress senderName senderUserName in
      let* subjectCommit := index displayCommits 0 in
      let* fullName' := deref (Repository.FullName (PushPayload.Repo payload)) in
      let subject :=
        "[" +:+ fullName' +:+ "] " +:+ DisplayCommit.ShortSHA subjectCommit
          +:+ ": " +:+ DisplayCommit.Title subjectCommit in
      let* _ := createThreadsLoop displayCommits subject in
      ret (Some {| mail.Sender := sender;
                   mail.To := [getRecipient];
                   mail.Subject := subject;
                   mail.HTMLBody := mailHtml |},
           None)
  end.

Definition commentTemplateData (payload : CommitCommentPayload.t)
    (commitShortSHA body commitURL location : string) : gmap string Value :=
  let comment := CommitCommentPayload.Comment payload in
  list_to_map
    [ ("Payload", VCommitCommentPayload payload);
      ("Comment", VComment comment);
      ("Sender", VUser (CommitCommentPayload.Sender payload));
      ("Repo", VRepository (CommitCommentPayload.Repo payload));
      ("ShortSHA", VString commitShortSHA);
      ("Body", VString body);
      ("CommitURL", VString commitURL);
      ("UpdatedDisplayDate",
        VString (safeFormattedDate E
                   (formatTime E location (DisplayDateFormat E)
                      (Comment.UpdatedAt comment)))) ].

Definition handleCommitCommentPayload (payload : CommitCommentPayload.t)
  : M (option mail.Message * option error) :=
  let location := "America/Los_Angeles" in
  let repo := CommitCommentPayload.Repo payload in
  let* commitSHA := deref (Comment.CommitID (CommitCommentPayload.Comment payload)) in
  let* commitShortSHA := sliceTo commitSHA 7 in
  let* repoURL := deref (Repository.URL repo) in
  let commitURL := repoURL +:+ "/commit/" +:+ commitSHA in
  let* body0 := deref (Comment.Body (CommitCommentPayload.Comment payload)) in
  let* body :=
    if decide (0 < String.length body0)
    then renderMessageMarkdown body0 repo
    else ret body0 in
  let data := commentTemplateData payload commitShortSHA body commitURL location in
  let* rendered := templateExecute "commit-comment" data in
  match rendered with
  | inr err => ret (None, Some err)
  | inl mailHtml =>
      let* senderUserName := deref (User.Login (CommitCommentPayload.Sender payload)) in
      let senderName := senderUserName in
      let sender := senderAddress senderName senderUserName in
      let* stored := getSubjectForCommit commitSHA in
      let* subject :=
        if String.eqb stored ""
        then
          let* fullName := deref (Repository.FullName repo) in
          ret ("[" +:+ fullName +:+ "] " +:+ commitShortSHA)
        else ret stored in
      ret (Some {| mail.Sender := sender;
                   mail.To := [getRecipient];
                   mail.Subject := subject;
                   mail.HTMLBody := mailHtml |},
           None)
  end.

(** [decoder.Decode(&payload)] reads the body from the reader. *)
Definition decodePush (payloadReader : string) : M (PushPayload.t + error) :=
  let* _ := emit (JsonDecode payloadReader) in
  ret (decodePushPayload E payloadReader).

Definition decodeCommitComment (payloadReader : string)
  : M (CommitCommentPayload.t + error) :=
  let* _ := emit (JsonDecode payloadReader) in
  ret (decodeCommitCommentPayload E payloadReader).

Definition handlePayload (eventType : string) (payloadReader : string)
  : M (option mail.Message * option error) :=
  if String.eqb eventType "push" then
    let* decoded := decodePush payloadReader in
    match decoded with
    | inr err => ret (None, Some err)
    | inl payload => handlePushPayload payload
    end
  else if String.eqb eventType "commit_comment" then
    let* decoded := decodeCommitComment payloadReader in
    match decoded with
    | inr err => ret (None, Some err)
    | inl payload => handleCommitCommentPayload payload
    end
  else ret (None, None).

Definition hookHandler (r : http.Request) : M http.Response :=
  let eventType := default "" (http.Header r !! "X-Github-Event") in
  let* handled := handlePayload eventType (http.Body r) in
  match handled with
  | (_, Some err) =>
      let* _ := logErrorf ("Error " +:+ err +:+ " handling " +:+ eventType
                             +:+ " payload") in
      ret (http.Error "Error handling payload" http.StatusInternalServerError)
  | (None, None) =>
      let* _ := logWarningf ("Unhandled event type: " +:+ eventType) in
      ret (http.mkResponse http.StatusOK
             ("Unhandled event type: %s" +:+ eventType))
  | (Some message, None) =>
      let* err := mail_Send message in
      match err with
      | Some e =>
          let* _ := logErrorf ("Could not send mail: " +:+ e) in
          ret (http.Error "Could not send mail" http.StatusInternalServerError)
      | None =>
          let* to0 := index (mail.To message) 0 in
          let* _ := logInfof ("Sent mail to " +:+ to0) in
          ret (http.mkResponse http.StatusOK "OK")
      end
  end.

End Handlers.

(** ** Sample collaborators and payloads *)

Module Samples.

Definition showValue (v : option Value) : string :=
  match v with
  | Some (VString s) => s
  | _ => ""
  end.

(** A stand-in template engine: it prints the link and the body it was
    given, and fails on an unknown template name. *)
Definition sampleTemplates (name : string) (data : gmap string Value)
  : string + error :=
  if String.eqb name "push"
  then inl ("<a href=" +:+ showValue (data !! "ExtensionURL") +:+ ">diff</a>")
  else if String.eqb name "commit-comment"
  then inl ("<div>" +:+ showValue (data !! "Body") +:+ "</div>")
  else inr "template: no such template".

Definition org_repo : Repository.t :=
  {| Repository.FullName := Some "org/repo";
     Repository.URL := Some "https://github.com/org/repo";
     Repository.PushedAt := 1400000000%Z |}.

Definition alice : WebHookAuthor.t :=
  {| WebHookAuthor.Name := Some "Alice A"; WebHookAuthor.Username := Some "alice" |}.
Definition bob : WebHookAuthor.t :=
  {| WebHookAuthor.Name := Some "Bob B"; WebHookAuthor.Username := Some "bob" |}.

Definition fix_bug : WebHookCommit.t :=
  {| WebHookCommit.ID := "abc1234def5678";
     WebHookCommit.Message := "Fix bug";
     WebHookCommit.Timestamp := 1399999000%Z;
     WebHookCommit.URL := "https://github.com/org/repo/commit/abc1234def5678";
     WebHookCommit.Author := alice;
     WebHookCommit.Committer := alice |}.

Definition add_test : WebHookCommit.t :=
  {| WebHookCommit.ID := "fedcba9876543210";
     WebHookCommit.Message := "Add test";
     WebHookCommit.Timestamp := 1399999500%Z;
     WebHookCommit.URL := "https://github.com/org/repo/commit/fedcba9876543210";
     WebHookCommit.Author := alice;
     WebHookCommit.Committer := bob |}.

Definition push (ref : string) (pusher : string)
    (commits : list WebHookCommit.t) : PushPayload.t :=
  {| PushPayload.Ref := Some ref;
     PushPayload.Compare := Some "https://github.com/org/repo/compare/000...fed";
     PushPayload.Repo := org_repo;
     PushPayload.Pusher := {| Pusher.Name := Some pusher |};
     PushPayload.Sender := {| User.Login := Some pusher |};
     PushPayload.Commits := commits |}.

Definition two_commits : PushPayload.t :=
  push "refs/heads/main" "bob" [fix_bug; add_test].

Definition comment_on (sha body : string) : CommitCommentPayload.t :=
  {| CommitCommentPayload.Comment :=
       {| Comment.CommitID := Some sha;
          Comment.Body := Some body;
          Comment.UpdatedAt := 1400000100%Z |};
     CommitCommentPayload.Repo := org_repo;
     CommitCommentPayload.Sender := {| User.Login := Some "carol" |} |}.

(** A stand-in decoder: the body [push] or [comment] decodes to a sample
    payload, anything else is malformed. *)
Definition env : Collaborators :=
  {| appID := "bettermail";
     isDevAppServer := false;
     templateOutput := sampleTemplates;
     markdownHTML := λ body _, "<p>" +:+ body +:+ "</p>";
     decodePushPayload := λ body,
       if String.eqb body "push" then inl two_commits
       else inr "unexpected end of JSON input";
     decodeCommitCommentPayload := λ body,
       if String.eqb body "comment" then inl (comment_on "abc1234def5678" "LGTM")
       else inr "unexpected end of JSON input";
     formatTime := λ _ _ _, "Tue May 13";
     DisplayDateFormat := "3:04pm";
     DisplayDateFullFormat := "Monday January 2 3:04pm";
     safeFormattedDate := λ s, s;
     authorDisplayName := λ commit _,
       default "" (WebHookAuthor.Name (WebHookCommit.Author commit)) |}.

Definition fresh : World := mkWorld ∅ [] [].

Definition one_commit : PushPayload.t :=
  push "refs/heads/main" "bob" [fix_bug].

Definition display (commit : WebHookCommit.t) (shortSHA title : string)
  : DisplayCommit.t :=
  {| DisplayCommit.SHA := WebHookCommit.ID commit;
     DisplayCommit.ShortSHA := shortSHA;
     DisplayCommit.Title := title;
     DisplayCommit.URL :=
       "https://github.com/org/repo/commit/" +:+ WebHookCommit.ID commit;
     DisplayCommit.AuthorDisplayName := "Alice A";
     DisplayCommit.DisplayDate := "Tue May 13";
     DisplayCommit.DisplayDateTooltip := "Tue May 13" |}.

(** What the two sample pushes hand to the "push" template. *)
Definition one_commit_data : gmap string Value :=
  pushTemplateData env one_commit [display fix_bug "abc1234" "Fix bug"]
    "main" "https://github.com/org/repo/tree/main" "America/Los_Angeles"
    "https://github.com/org/repo/commit/abc1234def5678".

Definition two_commits_data : gmap string Value :=
  pushTemplateData env two_commits
    [display fix_bug "abc1234" "Fix bug"; display add_test "fedcba9" "Add test"]
    "main" "https://github.com/org/repo/tree/main" "America/Los_Angeles"
    "https://github.com/org/repo/compare/000...fed".

(** What the two sample comments hand to the "commit-comment" template. *)
Definition comment_data (body rendered : string) : gmap string Value :=
  commentTemplateData env (comment_on "abc1234def5678" body) "abc1234" rendered
    "https://github.com/org/repo/commit/abc1234def5678" "America/Los_Angeles".

(** The notification for [two_commits]. *)
Definition push_mail_from (sender : string) : mail.Message :=
  {| mail.Sender := sender;
     mail.To := ["eng+commits@quip.com"];
     mail.Subject := "[org/repo] abc1234: Fix bug";
     mail.HTMLBody :=
       "<a href=https://github.com/org/repo/compare/000...fed>diff</a>" |}.

Definition push_mail : mail.Message :=
  push_mail_from "Bob B <bob@bettermail.appspotmail.com>".

End Samples.

(** ** Observing a run *)

(** The world a computation leaves, and the events it added to the trace. *)
Definition with_events (w : World) (evs : list Event) : World :=
  mkWorld (entities w) (rpc_faults w) (trace w ++ evs).

Definition emitted (w w' : World) : list Event :=
  drop (length (trace w)) (trace w').

(** The registry writes among some events, as key and entity. *)
Definition puts (evs : list Event) : list (string * EmailThread) :=
  omap (λ e, match e with
             | DatastorePut key thread => Some (key, thread)
             | _ => None
             end) evs.

(** A computation that neither reads nor changes the world has a value. *)
Definition value_of {A : Type} (m : M A) : result A :=
  fst (m (mkWorld ∅ [] [])).

Definition Pure {A : Type} (m : M A) : Prop :=
  ∀ w, m w = (value_of m, w).

(** What [handlePushPayload] has computed when it calls the template. *)
Record PushContext : Type := mkPushContext {
  pc_displayCommits : list DisplayCommit.t;
  pc_ref : string;
  pc_fullName : string;
  pc_first : DisplayCommit.t;
  pc_extensionUrl : string
}.

Definition pc_branchName (c : PushContext) : string :=
  String.substring 11 (String.length (pc_ref c) - 11) (pc_ref c).

Definition pc_data (E : Collaborators) (p : PushPayload.t) (c : PushContext)
  : gmap string Value :=
  pushTemplateData E p (pc_displayCommits c) (pc_branchName c)
    ("https://github.com/" +:+ pc_fullName c +:+ "/tree/" +:+ pc_branchName c)
    "America/Los_Angeles" (pc_extensionUrl c).

Definition pc_subject (c : PushContext) : string :=
  "[" +:+ pc_fullName c +:+ "] " +:+ DisplayCommit.ShortSHA (pc_first c)
    +:+ ": " +:+ DisplayCommit.Title (pc_first c).

Record push_context (E : Collaborators) (p : PushPayload.t) (c : PushContext)
  : Prop := mk_push_context {
  pc_built :
    value_of (displayCommitsLoop E p "America/Los_Angeles"
                (PushPayload.Commits p) []) = Ret (pc_displayCommits c);
  pc_ref_ok : PushPayload.Ref p = Some (pc_ref c);
  pc_ref_long : 11 ≤ String.length (pc_ref c);
  pc_fullName_ok :
    Repository.FullName (PushPayload.Repo p) = Some (pc_fullName c);
  pc_first_ok : pc_displayCommits c !! 0 = Some (pc_first c);
  pc_extension_ok :
    if decide (1 < length (pc_displayCommits c))
    then PushPayload.Compare p = Some (pc_extensionUrl c)
    else pc_extensionUrl c = DisplayCommit.URL (pc_first c)
}.

(** The outcomes of [handlePushPayload], by the place it stops at. *)
Inductive PushRun (E : Collaborators) (p : PushPayload.t) (w : World)
  : result (option mail.Message * option error) → World → Prop :=
  | push_panics_early pn :
      PushRun E p w (Panic pn) w
  | push_render_fails c err :
      push_context E p c →
      templateOutput E "push" (pc_data E p c) = inr err →
      PushRun E p w (Ret (None, Some err))
        (with_events w [TemplateExecute "push" (pc_data E p c)])
  | push_panics_late c mailHtml pn :
      push_context E p c →
      templateOutput E "push" (pc_data E p c) = inl mailHtml →
      PushRun E p w (Panic pn)
        (with_events w [TemplateExecute "push" (pc_data E p c)])
  | push_sends c mailHtml senderUserName senderName :
      push_context E p c →
      templateOutput E "push" (pc_data E p c) = inl mailHtml →
      Pusher.Name (PushPayload.Pusher p) = Some senderUserName →
      value_of (senderNameLoop (PushPayload.Commits p) senderUserName
                  senderUserName) = Ret senderName →
      PushRun E p w
        (Ret (Some {| mail.Sender := senderAddress E senderName senderUserName;
                      mail.To := [getRecipient E];
                      mail.Subject := pc_subject c;
                      mail.HTMLBody := mailHtml |},
              None))
        (snd (createThreadsLoop (pc_displayCommits c) (pc_subject c)
                (with_events w [TemplateExecute "push" (pc_data E p c)]))).

(** Whether a commit names the user as its author, or as its committer. *)
Definition authorIs (user : string) (commit : WebHookCommit.t) : Prop :=
  WebHookAuthor.Username (WebHookCommit.Author commit) = Some user.

Definition committerIs (user : string) (commit : WebHookCommit.t) : Prop :=
  WebHookAuthor.Username (WebHookCommit.Committer commit) = Some user.

Definition no_match (user : string) (commits : list WebHookCommit.t) : Prop :=
  Forall (λ commit, ¬ authorIs user commit ∧ ¬ committerIs user commit) commits.

(** Sender display-name resolution as section 4.4 of the spec words it: the
    first commit, in payload order, whose author or committer username is
    the pusher's gives the name, its author before its committer; without
    such a commit the name is the username itself. *)
Inductive resolvedName (user : string) (commits : list WebHookCommit.t)
  : string → Prop :=
  | resolved_fallback :
      no_match user commits →
      resolvedName user commits user
  | resolved_author before commit after name :
      commits = before ++ commit :: after →
      no_match user before →
      authorIs user commit →
      WebHookAuthor.Name (WebHookCommit.Author commit) = Some name →
      resolvedName user commits name
  | resolved_committer before commit after name :
      commits = before ++ commit :: after →
      no_match user before →
      ¬ authorIs user commit →
      committerIs user commit →
      WebHookAuthor.Name (WebHookCommit.Committer commit) = Some name →
      resolvedName user commits name.

(** Events of the registry: datastore calls and the log lines around them. *)
Definition registry_event (e : Event) : Prop :=
  match e with
  | DatastorePut _ _ | DatastoreGet _ | LogInfo _ | LogError _ => True
  | _ => False
  end.

(** What a registry read for [sha] finds in world [w]: the stored thread when
    the call goes through and finds one (a hit), nothing when the call fails
    or no thread is stored (a miss). *)
Definition registry_get (w : World) (sha : string) : option EmailThread :=
  match next_fault w with
  | Some _ => None
  | None => entities w !! sha
  end.

(** What [handleCommitCommentPayload] has computed when it reaches the
    comment body. *)
Record CommentContext : Type := mkCommentContext {
  cc_commitSHA : string;
  cc_repoURL : string;
  cc_body : string
}.

Record comment_context (p : CommitCommentPayload.t) (c : CommentContext)
  : Prop := mk_comment_context {
  cc_commitSHA_ok :
    Comment.CommitID (CommitCommentPayload.Comment p) = Some (cc_commitSHA c);
  cc_commitSHA_long : 7 ≤ String.length (cc_commitSHA c);
  cc_repoURL_ok :
    Repository.URL (CommitCommentPayload.Repo p) = Some (cc_repoURL c);
  cc_body_ok :
    Comment.Body (CommitCommentPayload.Comment p) = Some (cc_body c)
}.

Definition cc_shortSHA (c : CommentContext) : string :=
  String.substring 0 7 (cc_commitSHA c).

Definition cc_rendered (E : Collaborators) (p : CommitCommentPayload.t)
    (c : CommentContext) : string :=
  if decide (0 < String.length (cc_body c))
  then markdownHTML E (cc_body c) (CommitCommentPayload.Repo p)
  else cc_body c.

Definition cc_data (E : Collaborators) (p : CommitCommentPayload.t)
    (c : CommentContext) : gmap string Value :=
  commentTemplateData E p (cc_shortSHA c) (cc_rendered E p c)
    (cc_repoURL c +:+ "/commit/" +:+ cc_commitSHA c) "America/Los_Angeles".

(** The events of a comment run up to and including the template call. *)
Definition cc_events (E : Collaborators) (p : CommitCommentPayload.t)
    (c : CommentContext) : list Event :=
  (if decide (0 < String.length (cc_body c))
   then [MarkdownRender (cc_body c)] else [])
  ++ [TemplateExecute "commit-comment" (cc_data E p c)].

(** The world after the registry read of a comment run. *)
Definition cc_after_get (E : Collaborators) (p : CommitCommentPayload.t)
    (c : CommentContext) (w : World) : World :=
  snd (getSubjectForCommit (cc_commitSHA c) (with_events w (cc_events E p c))).

(** The outcomes of [handleCommitCommentPayload], by the place it stops at. *)
Inductive CommentRun (E : Collaborators) (p : CommitCommentPayload.t)
    (w : World)
  : result (option mail.Message * option error) → World → Prop :=
  | comment_panics_early pn :
      CommentRun E p w (Panic pn) w
  | comment_render_fails c err :
      comment_context p c →
      templateOutput E "commit-comment" (cc_data E p c) = inr err →
      CommentRun E p w (Ret (None, Some err)) (with_events w (cc_events E p c))
  | comment_panics_at_sender c mailHtml :
      comment_context p c →
      templateOutput E "commit-comment" (cc_data E p c) = inl mailHtml →
      User.Login (CommitCommentPayload.Sender p) = None →
      CommentRun E p w (Panic NilDereference) (with_events w (cc_events E p c))
  | comment_panics_at_fallback c mailHtml user :
      comment_context p c →
      templateOutput E "commit-comment" (cc_data E p c) = inl mailHtml →
      User.Login (CommitCommentPayload.Sender p) = Some user →
      match registry_get w (cc_commitSHA c) with
      | Some thread => Subject thread = ""
      | None => True
      end →
      Repository.FullName (CommitCommentPayload.Repo p) = None →
      CommentRun E p w (Panic NilDereference) (cc_after_get E p c w)
  | comment_sends c mailHtml user subject :
      comment_context p c →
      templateOutput E "commit-comment" (cc_data E p c) = inl mailHtml →
      User.Login (CommitCommentPayload.Sender p) = Some user →
      match registry_get w (cc_commitSHA c) with
      | Some thread =>
          if String.eqb (Subject thread) ""
          then ∃ fullName,
                 Repository.FullName (CommitCommentPayload.Repo p) = Some fullName ∧
                 subject = "[" +:+ fullName +:+ "] " +:+ cc_shortSHA c
          else subject = Subject thread
      | None =>
          ∃ fullName,
            Repository.FullName (CommitCommentPayload.Repo p) = Some fullName ∧
            subject = "[" +:+ fullName +:+ "] " +:+ cc_shortSHA c
      end →
      CommentRun E p w
        (Ret (Some {| mail.Sender := senderAddress E user user;
                      mail.To := [getRecipient E];
                      mail.Subject := subject;
                      mail.HTMLBody := mailHtml |},
              None))
        (cc_after_get E p c w).

(** The event-type tags [handlePayload] recognizes. *)
Definition recognized (eventType : string) : Prop :=
  eventType = "push" ∨ eventType = "commit_comment".

(** A recognized tag whose payload body does not decode, with the error. *)
Definition malformed (E : Collaborators) (eventType body : string) (err : error)
  : Prop :=
  (eventType = "push" ∧ decodePushPayload E body = inr err) ∨
  (eventType = "commit_comment" ∧ decodeCommitCommentPayload E body = inr err).

(** Every thread in the registry carries a subject. *)
Definition threads_named (w : World) : Prop :=
  ∀ key thread, entities w !! key = Some thread → Subject thread ≠ "".

(** The worlds the service can be in: it starts with an empty registry, and
    every step is a request handled by one of the entry points, under any
    schedule of service failures. *)
Inductive reachable (E : Collaborators) : World → Prop :=
  | reachable_fresh faults :
      reachable E (mkWorld ∅ faults [])
  | reachable_faults w faults :
      reachable E w →
      reachable E (mkWorld (entities w) faults (trace w))
  | reachable_push p w :
      reachable E w →
      reachable E (snd (handlePushPayload E p w))
  | reachable_comment p w :
      reachable E w →
      reachable E (snd (handleCommitCommentPayload E p w))
  | reachable_payload eventType body w :
      reachable E w →
      reachable E (snd (handlePayload E eventType body w))
  | reachable_hook r w :
      reachable E w →
      reachable E (snd (hookHandler E r w)).

(** A computation keeps a property of the world. *)
Definition preserves {A : Type} (I : World → Prop) (m : M A) : Prop :=
  ∀ w, I w → I (snd (m w)).

(** ** The auxiliary handlers

    [hookTestHarnessHandler], [bounceHandler], [testSubjectHandler] and
    [testMailSendHandler].  They read further parts of the request and write
    their pages straight to the response. *)

Module httpx.
(** [Method] is [r.Method]; [URLQuery] is [r.URL.Query()]; [Form] is the
    parsed form [r.FormValue] reads, body parameters before query
    parameters; [BodyRead] is the result of [ioutil.ReadAll(r.Body)]. *)
Record Request : Type := mkRequest {
  Method : string;
  URLQuery : gmap string (list string);
  Form : gmap string (list string);
  BodyRead : string + error
}.
Definition StatusMethodNotAllowed : nat := 405.
(** [r.FormValue(key)]: the first value of the key, the empty string when
    there is none. *)
Definition FormValue (r : Request) (key : string) : string :=
  match Form r !! key with
  | Some (v :: _) => v
  | _ => ""
  end.
End httpx.

(** The values of the [map[string]interface{}] handed to the templates of
    the auxiliary pages; [nil] pointers and [nil] errors are [None]. *)
Inductive PageValue : Type :=
  | PString (s : string)
  | PMessage (m : option mail.Message)
  | PError (e : option error).

Section AuxiliaryHandlers.

Variable E : Collaborators.

(** [templates[name].Execute(w, data)] on the response writer: what it
    writes, for [nil] data ([None]) or a map.  The handlers drop the error
    it returns. *)
Variable pageWritten : string → option (gmap string PageValue) → string.

Definition hookTestHarnessHandler (r : httpx.Request) : M http.Response :=
  if String.eqb (httpx.Method r) "GET" then
    ret (http.mkResponse http.StatusOK (pageWritten "hook-test-harness" None))
  else if String.eqb (httpx.Method r) "POST" then
    let eventType := httpx.FormValue r "event_type" in
    let payload := httpx.FormValue r "payload" in
    let* handled := handlePayload E eventType payload in
    let data : gmap string PageValue :=
      list_to_map
        [ ("EventType", PString eventType);
          ("Payload", PString payload);
          ("Message", PMessage (fst handled));
          ("MessageErr", PError (snd handled)) ] in
    ret (http.mkResponse http.StatusOK
           (pageWritten "hook-test-harness" (Some data)))
  else ret (http.Error "" httpx.StatusMethodNotAllowed).

Definition bounceHandler (r : httpx.Request) : M http.Response :=
  match httpx.BodyRead r with
  | inl b =>
      let* _ := logWarningf ("Bounce: " +:+ b) in
      ret (http.mkResponse http.StatusOK "")
  | inr _ =>
      let* _ := logWarningf "Bounce: <unreadable body>" in
      ret (http.mkResponse http.StatusOK "")
  end.

Definition testSubjectHandler (r : httpx.Request) : M http.Response :=
  if negb (isDevAppServer E) then
    ret (http.Error "" httpx.StatusMethodNotAllowed)
  else
    let values := httpx.URLQuery r in
    let '(sha, ok) :=
      match values !! "sha" with
      | Some l => (l, true)
      | None => ([], false)
      end in
    if negb ok || bool_decide (length sha < 1) then
      ret (http.Error "Need to specify sha param"
             http.StatusInternalServerError)
    else
      let* sha0 := index sha 0 in
      let* subject := getSubjectForCommit sha0 in
      ret (http.mkResponse http.StatusOK
             (subject +:+ String (Ascii.ascii_of_nat 10) EmptyString)).

Definition testMailSendHandler (r : httpx.Request) : M http.Response :=
  if String.eqb (httpx.Method r) "GET" then
    ret (http.mkResponse http.StatusOK (pageWritten "test-mail-send" None))
  else if String.eqb (httpx.Method r) "POST" then
    let message :=
      {| mail.Sender := httpx.FormValue r "sender";
         mail.To := ["mihai@quip.com"];
         mail.Subject := httpx.FormValue r "subject";
         mail.HTMLBody := httpx.FormValue r "html_body" |} in
    let* err := mail_Send message in
    let data : gmap string PageValue :=
      list_to_map [ ("Message", PMessage (Some message)); ("SendErr", PError err) ] in
    ret (http.mkResponse http.StatusOK
           (pageWritten "test-mail-send" (Some data)))
  else ret (http.Error "" httpx.StatusMethodNotAllowed).

End AuxiliaryHandlers.

Module AuxSamples.

(** A stand-in for the auxiliary pages: the template name, and whether data
    was handed to it. *)
Definition pages (name : string) (data : option (gmap string PageValue))
  : string :=
  match data with
  | None => name +:+ ": form"
  | Some _ => name +:+ ": result"
  end.

Definition dev_env : Collaborators :=
  {| appID := appID Samples.env;
     isDevAppServer := true;
     templateOutput := templateOutput Samples.env;
     markdownHTML := markdownHTML Samples.env;
     decodePushPayload := decodePushPayload Samples.env;
     decodeCommitCommentPayload := decodeCommitCommentPayload Samples.env;
     formatTime := formatTime Samples.env;
     DisplayDateFormat := DisplayDateFormat Samples.env;
     DisplayDateFullFormat := DisplayDateFullFormat Samples.env;
     safeFormattedDate := safeFormattedDate Samples.env;
     authorDisplayName := authorDisplayName Samples.env |}.

Definition request (method : string) (query form : list (string * list string))
  : httpx.Request :=
  {| httpx.Method := method;
     httpx.URLQuery := list_to_map query;
     httpx.Form := list_to_map form;
     httpx.BodyRead := inl "" |}.

(** Collaborators whose templates all fail. *)
Definition failing_env : Collaborators :=
  {| appID := appID Samples.env;
     isDevAppServer := false;
     templateOutput := λ _ _, inr "template: exec error";
     markdownHTML := markdownHTML Samples.env;
     decodePushPayload := decodePushPayload Samples.env;
     decodeCommitCommentPayload := decodeCommitCommentPayload Samples.env;
     formatTime := formatTime Samples.env;
     DisplayDateFormat := DisplayDateFormat Samples.env;
     DisplayDateFullFormat := DisplayDateFullFormat Samples.env;
     safeFormattedDate := safeFormattedDate Samples.env;
     authorDisplayName := authorDisplayName Samples.env |}.

(** The context of a push, read off the payload. *)
Definition push_context_of (E : Collaborators) (p : PushPayload.t)
  : PushContext :=
  let displayCommits :=
    match value_of (displayCommitsLoop E p "America/Los_Angeles"
                      (PushPayload.Commits p) []) with
    | Ret l => l
    | Panic _ => []
    end in
  let first :=
    default (Samples.display Samples.fix_bug "" "") (displayCommits !! 0) in
  {| pc_displayCommits := displayCommits;
     pc_ref := default "" (PushPayload.Ref p);
     pc_fullName := default "" (Repository.FullName (PushPayload.Repo p));
     pc_first := first;
     pc_extensionUrl :=
       if decide (1 < length displayCommits)
       then default "" (PushPayload.Compare p)
       else DisplayCommit.URL first |}.

(** The context of a comment, read off the payload. *)
Definition comment_context_of (p : CommitCommentPayload.t) : CommentContext :=
  {| cc_commitSHA :=
       default "" (Comment.CommitID (CommitCommentPayload.Comment p));
     cc_repoURL := default "" (Repository.URL (CommitCommentPayload.Repo p));
     cc_body := default "" (Comment.Body (CommitCommentPayload.Comment p)) |}.

(** A commit whose author has no account, hence no username. *)
Definition by_stranger : WebHookCommit.t :=
  {| WebHookCommit.ID := "5555555aaaaaaa";
     WebHookCommit.Message := "Typo";
     WebHookCommit.Timestamp := 1399998000%Z;
     WebHookCommit.URL := "https://github.com/org/repo/commit/5555555aaaaaaa";
     WebHookCommit.Author :=
       {| WebHookAuthor.Name := Some "Dana D"; WebHookAuthor.Username := None |};
     WebHookCommit.Committer := Samples.bob |}.

(** A comment payload of a repository without full name. *)
Definition comment_no_full_name (sha : string) : CommitCommentPayload.t :=
  {| CommitCommentPayload.Comment :=
       {| Comment.CommitID := Some sha;
          Comment.Body := Some "LGTM";
          Comment.UpdatedAt := 1400000100%Z |};
     CommitCommentPayload.Repo :=
       {| Repository.FullName := None;
          Repository.URL := Some "https://github.com/org/repo";
          Repository.PushedAt := 1400000000%Z |};
     CommitCommentPayload.Sender := {| User.Login := Some "carol" |} |}.

End AuxSamples.

(** ** Further observations of a run *)

(** A computation adds to the trace only events of a kind. *)
Definition emits {A : Type} (P : Event → Prop) (m : M A) : Prop :=
  ∀ w, ∃ evs, trace (snd (m w)) = trace w ++ evs ∧ Forall P evs.

(** The events of a push run, of a comment run, and of either behind
    [handlePayload]. *)
Definition push_event (e : Event) : Prop :=
  match e with
  | TemplateExecute _ _ | DatastorePut _ _ | LogInfo _ | LogError _ => True
  | _ => False
  end.

Definition comment_event (e : Event) : Prop :=
  match e with
  | MarkdownRender _ | TemplateExecute _ _ | DatastoreGet _ | LogInfo _ => True
  | _ => False
  end.

Definition payload_event (e : Event) : Prop :=
  match e with
  | MailSend _ | LogWarning _ => False
  | _ => True
  end.

(** A property of the world that only looks at the registry. *)
Definition entities_only (I : World → Prop) : Prop :=
  ∀ w w', entities w = entities w' → I w → I w'.

(** Every thread of the registry, with the key it is stored under, has a
    property. *)
Definition all_threads (Q : string → EmailThread → Prop) (w : World) : Prop :=
  ∀ key thread, entities w !! key = Some thread → Q key thread.

(** A thread as [handlePushPayload] writes it: it records the key it is
    stored under, and its subject has the form of a push subject. *)
Definition push_thread (key : string) (thread : EmailThread) : Prop :=
  CommitSHA thread = key ∧
  ∃ fullName shortSHA title,
    Subject thread = "[" +:+ fullName +:+ "] " +:+ shortSHA +:+ ": " +:+ title.

(** A commit whose author and committer both carry a username, neither of
    them the user's. *)
Definition other_user (user : string) (commit : WebHookCommit.t) : Prop :=
  ∃ author committer,
    WebHookAuthor.Username (WebHookCommit.Author commit) = Some author ∧
    WebHookAuthor.Username (WebHookCommit.Committer commit) = Some committer ∧
    author ≠ user ∧ committer ≠ user.

(** The messages handed to the mail transport among some events. *)
Definition mails (evs : list Event) : list mail.Message :=
  omap (λ e, match e with MailSend m => Some m | _ => None end) evs.

(** The worlds the whole service can be in: it starts with an empty
    registry, and every step is a request served by one of the five handlers
    [init] registers, under any schedule of service failures. *)
Inductive service_reachable (E : Collaborators)
    (pageWritten : string → option (gmap string PageValue) → string)
  : World → Prop :=
  | service_fresh faults :
      service_reachable E pageWritten (mkWorld ∅ faults [])
  | service_faults w faults :
      service_reachable E pageWritten w →
      service_reachable E pageWritten (mkWorld (entities w) faults (trace w))
  | service_hook r w :
      service_reachable E pageWritten w →
      service_reachable E pageWritten (snd (hookHandler E r w))
  | service_hook_test_harness r w :
      service_reachable E pageWritten w →
      service_reachable E pageWritten
        (snd (hookTestHarnessHandler E pageWritten r w))
  | service_test_mail_send r w :
      service_reachable E pageWritten w →
      service_reachable E pageWritten (snd (testMailSendHandler pageWritten r w))
  | service_bounce r w :
      service_reachable E pageWritten w →
      service_reachable E pageWritten (snd (bounceHandler r w))
  | service_test_subject r w :
      service_reachable E pageWritten w →
      service_reachable E pageWritten (snd (testSubjectHandler E r w)).

(** A computation leaves the registry as it found it. *)
Definition keeps_entities {A : Type} (m : M A) : Prop :=
  ∀ w, entities (snd (m w)) = entities w.

(** The scan for the sender's display name, outcome by outcome.  A commit
    the scan passes carries both usernames, neither of them the pusher's
    ([other_user]).  The scan gives a name when it passes every commit, or
    when the first commit it does not pass names the pusher, as author or
    else as committer, and carries the name of that person. *)
Inductive scan_resolves (user : string) (commits : list WebHookCommit.t)
  : string → Prop :=
  | scan_fallback :
      Forall (other_user user) commits →
      scan_resolves user commits user
  | scan_author before commit after name :
      commits = before ++ commit :: after →
      Forall (other_user user) before →
      authorIs user commit →
      WebHookAuthor.Name (WebHookCommit.Author commit) = Some name →
      scan_resolves user commits name
  | scan_committer before commit after author name :
      commits = before ++ commit :: after →
      Forall (other_user user) before →
      WebHookAuthor.Username (WebHookCommit.Author commit) = Some author →
      author ≠ user →
      committerIs user commit →
      WebHookAuthor.Name (WebHookCommit.Committer commit) = Some name →
      scan_resolves user commits name.

(** What the scan dereferences at a commit and finds nil: the author's
    username; the author's name when the author is the pusher; the
    committer's username when the author is someone else; the committer's
    name when the committer is the pusher. *)
Definition nil_at (user : string) (commit : WebHookCommit.t) : Prop :=
  WebHookAuthor.Username (WebHookCommit.Author commit) = None ∨
  (authorIs user commit ∧
   WebHookAuthor.Name (WebHookCommit.Author commit) = None) ∨
  (∃ author,
     WebHookAuthor.Username (WebHookCommit.Author commit) = Some author ∧
     author ≠ user ∧
     (WebHookAuthor.Username (WebHookCommit.Committer commit) = None ∨
      (committerIs user commit ∧
       WebHookAuthor.Name (WebHookCommit.Committer commit) = None))).

(** The scan reaches a commit at which it dereferences nil. *)
Inductive scan_panics (user : string) (commits : list WebHookCommit.t) : Prop :=
  | scan_panics_at before commit after :
      commits = before ++ commit :: after →
      Forall (other_user user) before →
      nil_at user commit →
      scan_panics user commits.

(** [handlePushPayload] over any display-commit builder.  [newDisplayCommit]
    is defined outside [bettermail.go] and receives the request context, so
    the file alone does not say what it does with it; here the body of
    [handlePushPayload] is read with the call taken as a parameter. *)
Fixpoint displayCommitsLoopWith
    (build : WebHookCommit.t → User.t → Repository.t → string
             → M DisplayCommit.t)
    (payload : PushPayload.t) (location : string)
    (commits : list WebHookCommit.t) (displayCommits : list DisplayCommit.t)
  : M (list DisplayCommit.t) :=
  match commits with
  | [] => ret displayCommits
  | commit :: rest =>
      let* d := build commit (PushPayload.Sender payload)
                  (PushPayload.Repo payload) location in
      displayCommitsLoopWith build payload location rest (displayCommits ++ [d])
  end.

Definition handlePushPayloadWith (E : Collaborators)
    (build : WebHookCommit.t → User.t → Repository.t → string
             → M DisplayCommit.t)
    (payload : PushPayload.t)
  : M (option mail.Message * option error) :=
  let location := "America/Los_Angeles" in
  let* displayCommits :=
    displayCommitsLoopWith build payload location
      (PushPayload.Commits payload) [] in
  let* ref := deref (PushPayload.Ref payload) in
  let* branchName := sliceFrom ref 11 in
  let* fullName := deref (Repository.FullName (PushPayload.Repo payload)) in
  let branchUrl := "https://github.com/" +:+ fullName +:+ "/tree/" +:+ branchName in
  let* firstCommit := index displayCommits 0 in
  let* extensionUrl :=
    if decide (1 < length displayCommits)
    then deref (PushPayload.Compare payload)
    else ret (DisplayCommit.URL firstCommit) in
  let data :=
    pushTemplateData E payload displayCommits branchName branchUrl location
      extensionUrl in
  let* rendered := templateExecute E "push" data in
  match rendered with
  | inr err => ret (None, Some err)
  | inl mailHtml =>
      let* senderUserName := deref (Pusher.Name (PushPayload.Pusher payload)) in
      let* senderName :=
        senderNameLoop (PushPayload.Commits payload) senderUserName
          senderUserName in
      let sender := senderAddress E senderName senderUserName in
      let* subjectCommit := index displayCommits 0 in
      let* fullName' := deref (Repository.FullName (PushPayload.Repo payload)) in
      let subject :=
        "[" +:+ fullName' +:+ "] " +:+ DisplayCommit.ShortSHA subjectCommit
          +:+ ": " +:+ DisplayCommit.Title subjectCommit in
      let* _ := createThreadsLoop displayCommits subject in
      ret (Some {| mail.Sender := sender;
                   mail.To := [getRecipient E];
                   mail.Subject := subject;
                   mail.HTMLBody := mailHtml |},
           None)
  end.

(** What [handlePushPayload] has computed when it calls the template, over
    any builder: running the loop from world [w] gives the display commits
    and the world [w0] the builder leaves. *)
Record push_context_with
    (build : WebHookCommit.t → User.t → Repository.t → string
             → M DisplayCommit.t)
    (p : PushPayload.t) (w : World) (c : PushContext) (w0 : World)
  : Prop := mk_push_context_with {
  pcw_built :
    displayCommitsLoopWith build p "America/Los_Angeles"
      (PushPayload.Commits p) [] w = (Ret (pc_displayCommits c), w0);
  pcw_ref_ok : PushPayload.Ref p = Some (pc_ref c);
  pcw_ref_long : 11 ≤ String.length (pc_ref c);
  pcw_fullName_ok :
    Repository.FullName (PushPayload.Repo p) = Some (pc_fullName c);
  pcw_first_ok : pc_displayCommits c !! 0 = Some (pc_first c);
  pcw_extension_ok :
    if decide (1 < length (pc_displayCommits c))
    then PushPayload.Compare p = Some (pc_extensionUrl c)
    else pc_extensionUrl c = DisplayCommit.URL (pc_first c)
}.

(** ** Monad lemmas *)

Lemma bind_Ret {A B : Type} (m : M A) (f : A → M B) w a w1 :
  m w = (Ret a, w1) → bind m f w = f a w1.
Proof. intros H. unfold bind. by rewrite H. Qed.

Lemma bind_Pure {A B : Type} (m : M A) (f : A → M B) w :
  Pure m →
  bind m f w = match value_of m with
               | Ret a => f a w
               | Panic pn => (Panic pn, w)
               end.
Proof. intros H. unfold bind. rewrite (H w). by destruct (value_of m). Qed.

Lemma Pure_ret {A : Type} (a : A) : Pure (ret a).
Proof. by intros w. Qed.

Lemma Pure_raise {A : Type} (pn : panic) : Pure (@raise A pn).
Proof. by intros w. Qed.

Lemma Pure_deref {A : Type} (o : option A) : Pure (deref o).
Proof. destruct o; by intros w. Qed.

Lemma Pure_sliceFrom s lo : Pure (sliceFrom s lo).
Proof. unfold sliceFrom. case_decide; by intros w. Qed.

Lemma Pure_sliceTo s hi : Pure (sliceTo s hi).
Proof. unfold sliceTo. case_decide; by intros w. Qed.

Lemma Pure_index {A : Type} (l : list A) i : Pure (index l i).
Proof. unfold index. destruct (l !! i); by intros w. Qed.

Lemma Pure_bind {A B : Type} (m : M A) (f : A → M B) :
  Pure m → (∀ a, Pure (f a)) → Pure (bind m f).
Proof.
  intros Hm Hf w. unfold value_of. rewrite !(bind_Pure _ _ _ Hm).
  destruct (value_of m) as [a|pn]; [|done]. apply Hf.
Qed.

Lemma Pure_if {A : Type} (b : bool) (m1 m2 : M A) :
  Pure m1 → Pure m2 → Pure (if b then m1 else m2).
Proof. by destruct b. Qed.

Create HintDb pure.
#[local] Hint Resolve Pure_ret Pure_raise Pure_deref Pure_sliceFrom Pure_sliceTo
  Pure_index Pure_if : pure.
#[local] Hint Extern 2 (Pure (bind _ _)) => apply Pure_bind; [|intros ?] : pure.

Lemma value_of_ret {A : Type} (a : A) : value_of (ret a) = Ret a.
Proof. done. Qed.

Lemma value_of_bind {A B : Type} (m : M A) (f : A → M B) :
  Pure m →
  value_of (bind m f) = match value_of m with
                        | Ret a => value_of (f a)
                        | Panic pn => Panic pn
                        end.
Proof.
  intros Hm. unfold value_of at 1. rewrite (bind_Pure _ _ _ Hm).
  by destruct (value_of m).
Qed.

Lemma substring_whole (s : string) : String.substring 0 (String.length s) s = s.
Proof. induction s as [|a s IH]; simpl; [done|]. by rewrite IH. Qed.

(** Slicing a string from the length of a prefix on leaves what follows it. *)
Lemma substring_after_prefix (prefix rest : string) :
  String.substring (String.length prefix)
    (String.length (prefix +:+ rest) - String.length prefix) (prefix +:+ rest)
  = rest.
Proof.
  induction prefix as [|a prefix IH]; simpl.
  - rewrite Nat.sub_0_r. apply substring_whole.
  - apply IH.
Qed.

Section Purity.

Variable E : Collaborators.

Lemma Pure_newDisplayCommit commit sender repo location :
  Pure (newDisplayCommit E commit sender repo location).
Proof. unfold newDisplayCommit. auto with pure. Qed.

Lemma Pure_displayCommitsLoop p location commits acc :
  Pure (displayCommitsLoop E p location commits acc).
Proof.
  revert acc. induction commits as [|commit rest IH]; intros acc; simpl.
  - apply Pure_ret.
  - apply Pure_bind; [apply Pure_newDisplayCommit | intros d; apply IH].
Qed.

Lemma Pure_senderNameLoop commits senderUserName senderName :
  Pure (senderNameLoop commits senderUserName senderName).
Proof.
  induction commits as [|commit rest IH]; simpl; auto 10 with pure.
Qed.

End Purity.

Section Runs.

Variable E : Collaborators.

Lemma createThread_returns sha subject w :
  fst (createThread sha subject w) = Ret ().
Proof.
  unfold createThread, datastore_Put, bind, emit, pop_fault; simpl.
  destruct (rpc_faults w) as [|[e|] rest]; reflexivity.
Qed.

Lemma createThreadsLoop_returns displayCommits subject w :
  fst (createThreadsLoop displayCommits subject w) = Ret ().
Proof.
  revert w. induction displayCommits as [|d rest IH]; intros w; simpl; [done|].
  unfold bind at 1.
  pose proof (createThread_returns (DisplayCommit.SHA d) subject w) as H.
  destruct (createThread _ _ w) as [r w1]. simpl in H. subst r. apply IH.
Qed.

Lemma templateExecute_run name data w :
  templateExecute E name data w
  = (Ret (templateOutput E name data), with_events w [TemplateExecute name data]).
Proof. reflexivity. Qed.

Lemma handlePushPayload_run p w :
  PushRun E p w (fst (handlePushPayload E p w)) (snd (handlePushPayload E p w)).
Proof.
  unfold handlePushPayload.
  rewrite (bind_Pure _ _ _ (Pure_displayCommitsLoop E _ _ _ _)).
  destruct (value_of (displayCommitsLoop _ _ _ _ _)) as [dcs|pn] eqn:Hdcs;
    [|apply push_panics_early].
  rewrite (bind_Pure _ _ _ (Pure_deref _)).
  destruct (PushPayload.Ref p) as [ref|] eqn:Href; [|apply push_panics_early].
  cbn [deref]. rewrite value_of_ret, (bind_Pure _ _ _ (Pure_sliceFrom _ _)).
  unfold sliceFrom. case_decide as Hlen; [|apply push_panics_early].
  rewrite value_of_ret, (bind_Pure _ _ _ (Pure_deref _)).
  destruct (Repository.FullName _) as [fn|] eqn:Hfn; [|apply push_panics_early].
  cbn [deref]. rewrite value_of_ret, (bind_Pure _ _ _ (Pure_index _ _)).
  unfold index. destruct (dcs !! 0) as [d0|] eqn:Hd0; [|apply push_panics_early].
  rewrite value_of_ret.
  set (ext := if decide (1 < length dcs) then deref (PushPayload.Compare p)
              else ret (DisplayCommit.URL d0)).
  assert (Pure ext) as Hpure by (subst ext; case_decide; auto with pure).
  rewrite (bind_Pure _ _ _ Hpure).
  destruct (value_of ext) as [extensionUrl|pn] eqn:Hext;
    [|apply push_panics_early].
  set (c := mkPushContext dcs ref fn d0 extensionUrl).
  assert (push_context E p c) as Hc.
  { split; simpl; try done.
    subst ext. case_decide.
    - destruct (PushPayload.Compare p); by inversion Hext.
    - by inversion Hext. }
  change (pushTemplateData _ _ _ _ _ _ _) with (pc_data E p c).
  rewrite (bind_Ret _ _ _ _ _ (templateExecute_run _ _ _)).
  destruct (templateOutput E "push" (pc_data E p c)) as [mailHtml|err] eqn:Hout;
    [|by eapply push_render_fails].
  rewrite (bind_Pure _ _ _ (Pure_deref _)).
  destruct (Pusher.Name _) as [senderUserName|] eqn:Hpusher;
    [|by eapply push_panics_late].
  cbn [deref]. rewrite value_of_ret, (bind_Pure _ _ _ (Pure_senderNameLoop _ _ _)).
  destruct (value_of (senderNameLoop _ _ _)) as [senderName|pn] eqn:Hname;
    [|by eapply push_panics_late].
  rewrite !(bind_Pure _ _ _ (Pure_ret _)), !value_of_ret.
  unfold bind. cbn [ret].
  destruct (createThreadsLoop dcs _ _) as [r w'] eqn:Hloop.
  pose proof (createThreadsLoop_returns dcs (pc_subject c)
    (with_events w [TemplateExecute "push" (pc_data E p c)])) as Hret.
  change (pc_subject c) with
    ("[" +:+ fn +:+ "] " +:+ DisplayCommit.ShortSHA d0 +:+ ": "
       +:+ DisplayCommit.Title d0) in Hret.
  rewrite Hloop in Hret. simpl in Hret. subst r. cbn [ret fst snd].
  replace w' with (snd (createThreadsLoop (pc_displayCommits c) (pc_subject c)
    (with_events w [TemplateExecute "push" (pc_data E p c)]))).
  2:{ change (pc_subject c) with
        ("[" +:+ fn +:+ "] " +:+ DisplayCommit.ShortSHA d0 +:+ ": "
           +:+ DisplayCommit.Title d0).
      change (pc_displayCommits c) with dcs. by rewrite Hloop. }
  exact (push_sends E p w c mailHtml senderUserName senderName Hc Hout
           Hpusher Hname).
Qed.

Lemma newDisplayCommit_value commit sender repo location d :
  value_of (newDisplayCommit E commit sender repo location) = Ret d →
  7 ≤ String.length (WebHookCommit.ID commit) ∧
  ∃ repoURL,
    Repository.URL repo = Some repoURL ∧
    DisplayCommit.SHA d = WebHookCommit.ID commit ∧
    DisplayCommit.ShortSHA d = String.substring 0 7 (WebHookCommit.ID commit) ∧
    DisplayCommit.Title d = firstLine (WebHookCommit.Message commit) ∧
    DisplayCommit.URL d = repoURL +:+ "/commit/" +:+ WebHookCommit.ID commit.
Proof.
  unfold newDisplayCommit, value_of, bind, sliceTo.
  case_decide as Hlen; [|done]. cbn [ret].
  destruct (Repository.URL repo) as [repoURL|]; [|done]. cbn [deref ret fst].
  intros [= <-]. split; [done|]. by exists repoURL.
Qed.

Lemma displayCommitsLoop_value p location commits acc dcs :
  value_of (displayCommitsLoop E p location commits acc) = Ret dcs →
  ∃ ds, dcs = acc ++ ds ∧
    Forall2 (λ commit d,
      value_of (newDisplayCommit E commit (PushPayload.Sender p)
                  (PushPayload.Repo p) location) = Ret d) commits ds.
Proof.
  revert acc. induction commits as [|commit rest IH]; intros acc; simpl.
  - rewrite value_of_ret. intros [= <-]. exists []. by rewrite app_nil_r.
  - rewrite value_of_bind by apply Pure_newDisplayCommit.
    destruct (value_of (newDisplayCommit _ _ _ _ _)) as [d|pn] eqn:Hd; [|done].
    intros (ds & -> & Hds)%IH. exists (d :: ds).
    split; [by rewrite <-app_assoc | by constructor].
Qed.

Lemma createThread_run sha subject w :
  createThread sha subject w
  = (Ret (),
     let thread := mkEmailThread sha subject in
     match rpc_faults w with
     | Some e :: rest =>
         mkWorld (entities w) rest
           (trace w ++ [DatastorePut sha thread;
                        LogError ("Error creating thread: " +:+ e)])
     | None :: rest =>
         mkWorld (<[sha := thread]> (entities w)) rest
           (trace w ++ [DatastorePut sha thread;
                        LogInfo ("Created thread: " +:+ showEmailThread thread)])
     | [] =>
         mkWorld (<[sha := thread]> (entities w)) []
           (trace w ++ [DatastorePut sha thread;
                        LogInfo ("Created thread: " +:+ showEmailThread thread)])
     end).
Proof.
  unfold createThread, datastore_Put, bind, emit, pop_fault,
    logErrorf, logInfof, emit; cbn [rpc_faults entities trace].
  destruct (rpc_faults w) as [|[e|] rest]; cbn [rpc_faults entities trace];
    by rewrite <-app_assoc.
Qed.

Lemma createThreadsLoop_cons d rest subject w :
  createThreadsLoop (d :: rest) subject w
  = createThreadsLoop rest subject
      (snd (createThread (DisplayCommit.SHA d) subject w)).
Proof.
  cbn [createThreadsLoop]. unfold bind at 1.
  by rewrite createThread_run.
Qed.

Lemma createThreadsLoop_trace displayCommits subject w :
  ∃ evs,
    trace (snd (createThreadsLoop displayCommits subject w)) = trace w ++ evs ∧
    puts evs = (λ d, (DisplayCommit.SHA d,
                      mkEmailThread (DisplayCommit.SHA d) subject))
               <$> displayCommits ∧
    Forall registry_event evs.
Proof.
  revert w. induction displayCommits as [|d rest IH]; intros w.
  - exists []. by rewrite app_nil_r.
  - rewrite createThreadsLoop_cons, createThread_run. cbn [snd].
    destruct (IH (snd (createThread (DisplayCommit.SHA d) subject w)))
      as (evs & Htr & Hputs & Hreg).
    rewrite createThread_run in Htr. cbn [snd] in Htr.
    destruct (rpc_faults w) as [|[e|] rest'];
      cbn [trace] in Htr; rewrite <-app_assoc in Htr;
      (eexists; split; [exact Htr|]);
      (split; [rewrite fmap_cons, <-Hputs; reflexivity|]);
      repeat constructor; done.
Qed.

(** Every key keeps its entity or receives the thread of this push. *)
Lemma createThreadsLoop_entities displayCommits subject w key :
  let w' := snd (createThreadsLoop displayCommits subject w) in
  entities w' !! key = entities w !! key ∨
  entities w' !! key = Some (mkEmailThread key subject).
Proof.
  revert w. induction displayCommits as [|d rest IH]; intros w; [by left|].
  rewrite createThreadsLoop_cons. cbn zeta.
  destruct (IH (snd (createThread (DisplayCommit.SHA d) subject w)))
    as [Hsame|Hnew]; [|by right].
  cbn zeta in Hsame. rewrite Hsame, createThread_run. cbn [snd].
  destruct (rpc_faults w) as [|[e|] rest']; cbn [entities]; [|by left|];
    (destruct (decide (DisplayCommit.SHA d = key)) as [<-|Hne];
      [right; by rewrite lookup_insert_eq | left; by rewrite lookup_insert_ne]).
Qed.

(** When no write fails, every commit of the push is registered. *)
Lemma createThreadsLoop_registers displayCommits subject w key :
  rpc_faults w = [] →
  let w' := snd (createThreadsLoop displayCommits subject w) in
  rpc_faults w' = [] ∧
  (key ∈ DisplayCommit.SHA <$> displayCommits ∨
   entities w !! key = Some (mkEmailThread key subject) →
   entities w' !! key = Some (mkEmailThread key subject)).
Proof.
  revert w. induction displayCommits as [|d rest IH]; intros w Hw.
  - cbn. split; [done|]. intros [[]%elem_of_nil|]; done.
  - rewrite createThreadsLoop_cons. cbn zeta.
    destruct (IH (snd (createThread (DisplayCommit.SHA d) subject w)))
      as [Hf Hreg].
    { rewrite createThread_run. cbn [snd]. by rewrite Hw. }
    split; [done|]. intros Hkey. apply Hreg.
    rewrite createThread_run. cbn [snd]. rewrite Hw. cbn [entities].
    rewrite fmap_cons, elem_of_cons in Hkey.
    destruct (decide (DisplayCommit.SHA d = key)) as [<-|Hne].
    + right. by rewrite lookup_insert_eq.
    + rewrite lookup_insert_ne by done. destruct Hkey as [[|]|]; auto. congruence.
Qed.

Lemma emitted_with_events w evs : emitted w (with_events w evs) = evs.
Proof. unfold emitted, with_events. cbn [trace]. apply drop_app_length. Qed.

Lemma emitted_app w w' evs : trace w' = trace w ++ evs → emitted w w' = evs.
Proof. intros H. unfold emitted. rewrite H. apply drop_app_length. Qed.

Lemma handlePushPayload_sends_inv p w m oe w' :
  handlePushPayload E p w = (Ret (Some m, oe), w') →
  ∃ c mailHtml senderUserName senderName,
    push_context E p c ∧
    templateOutput E "push" (pc_data E p c) = inl mailHtml ∧
    Pusher.Name (PushPayload.Pusher p) = Some senderUserName ∧
    value_of (senderNameLoop (PushPayload.Commits p) senderUserName
                senderUserName) = Ret senderName ∧
    m = {| mail.Sender := senderAddress E senderName senderUserName;
           mail.To := [getRecipient E];
           mail.Subject := pc_subject c;
           mail.HTMLBody := mailHtml |} ∧
    oe = None ∧
    w' = snd (createThreadsLoop (pc_displayCommits c) (pc_subject c)
                (with_events w [TemplateExecute "push" (pc_data E p c)])).
Proof.
  intros Hrun. pose proof (handlePushPayload_run p w) as H.
  rewrite Hrun in H. cbn [fst snd] in H.
  inversion H as [| | |c mailHtml u name Hc Hout Hu Hname]; subst.
  by exists c, mailHtml, u, name.
Qed.

(** The display commits of a push in terms of its commits. *)
Lemma push_context_commits p c :
  push_context E p c →
  Forall2 (λ commit d,
    value_of (newDisplayCommit E commit (PushPayload.Sender p)
                (PushPayload.Repo p) "America/Los_Angeles") = Ret d)
    (PushPayload.Commits p) (pc_displayCommits c).
Proof.
  intros Hc. destruct (displayCommitsLoop_value _ _ _ _ _ (pc_built _ _ _ Hc))
    as (ds & -> & Hds). done.
Qed.

Lemma push_context_SHAs p c :
  push_context E p c →
  DisplayCommit.SHA <$> pc_displayCommits c
  = WebHookCommit.ID <$> PushPayload.Commits p.
Proof.
  intros Hc%push_context_commits.
  induction Hc as [|commit d commits ds Hd _ IH]; [done|].
  rewrite !fmap_cons, IH. f_equal.
  by destruct (newDisplayCommit_value _ _ _ _ _ Hd) as (_ & ? & _ & -> & _).
Qed.

Lemma push_context_first p c commit rest :
  push_context E p c →
  PushPayload.Commits p = commit :: rest →
  value_of (newDisplayCommit E commit (PushPayload.Sender p)
              (PushPayload.Repo p) "America/Los_Angeles") = Ret (pc_first c).
Proof.
  intros Hc Hcommits. pose proof (push_context_commits _ _ Hc) as Hall.
  rewrite Hcommits in Hall. inversion Hall as [|? d ? ds Hd Hrest Heq1 Heq2].
  pose proof (pc_first_ok _ _ _ Hc) as Hfirst. rewrite <-Heq2 in Hfirst.
  by injection Hfirst as <-.
Qed.

Lemma pc_data_ExtensionURL p c :
  pc_data E p c !! "ExtensionURL" = Some (VString (pc_extensionUrl c)).
Proof. reflexivity. Qed.

Lemma pc_data_BranchName p c :
  pc_data E p c !! "BranchName" = Some (VString (pc_branchName c)).
Proof. reflexivity. Qed.

Lemma emitted_same w : emitted w w = [].
Proof. unfold emitted. apply drop_all. Qed.

(** Whatever the outcome, the only template a push run executes is "push",
    on the data of its context. *)
Lemma handlePushPayload_templates p w r w' name data :
  handlePushPayload E p w = (r, w') →
  TemplateExecute name data ∈ emitted w w' →
  name = "push" ∧ ∃ c, push_context E p c ∧ data = pc_data E p c.
Proof.
  intros Hrun. pose proof (handlePushPayload_run p w) as H.
  rewrite Hrun in H. cbn [fst snd] in H.
  inversion H as [pn|c err Hc Hout|c mailHtml pn Hc Hout
                  |c mailHtml u senderName Hc Hout Hu Hname]; subst.
  - rewrite emitted_same. by intros ?%elem_of_nil.
  - rewrite emitted_with_events. intros [= -> ->]%list_elem_of_singleton. eauto.
  - rewrite emitted_with_events. intros [= -> ->]%list_elem_of_singleton. eauto.
  - set (w1 := with_events w [TemplateExecute "push" (pc_data E p c)]).
    destruct (createThreadsLoop_trace (pc_displayCommits c) (pc_subject c) w1)
      as (evs & Htr & _ & Hreg).
    rewrite (emitted_app w _ (TemplateExecute "push" (pc_data E p c) :: evs)).
    + intros [[= -> ->]|Hin]%elem_of_cons; [eauto|].
      rewrite Forall_forall in Hreg. by apply Hreg in Hin.
    + rewrite Htr. unfold w1, with_events. cbn [trace]. by rewrite <-app_assoc.
Qed.

Lemma senderNameLoop_value commits user senderName name :
  value_of (senderNameLoop commits user senderName) = Ret name →
  (Forall (λ commit, ¬ authorIs user commit ∧ ¬ committerIs user commit) commits
   ∧ name = senderName) ∨
  (∃ before commit after,
     commits = before ++ commit :: after ∧
     Forall (λ commit, ¬ authorIs user commit ∧ ¬ committerIs user commit)
       before ∧
     ((authorIs user commit ∧
       WebHookAuthor.Name (WebHookCommit.Author commit) = Some name) ∨
      (¬ authorIs user commit ∧ committerIs user commit ∧
       WebHookAuthor.Name (WebHookCommit.Committer commit) = Some name))).
Proof.
  induction commits as [|commit rest IH]; simpl.
  { rewrite value_of_ret. intros [= <-]. left. by split. }
  unfold authorIs, committerIs in *.
  rewrite value_of_bind by apply Pure_deref.
  destruct (WebHookAuthor.Username (WebHookCommit.Author commit))
    as [author|] eqn:Hauthor; [|done].
  cbn [deref]. rewrite value_of_ret.
  destruct (String.eqb author user) eqn:Heq.
  { apply String.eqb_eq in Heq as ->.
    destruct (WebHookAuthor.Name (WebHookCommit.Author commit)) as [n|] eqn:Hn;
      [|done].
    cbn [deref]. rewrite value_of_ret. intros [= <-].
    right. exists [], commit, rest. split; [done|]. split; [constructor|].
    left. by rewrite Hauthor. }
  apply String.eqb_neq in Heq.
  rewrite value_of_bind by apply Pure_deref.
  destruct (WebHookAuthor.Username (WebHookCommit.Committer commit))
    as [committer|] eqn:Hcommitter; [|done].
  cbn [deref]. rewrite value_of_ret.
  destruct (String.eqb committer user) eqn:Heq'.
  { apply String.eqb_eq in Heq' as ->.
    destruct (WebHookAuthor.Name (WebHookCommit.Committer commit)) as [n|] eqn:Hn;
      [|done].
    cbn [deref]. rewrite value_of_ret. intros [= <-].
    right. exists [], commit, rest. split; [done|]. split; [constructor|].
    right. rewrite Hauthor, Hcommitter. split; [congruence|done]. }
  apply String.eqb_neq in Heq'.
  assert (Some author ≠ Some user ∧ Some committer ≠ Some user) as Hhere
    by (split; congruence).
  intros [[Hall ->]|(before & c & after & -> & Hbefore & Hc)]%IH.
  - left. split; [|done]. constructor; [|done].
    by rewrite Hauthor, Hcommitter.
  - right. exists (commit :: before), c, after. split; [done|].
    split; [|done]. constructor; [|done]. by rewrite Hauthor, Hcommitter.
Qed.

Lemma senderNameLoop_resolves commits user name :
  value_of (senderNameLoop commits user user) = Ret name →
  resolvedName user commits name.
Proof.
  intros [[Hall ->]|(before & commit & after & -> & Hbefore & [[Ha Hn]|(Ha & Hc & Hn)])]
    %senderNameLoop_value.
  - by apply resolved_fallback.
  - by eapply resolved_author.
  - by eapply resolved_committer.
Qed.

(** A push run whose context, rendering and sender resolve returns the
    notification, in every world. *)
Lemma handlePushPayload_sends p w c mailHtml senderUserName senderName :
  push_context E p c →
  templateOutput E "push" (pc_data E p c) = inl mailHtml →
  Pusher.Name (PushPayload.Pusher p) = Some senderUserName →
  value_of (senderNameLoop (PushPayload.Commits p) senderUserName
              senderUserName) = Ret senderName →
  fst (handlePushPayload E p w)
  = Ret (Some {| mail.Sender := senderAddress E senderName senderUserName;
                 mail.To := [getRecipient E];
                 mail.Subject := pc_subject c;
                 mail.HTMLBody := mailHtml |},
         None).
Proof.
  intros [Hbuilt Href Hlong Hfn Hfirst Hext] Hout Huser Hname.
  unfold handlePushPayload.
  rewrite (bind_Pure _ _ _ (Pure_displayCommitsLoop E _ _ _ _)), Hbuilt.
  rewrite (bind_Pure _ _ _ (Pure_deref _)), Href. cbn [deref].
  rewrite value_of_ret, (bind_Pure _ _ _ (Pure_sliceFrom _ _)).
  unfold sliceFrom. rewrite (decide_True (P := 11 ≤ _)) by done.
  rewrite value_of_ret, (bind_Pure _ _ _ (Pure_deref _)), Hfn. cbn [deref].
  rewrite value_of_ret, (bind_Pure _ _ _ (Pure_index _ _)).
  unfold index. rewrite Hfirst, value_of_ret.
  assert (∀ {B} (k : string → M B),
            bind (if decide (1 < length (pc_displayCommits c))
                  then deref (PushPayload.Compare p)
                  else ret (DisplayCommit.URL (pc_first c))) k w
            = k (pc_extensionUrl c) w) as Hstep.
  { intros B k. case_decide.
    - by rewrite (bind_Pure _ _ _ (Pure_deref _)), Hext.
    - by rewrite (bind_Pure _ _ _ (Pure_ret _)), value_of_ret, Hext. }
  rewrite Hstep. clear Hstep.
  change (pushTemplateData _ _ _ _ _ _ _) with (pc_data E p c).
  rewrite (bind_Ret _ _ _ _ _ (templateExecute_run _ _ _)), Hout.
  rewrite (bind_Pure _ _ _ (Pure_deref _)), Huser. cbn [deref].
  rewrite value_of_ret, (bind_Pure _ _ _ (Pure_senderNameLoop _ _ _)), Hname.
  unfold bind. cbn [ret].
  change ("[" +:+ pc_fullName c +:+ _) with (pc_subject c).
  pose proof (createThreadsLoop_returns (pc_displayCommits c) (pc_subject c)
    (with_events w [TemplateExecute "push" (pc_data E p c)])) as Hret.
  destruct (createThreadsLoop _ _ _) as [r w']. cbn [fst] in Hret. by subst r.
Qed.

(** The outcome of a push run does not depend on the world it runs in. *)
Lemma handlePushPayload_outcome p w1 w2 :
  fst (handlePushPayload E p w1) = fst (handlePushPayload E p w2).
Proof.
  unfold handlePushPayload.
  rewrite !(bind_Pure _ _ _ (Pure_displayCommitsLoop E _ _ _ _)).
  destruct (value_of (displayCommitsLoop _ _ _ _ _)) as [dcs|pn]; [|done].
  rewrite !(bind_Pure _ _ _ (Pure_deref _)).
  destruct (PushPayload.Ref p) as [ref|]; [|done].
  cbn [deref]. rewrite value_of_ret, !(bind_Pure _ _ _ (Pure_sliceFrom _ _)).
  destruct (value_of (sliceFrom ref 11)) as [branchName|pn]; [|done].
  rewrite !(bind_Pure _ _ _ (Pure_deref _)).
  destruct (Repository.FullName _) as [fn|]; [|done].
  cbn [deref]. rewrite value_of_ret, !(bind_Pure _ _ _ (Pure_index _ _)).
  unfold index. destruct (dcs !! 0) as [d0|]; [|done].
  rewrite value_of_ret.
  set (ext := if decide (1 < length dcs) then deref (PushPayload.Compare p)
              else ret (DisplayCommit.URL d0)).
  assert (Pure ext) as Hpure by (subst ext; case_decide; auto with pure).
  rewrite !(bind_Pure _ _ _ Hpure).
  destruct (value_of ext) as [extensionUrl|pn]; [|done].
  rewrite !(bind_Ret _ _ _ _ _ (templateExecute_run _ _ _)).
  destruct (templateOutput E "push" _) as [mailHtml|err]; [|done].
  rewrite !(bind_Pure _ _ _ (Pure_deref _)).
  destruct (Pusher.Name _) as [senderUserName|]; [|done].
  cbn [deref]. rewrite value_of_ret, !(bind_Pure _ _ _ (Pure_senderNameLoop _ _ _)).
  destruct (value_of (senderNameLoop _ _ _)) as [senderName|pn]; [|done].
  unfold bind. cbn [ret].
  match goal with
  | |- context [createThreadsLoop dcs ?subject (with_events w1 ?evs)] =>
      pose proof (createThreadsLoop_returns dcs subject (with_events w1 evs)) as H1;
      pose proof (createThreadsLoop_returns dcs subject (with_events w2 evs)) as H2;
      destruct (createThreadsLoop dcs subject (with_events w1 evs)) as [r1 w1'];
      destruct (createThreadsLoop dcs subject (with_events w2 evs)) as [r2 w2']
  end.
  cbn [fst] in H1, H2. by subst r1 r2.
Qed.

Lemma with_events_app w evs1 evs2 :
  with_events (with_events w evs1) evs2 = with_events w (evs1 ++ evs2).
Proof. unfold with_events. cbn [entities rpc_faults trace]. by rewrite app_assoc. Qed.

Lemma renderMessageMarkdown_run body repo w :
  renderMessageMarkdown E body repo w
  = (Ret (markdownHTML E body repo), with_events w [MarkdownRender body]).
Proof. reflexivity. Qed.

Lemma getSubjectForCommit_run sha w :
  ∃ evs,
    getSubjectForCommit sha w
    = (Ret (from_option Subject "" (registry_get w sha)),
       mkWorld (entities w) (tail (rpc_faults w))
         (trace w ++ DatastoreGet sha :: evs)) ∧
    Forall registry_event evs.
Proof.
  unfold getSubjectForCommit, datastore_Get, registry_get, next_fault, bind,
    emit, pop_fault, logInfof, emit; cbn [rpc_faults entities trace].
  destruct (rpc_faults w) as [|[e|] rest]; cbn [rpc_faults entities trace tail];
    [destruct (entities w !! sha) as [thread|]| |
     destruct (entities w !! sha) as [thread|]];
    cbn [from_option ret rpc_faults entities trace];
    try (exists []; by split);
    (eexists [_]; rewrite <-app_assoc; split; [done|]; by repeat constructor).
Qed.

Lemma handleCommitCommentPayload_run p w :
  CommentRun E p w (fst (handleCommitCommentPayload E p w))
    (snd (handleCommitCommentPayload E p w)).
Proof.
  unfold handleCommitCommentPayload.
  rewrite (bind_Pure _ _ _ (Pure_deref _)).
  destruct (Comment.CommitID _) as [sha|] eqn:Hsha; [|apply comment_panics_early].
  cbn [deref]. rewrite value_of_ret, (bind_Pure _ _ _ (Pure_sliceTo _ _)).
  unfold sliceTo. case_decide as Hlen; [|apply comment_panics_early].
  rewrite value_of_ret, (bind_Pure _ _ _ (Pure_deref _)).
  destruct (Repository.URL _) as [repoURL|] eqn:Hurl; [|apply comment_panics_early].
  cbn [deref]. rewrite value_of_ret, (bind_Pure _ _ _ (Pure_deref _)).
  destruct (Comment.Body _) as [body0|] eqn:Hbody; [|apply comment_panics_early].
  cbn [deref]. rewrite value_of_ret.
  set (c := mkCommentContext sha repoURL body0).
  assert (comment_context p c) as Hc by (by split).
  assert (∀ {B} (k : string + error → M B),
            bind (if decide (0 < String.length body0)
                  then renderMessageMarkdown E body0 (CommitCommentPayload.Repo p)
                  else ret body0)
              (λ body, bind (templateExecute E "commit-comment"
                               (commentTemplateData E p (String.substring 0 7 sha)
                                  body (repoURL +:+ "/commit/" +:+ sha)
                                  "America/Los_Angeles")) k) w
            = k (templateOutput E "commit-comment" (cc_data E p c))
                (with_events w (cc_events E p c))) as Hstep.
  { intros B k. unfold cc_events, cc_data, cc_rendered, cc_shortSHA, c.
    cbn [cc_body cc_commitSHA cc_repoURL]. case_decide.
    - rewrite (bind_Ret _ _ _ _ _ (renderMessageMarkdown_run _ _ _)).
      rewrite (bind_Ret _ _ _ _ _ (templateExecute_run _ _ _)).
      by rewrite with_events_app.
    - rewrite (bind_Pure _ _ _ (Pure_ret _)), value_of_ret.
      by rewrite (bind_Ret _ _ _ _ _ (templateExecute_run _ _ _)). }
  rewrite Hstep. clear Hstep.
  destruct (templateOutput E "commit-comment" (cc_data E p c))
    as [mailHtml|err] eqn:Hout; [|by eapply comment_render_fails].
  rewrite (bind_Pure _ _ _ (Pure_deref _)).
  destruct (User.Login _) as [user|] eqn:Huser;
    [|by eapply comment_panics_at_sender].
  cbn [deref]. rewrite value_of_ret.
  set (w1 := with_events w (cc_events E p c)).
  destruct (getSubjectForCommit_run sha w1) as (evs & Hget & _).
  assert (cc_after_get E p c w
          = mkWorld (entities w1) (tail (rpc_faults w1))
              (trace w1 ++ DatastoreGet sha :: evs)) as Hafter.
  { change (cc_after_get E p c w) with (snd (getSubjectForCommit sha w1)).
    by rewrite Hget. }
  rewrite (bind_Ret _ _ _ _ _ Hget), <-Hafter.
  assert (registry_get w1 sha = registry_get w sha) as -> by done.
  destruct (registry_get w sha) as [thread|] eqn:Hhit; cbn [from_option].
  - destruct (String.eqb (Subject thread) "") eqn:Hempty.
    + rewrite (bind_Pure _ _ _ (Pure_bind _ _ (Pure_deref _) (λ _, Pure_ret _))).
      rewrite value_of_bind by apply Pure_deref.
      destruct (Repository.FullName _) as [fullName|] eqn:Hfn.
      * cbn [deref]. rewrite !value_of_ret. cbn [ret fst snd].
        eapply (comment_sends E p w c); try done.
        change (cc_commitSHA c) with sha. rewrite Hhit, Hempty. by exists fullName.
      * cbn [deref fst snd value_of raise].
        eapply (comment_panics_at_fallback E p w c); try done.
        change (cc_commitSHA c) with sha. rewrite Hhit. by apply String.eqb_eq.
    + rewrite (bind_Pure _ _ _ (Pure_ret _)), value_of_ret. cbn [ret fst snd].
      eapply (comment_sends E p w c); try done.
      change (cc_commitSHA c) with sha. by rewrite Hhit, Hempty.
  - cbn [String.eqb].
    rewrite (bind_Pure _ _ _ (Pure_bind _ _ (Pure_deref _) (λ _, Pure_ret _))).
    rewrite value_of_bind by apply Pure_deref.
    destruct (Repository.FullName _) as [fullName|] eqn:Hfn.
    + cbn [deref]. rewrite !value_of_ret. cbn [ret fst snd].
      eapply (comment_sends E p w c); try done.
      change (cc_commitSHA c) with sha. rewrite Hhit. by exists fullName.
    + cbn [deref fst snd value_of raise].
      eapply (comment_panics_at_fallback E p w c); try done.
      change (cc_commitSHA c) with sha. by rewrite Hhit.
Qed.

Lemma cc_data_Body p c :
  cc_data E p c !! "Body" = Some (VString (cc_rendered E p c)).
Proof. reflexivity. Qed.

Lemma length_pos_nonempty (s : string) : 0 < String.length s ↔ s ≠ "".
Proof. destruct s; simpl; split; (done || lia). Qed.

(** Whatever the outcome, a comment run that emits anything emits the events
    of its context first, and only registry events after them. *)
Lemma handleCommitCommentPayload_events p w r w' :
  handleCommitCommentPayload E p w = (r, w') →
  emitted w w' = [] ∨
  ∃ c evs,
    comment_context p c ∧
    emitted w w' = cc_events E p c ++ evs ∧
    Forall registry_event evs.
Proof.
  intros Hrun. pose proof (handleCommitCommentPayload_run p w) as H.
  rewrite Hrun in H. cbn [fst snd] in H.
  assert (∀ c, ∃ evs,
            emitted w (cc_after_get E p c w) = cc_events E p c ++ evs ∧
            Forall registry_event evs) as Hafter.
  { intros c. unfold cc_after_get.
    destruct (getSubjectForCommit_run (cc_commitSHA c)
                (with_events w (cc_events E p c))) as (evs & -> & Hevs).
    exists (DatastoreGet (cc_commitSHA c) :: evs). split.
    - apply emitted_app. cbn [snd trace with_events]. by rewrite <-app_assoc.
    - by constructor. }
  inversion H as [pn|c err Hc Hout|c mailHtml Hc Hout Huser
                  |c mailHtml user Hc Hout Huser Hget Hfn
                  |c mailHtml user subject Hc Hout Huser Hget]; subst.
  - left. apply emitted_same.
  - right. exists c, []. rewrite emitted_with_events, app_nil_r. by split_and!.
  - right. exists c, []. rewrite emitted_with_events, app_nil_r. by split_and!.
  - right. destruct (Hafter c) as (evs & ? & ?). by exists c, evs.
  - right. destruct (Hafter c) as (evs & ? & ?). by exists c, evs.
Qed.

(** *** The registry invariant *)

Lemma preserves_bind {A B : Type} (I : World → Prop) (m : M A) (f : A → M B) :
  preserves I m → (∀ a, preserves I (f a)) → preserves I (bind m f).
Proof.
  intros Hm Hf w Hw. unfold bind. specialize (Hm w Hw).
  destruct (m w) as [[a|pn] w1]; cbn [snd] in *; [by apply Hf|done].
Qed.

Lemma preserves_Pure {A : Type} (I : World → Prop) (m : M A) :
  Pure m → preserves I m.
Proof. intros Hm w Hw. by rewrite (Hm w). Qed.

Lemma preserves_emit e : preserves threads_named (emit e).
Proof. by intros w Hw. Qed.

Lemma threads_named_pop w :
  threads_named w → threads_named (snd (pop_fault w)).
Proof. unfold pop_fault. by destruct (rpc_faults w). Qed.

Lemma preserves_datastore_Get key : preserves threads_named (datastore_Get key).
Proof.
  apply preserves_bind; [apply preserves_emit|]. intros _ w Hw%threads_named_pop.
  destruct (pop_fault w) as [[e|] w1]; cbn [snd] in *; [done|].
  by destruct (entities w1 !! key).
Qed.

Lemma preserves_mail_Send message : preserves threads_named (mail_Send message).
Proof.
  apply preserves_bind; [apply preserves_emit|]. intros _ w Hw%threads_named_pop.
  by destruct (pop_fault w).
Qed.

Lemma preserves_datastore_Put key thread :
  Subject thread ≠ "" → preserves threads_named (datastore_Put key thread).
Proof.
  intros Hsubject. apply preserves_bind; [apply preserves_emit|].
  intros _ w Hw%threads_named_pop.
  destruct (pop_fault w) as [[e|] w1]; cbn [snd] in *; [done|].
  intros key' thread'. cbn [entities].
  destruct (decide (key = key')) as [<-|Hne].
  - rewrite lookup_insert_eq. by intros [= <-].
  - rewrite lookup_insert_ne by done. apply Hw.
Qed.

Lemma preserves_createThread sha subject :
  subject ≠ "" → preserves threads_named (createThread sha subject).
Proof.
  intros Hsubject. apply preserves_bind; [by apply preserves_datastore_Put|].
  intros [e|]; apply preserves_emit.
Qed.

Lemma preserves_createThreadsLoop displayCommits subject :
  subject ≠ "" → preserves threads_named (createThreadsLoop displayCommits subject).
Proof.
  intros Hsubject. induction displayCommits as [|d rest IH]; cbn.
  - by apply preserves_Pure, Pure_ret.
  - apply preserves_bind; [by apply preserves_createThread|done].
Qed.

Lemma preserves_getSubjectForCommit sha :
  preserves threads_named (getSubjectForCommit sha).
Proof.
  apply preserves_bind; [apply preserves_datastore_Get|].
  intros [thread|e]; [by apply preserves_Pure, Pure_ret|].
  apply preserves_bind; [apply preserves_emit|].
  intros _. by apply preserves_Pure, Pure_ret.
Qed.

Lemma preserves_templateExecute name data :
  preserves threads_named (templateExecute E name data).
Proof. by intros w Hw. Qed.

Lemma preserves_handlePushPayload p :
  preserves threads_named (handlePushPayload E p).
Proof.
  unfold handlePushPayload.
  apply preserves_bind; [apply preserves_Pure, Pure_displayCommitsLoop|intros dcs].
  apply preserves_bind; [apply preserves_Pure, Pure_deref|intros ref].
  apply preserves_bind; [apply preserves_Pure, Pure_sliceFrom|intros branchName].
  apply preserves_bind; [apply preserves_Pure, Pure_deref|intros fn].
  apply preserves_bind; [apply preserves_Pure, Pure_index|intros d0].
  apply preserves_bind;
    [apply preserves_Pure; case_decide; auto with pure|intros ext].
  apply preserves_bind; [apply preserves_templateExecute|].
  intros [mailHtml|err]; [|by apply preserves_Pure, Pure_ret].
  apply preserves_bind; [apply preserves_Pure, Pure_deref|intros user].
  apply preserves_bind; [apply preserves_Pure, Pure_senderNameLoop|intros name].
  apply preserves_bind; [apply preserves_Pure, Pure_index|intros d0'].
  apply preserves_bind; [apply preserves_Pure, Pure_deref|intros fn'].
  apply preserves_bind; [by apply preserves_createThreadsLoop|].
  intros _. by apply preserves_Pure, Pure_ret.
Qed.

Lemma preserves_handleCommitCommentPayload p :
  preserves threads_named (handleCommitCommentPayload E p).
Proof.
  unfold handleCommitCommentPayload.
  apply preserves_bind; [apply preserves_Pure, Pure_deref|intros sha].
  apply preserves_bind; [apply preserves_Pure, Pure_sliceTo|intros short].
  apply preserves_bind; [apply preserves_Pure, Pure_deref|intros url].
  apply preserves_bind; [apply preserves_Pure, Pure_deref|intros body0].
  apply preserves_bind; [case_decide; by intros w Hw|intros body].
  apply preserves_bind; [apply preserves_templateExecute|].
  intros [mailHtml|err]; [|by apply preserves_Pure, Pure_ret].
  apply preserves_bind; [apply preserves_Pure, Pure_deref|intros user].
  apply preserves_bind; [apply preserves_getSubjectForCommit|intros stored].
  apply preserves_bind; [|intros subject; by apply preserves_Pure, Pure_ret].
  apply preserves_Pure. destruct (String.eqb stored ""); auto with pure.
Qed.

Lemma preserves_handlePayload eventType body :
  preserves threads_named (handlePayload E eventType body).
Proof.
  unfold handlePayload.
  destruct (String.eqb eventType "push").
  { apply preserves_bind; [by intros w Hw|].
    intros [p|err]; [apply preserves_handlePushPayload
                    |by apply preserves_Pure, Pure_ret]. }
  destruct (String.eqb eventType "commit_comment").
  { apply preserves_bind; [by intros w Hw|].
    intros [p|err]; [apply preserves_handleCommitCommentPayload
                    |by apply preserves_Pure, Pure_ret]. }
  by apply preserves_Pure, Pure_ret.
Qed.

Lemma preserves_hookHandler r : preserves threads_named (hookHandler E r).
Proof.
  unfold hookHandler.
  apply preserves_bind; [apply preserves_handlePayload|].
  intros [[message|] [err|]].
  - apply preserves_bind; [apply preserves_emit|].
    intros _. by apply preserves_Pure, Pure_ret.
  - apply preserves_bind; [apply preserves_mail_Send|].
    intros [e|].
    + apply preserves_bind; [apply preserves_emit|].
      intros _. by apply preserves_Pure, Pure_ret.
    + apply preserves_bind; [apply preserves_Pure, Pure_index|intros to0].
      apply preserves_bind; [apply preserves_emit|].
      intros _. by apply preserves_Pure, Pure_ret.
  - apply preserves_bind; [apply preserves_emit|].
    intros _. by apply preserves_Pure, Pure_ret.
  - apply preserves_bind; [apply preserves_emit|].
    intros _. by apply preserves_Pure, Pure_ret.
Qed.

(** Every thread in the registry of a reachable world carries a subject. *)
Lemma reachable_threads_named w : reachable E w → threads_named w.
Proof.
  induction 1 as [faults|w faults _ IH|p w _ IH|p w _ IH|eventType body w _ IH
                  |r w _ IH].
  - intros key thread. cbn [entities]. by rewrite lookup_empty.
  - done.
  - by apply preserves_handlePushPayload.
  - by apply preserves_handleCommitCommentPayload.
  - by apply preserves_handlePayload.
  - by apply preserves_hookHandler.
Qed.

Lemma handleCommitCommentPayload_sends_inv p w m oe w' :
  handleCommitCommentPayload E p w = (Ret (Some m, oe), w') →
  ∃ c user,
    comment_context p c ∧
    mail.Sender m = senderAddress E user user ∧
    match registry_get w (cc_commitSHA c) with
    | Some thread =>
        if String.eqb (Subject thread) ""
        then ∃ fullName,
               Repository.FullName (CommitCommentPayload.Repo p) = Some fullName ∧
               mail.Subject m = "[" +:+ fullName +:+ "] " +:+ cc_shortSHA c
        else mail.Subject m = Subject thread
    | None =>
        ∃ fullName,
          Repository.FullName (CommitCommentPayload.Repo p) = Some fullName ∧
          mail.Subject m = "[" +:+ fullName +:+ "] " +:+ cc_shortSHA c
    end.
Proof.
  intros Hrun. pose proof (handleCommitCommentPayload_run p w) as H.
  rewrite Hrun in H. cbn [fst snd] in H.
  inversion H as [| | | |c mailHtml user subject Hc Hout Huser Hget]; subst.
  by exists c, user.
Qed.

Lemma handlePushPayload_not_silent p w w' :
  handlePushPayload E p w ≠ (Ret (None, None), w').
Proof.
  intros Hrun. pose proof (handlePushPayload_run p w) as H.
  rewrite Hrun in H. inversion H.
Qed.

Lemma handleCommitCommentPayload_not_silent p w w' :
  handleCommitCommentPayload E p w ≠ (Ret (None, None), w').
Proof.
  intros Hrun. pose proof (handleCommitCommentPayload_run p w) as H.
  rewrite Hrun in H. inversion H.
Qed.

Lemma handlePayload_unrecognized eventType body w :
  ¬ recognized eventType →
  handlePayload E eventType body w = (Ret (None, None), w).
Proof.
  intros Hno. unfold handlePayload.
  destruct (String.eqb eventType "push") eqn:Hpush.
  { apply String.eqb_eq in Hpush. destruct Hno. by left. }
  destruct (String.eqb eventType "commit_comment") eqn:Hcomment.
  { apply String.eqb_eq in Hcomment. destruct Hno. by right. }
  done.
Qed.

Lemma handlePayload_malformed eventType body err w :
  malformed E eventType body err →
  handlePayload E eventType body w
  = (Ret (None, Some err), with_events w [JsonDecode body]).
Proof.
  unfold handlePayload, decodePush, decodeCommitComment, bind, emit.
  intros [[-> Hdecode]|[-> Hdecode]]; cbn [String.eqb Ascii.eqb Bool.eqb ret];
    by rewrite Hdecode.
Qed.

End Runs.

(** ** The claims *)

(** C1. When [handlePushPayload] returns a notification for a push whose
    commit list is not empty, the subject is
    ["[{repoFullName}] {shortID}: {title}"] with the short id and the title
    of the display commit of the FIRST commit in payload order (the first
    seven bytes of its id and the first line of its message), and one
    registry put is performed per commit of the push, in payload order, each
    under the commit's id and with that same subject; when no write fails
    every commit id ends up registered with it.  The witness is the
    two-commit push to org/repo of the spec. *)
Theorem C1_push_subject_first_commit E p w m oe w' commit rest :
  handlePushPayload E p w = (Ret (Some m, oe), w') →
  PushPayload.Commits p = commit :: rest →
  ∃ fullName first,
    Repository.FullName (PushPayload.Repo p) = Some fullName ∧
    value_of (newDisplayCommit E commit (PushPayload.Sender p)
                (PushPayload.Repo p) "America/Los_Angeles") = Ret first ∧
    DisplayCommit.ShortSHA first
    = String.substring 0 7 (WebHookCommit.ID commit) ∧
    DisplayCommit.Title first = firstLine (WebHookCommit.Message commit) ∧
    let subject :=
      "[" +:+ fullName +:+ "] " +:+ DisplayCommit.ShortSHA first +:+ ": "
        +:+ DisplayCommit.Title first in
    mail.Subject m = subject ∧
    puts (emitted w w')
    = (λ c, (WebHookCommit.ID c, mkEmailThread (WebHookCommit.ID c) subject))
      <$> PushPayload.Commits p ∧
    (rpc_faults w = [] →
     ∀ c, c ∈ PushPayload.Commits p →
       entities w' !! WebHookCommit.ID c
       = Some (mkEmailThread (WebHookCommit.ID c) subject)).
Proof.
  intros (c & mailHtml & u & name & Hc & _ & _ & _ & -> & _ & ->)
    %handlePushPayload_sends_inv Hcommits.
  exists (pc_fullName c), (pc_first c).
  split; [apply (pc_fullName_ok _ _ _ Hc)|].
  pose proof (push_context_first _ _ _ _ _ Hc Hcommits) as Hfirst.
  destruct (newDisplayCommit_value _ _ _ _ _ _ Hfirst)
    as (_ & repoURL & _ & _ & Hshort & Htitle & _).
  split; [done|]. split; [done|]. split; [done|]. cbn zeta.
  change ("[" +:+ pc_fullName c +:+ _) with (pc_subject c).
  split; [done|].
  set (w1 := with_events w [TemplateExecute "push" (pc_data E p c)]).
  destruct (createThreadsLoop_trace (pc_displayCommits c) (pc_subject c) w1)
    as (evs & Htr & Hputs & _).
  split.
  - rewrite (emitted_app w _ ([TemplateExecute "push" (pc_data E p c)] ++ evs)).
    + cbn. change (omap _ evs) with (puts evs). rewrite Hputs.
      pose proof (push_context_SHAs _ _ _ Hc) as Hshas.
      trans ((λ k, (k, mkEmailThread k (pc_subject c)))
               <$> (DisplayCommit.SHA <$> pc_displayCommits c)).
      { by rewrite <-list_fmap_compose. }
      rewrite Hshas. by rewrite <-list_fmap_compose.
    + rewrite Htr. unfold w1, with_events. cbn [trace]. by rewrite <-app_assoc.
  - intros Hfaults commit' Hin.
    apply (createThreadsLoop_registers (pc_displayCommits c) (pc_subject c) w1
             (WebHookCommit.ID commit')); [done|].
    left. rewrite (push_context_SHAs _ _ _ Hc). by apply list_elem_of_fmap_2.
Qed.

Lemma C1_witness :
  let run := handlePushPayload Samples.env Samples.two_commits Samples.fresh in
  let subject := "[org/repo] abc1234: Fix bug" in
  run = (Ret (Some Samples.push_mail, None), snd run) ∧
  mail.Subject Samples.push_mail = subject ∧
  puts (emitted Samples.fresh (snd run))
  = [("abc1234def5678", mkEmailThread "abc1234def5678" subject);
     ("fedcba9876543210", mkEmailThread "fedcba9876543210" subject)] ∧
  entities (snd run) !! "abc1234def5678"
  = Some (mkEmailThread "abc1234def5678" subject) ∧
  entities (snd run) !! "fedcba9876543210"
  = Some (mkEmailThread "fedcba9876543210" subject).
Proof.
  assert (handlePushPayload Samples.env Samples.two_commits Samples.fresh
          = (Ret (Some Samples.push_mail, None),
             snd (handlePushPayload Samples.env Samples.two_commits
                    Samples.fresh))) as Hrun
    by (vm_compute; reflexivity).
  destruct (C1_push_subject_first_commit Samples.env Samples.two_commits
              Samples.fresh Samples.push_mail None _ Samples.fix_bug
              [Samples.add_test] Hrun eq_refl)
    as (fullName & first & Hfn & Hfirst & _ & _ & Hsubject & Hputs & Hreg).
  injection Hfn as <-. vm_compute in Hfirst. injection Hfirst as <-.
  split; [exact Hrun|]. split; [exact Hsubject|]. split; [exact Hputs|].
  split.
  - apply (Hreg eq_refl Samples.fix_bug). constructor.
  - apply (Hreg eq_refl Samples.add_test). do 2 constructor.
Defined.

(** C2. In a world the service can reach, the notification of a commit
    comment carries the subject the registry stores for the commit id,
    verbatim, whenever the registry read hits, and
    ["[{repoFullName}] {first 7 bytes of the commit id}"] whenever it misses.
    In particular a comment on any commit of an earlier push whose writes
    went through carries the subject of that push's notification. *)
Theorem C2_comment_subject E p w m oe w' :
  reachable E w →
  handleCommitCommentPayload E p w = (Ret (Some m, oe), w') →
  ∃ sha,
    Comment.CommitID (CommitCommentPayload.Comment p) = Some sha ∧
    match registry_get w sha with
    | Some thread => mail.Subject m = Subject thread
    | None =>
        ∃ fullName,
          Repository.FullName (CommitCommentPayload.Repo p) = Some fullName ∧
          mail.Subject m = "[" +:+ fullName +:+ "] " +:+ String.substring 0 7 sha
    end ∧
    ∀ push w0 m1 oe1 commit,
      handlePushPayload E push w0 = (Ret (Some m1, oe1), w) →
      rpc_faults w0 = [] →
      commit ∈ PushPayload.Commits push →
      WebHookCommit.ID commit = sha →
      mail.Subject m = mail.Subject m1.
Proof.
  intros Hreach%reachable_threads_named
    (c & user & Hc & _ & Hsubject)%handleCommitCommentPayload_sends_inv.
  exists (cc_commitSHA c). split; [apply (cc_commitSHA_ok _ _ Hc)|].
  assert (∀ thread, registry_get w (cc_commitSHA c) = Some thread →
                    mail.Subject m = Subject thread) as Hhit.
  { intros thread Hget. rewrite Hget in Hsubject.
    destruct (String.eqb (Subject thread) "") eqn:Hempty; [|done].
    apply String.eqb_eq in Hempty. unfold registry_get in Hget.
    destruct (next_fault w); [done|]. by apply Hreach in Hget. }
  split.
  - destruct (registry_get w (cc_commitSHA c)) as [thread|] eqn:Hget;
      [by apply Hhit|done].
  - intros push w0 m1 oe1 commit Hpush Hfaults Hin Hid.
    apply handlePushPayload_sends_inv in Hpush
      as (pc & mailHtml & u & name & Hpc & _ & _ & _ & -> & _ & ->).
    cbn [mail.Subject].
    destruct (createThreadsLoop_registers (pc_displayCommits pc) (pc_subject pc)
                (with_events w0 [TemplateExecute "push" (pc_data E push pc)])
                (cc_commitSHA c) Hfaults) as [Hnone Hstored].
    rewrite (Hhit (mkEmailThread (cc_commitSHA c) (pc_subject pc))); [done|].
    unfold registry_get, next_fault. rewrite Hnone. apply Hstored. left.
    rewrite (push_context_SHAs _ _ _ Hpc), <-Hid. by apply list_elem_of_fmap_2.
Qed.

Lemma C2_witness :
  let pushed := snd (handlePushPayload Samples.env Samples.two_commits Samples.fresh) in
  let hit := Samples.comment_on "fedcba9876543210" "LGTM" in
  let run_hit := handleCommitCommentPayload Samples.env hit pushed in
  let run_miss := handleCommitCommentPayload Samples.env hit Samples.fresh in
  reachable Samples.env pushed ∧
  (∃ m, fst run_hit = Ret (Some m, None) ∧
        registry_get pushed "fedcba9876543210"
        = Some (mkEmailThread "fedcba9876543210" "[org/repo] abc1234: Fix bug") ∧
        mail.Subject m = "[org/repo] abc1234: Fix bug" ∧
        mail.Subject m = mail.Subject Samples.push_mail) ∧
  (∃ m, fst run_miss = Ret (Some m, None) ∧
        registry_get Samples.fresh "fedcba9876543210" = None ∧
        mail.Subject m = "[org/repo] fedcba9").
Proof.
  assert (reachable Samples.env
            (snd (handlePushPayload Samples.env Samples.two_commits
                    Samples.fresh))) as Hreach
    by apply reachable_push, (reachable_fresh _ []).
  split; [exact Hreach|]. split.
  - eexists.
    assert (∀ run, run = handleCommitCommentPayload Samples.env
                     (Samples.comment_on "fedcba9876543210" "LGTM")
                     (snd (handlePushPayload Samples.env Samples.two_commits
                             Samples.fresh)) →
            run = (Ret (Some {| mail.Sender := "carol <carol@bettermail.appspotmail.com>";
                                mail.To := ["eng+commits@quip.com"];
                                mail.Subject := "[org/repo] abc1234: Fix bug";
                                mail.HTMLBody := "<div><p>LGTM</p></div>" |},
                        None), snd run)) as Hrun
      by (intros run ->; vm_compute; reflexivity).
    specialize (Hrun _ eq_refl).
    destruct (C2_comment_subject Samples.env _ _ _ _ _ Hreach Hrun)
      as (sha & Hsha & Hsubject & Hsame).
    injection Hsha as <-.
    split; [by rewrite Hrun|]. split; [vm_compute; reflexivity|].
    split; [reflexivity|].
    apply (Hsame Samples.two_commits Samples.fresh Samples.push_mail None
             Samples.add_test); [vm_compute; reflexivity|reflexivity| |reflexivity].
    do 2 constructor.
  - eexists.
    assert (∀ run, run = handleCommitCommentPayload Samples.env
                     (Samples.comment_on "fedcba9876543210" "LGTM")
                     Samples.fresh →
            run = (Ret (Some {| mail.Sender := "carol <carol@bettermail.appspotmail.com>";
                                mail.To := ["eng+commits@quip.com"];
                                mail.Subject := "[org/repo] fedcba9";
                                mail.HTMLBody := "<div><p>LGTM</p></div>" |},
                        None), snd run)) as Hrun
      by (intros run ->; vm_compute; reflexivity).
    specialize (Hrun _ eq_refl).
    destruct (C2_comment_subject Samples.env _ _ _ _ _
                (reachable_fresh Samples.env []) Hrun)
      as (sha & Hsha & Hsubject & _).
    injection Hsha as <-.
    split; [by rewrite Hrun|]. split; [reflexivity|].
    destruct Hsubject as (fullName & Hfn & Hsubject).
    injection Hfn as <-. exact Hsubject.
Defined.

(** C3. Whatever a push run hands to the "push" template, its anchor link
    ("ExtensionURL") is the URL of the display commit of the only commit
    when the push has exactly one commit, and the push's compare URL when it
    has two commits or more. *)
Theorem C3_anchor_link E p w r w' name data :
  handlePushPayload E p w = (r, w') →
  TemplateExecute name data ∈ emitted w w' →
  (∀ commit, PushPayload.Commits p = [commit] →
     ∃ d, value_of (newDisplayCommit E commit (PushPayload.Sender p)
                      (PushPayload.Repo p) "America/Los_Angeles") = Ret d ∧
          data !! "ExtensionURL" = Some (VString (DisplayCommit.URL d))) ∧
  (2 ≤ length (PushPayload.Commits p) →
     ∃ compare, PushPayload.Compare p = Some compare ∧
                data !! "ExtensionURL" = Some (VString compare)).
Proof.
  intros Hrun Hin.
  destruct (handlePushPayload_templates _ _ _ _ _ _ _ Hrun Hin)
    as (_ & c & Hc & ->).
  pose proof (Forall2_length _ _ _ (push_context_commits _ _ _ Hc)) as Hlen.
  pose proof (pc_extension_ok _ _ _ Hc) as Hext.
  rewrite pc_data_ExtensionURL. split.
  - intros commit Hcommits. exists (pc_first c).
    split; [by eapply push_context_first|].
    rewrite Hcommits in Hlen. cbn in Hlen.
    case_decide; [lia|]. by rewrite Hext.
  - intros Hmany. exists (pc_extensionUrl c). split; [|done].
    case_decide; [done|lia].
Qed.

Lemma C3_witness :
  let run1 := handlePushPayload Samples.env Samples.one_commit Samples.fresh in
  let run2 := handlePushPayload Samples.env Samples.two_commits Samples.fresh in
  (TemplateExecute "push" Samples.one_commit_data
     ∈ emitted Samples.fresh (snd run1) ∧
   Samples.one_commit_data !! "ExtensionURL"
   = Some (VString "https://github.com/org/repo/commit/abc1234def5678")) ∧
  (TemplateExecute "push" Samples.two_commits_data
     ∈ emitted Samples.fresh (snd run2) ∧
   Samples.two_commits_data !! "ExtensionURL"
   = Some (VString "https://github.com/org/repo/compare/000...fed")).
Proof.
  assert (TemplateExecute "push" Samples.one_commit_data
            ∈ emitted Samples.fresh
                (snd (handlePushPayload Samples.env Samples.one_commit
                        Samples.fresh))) as Hin1
    by (vm_compute; constructor).
  assert (TemplateExecute "push" Samples.two_commits_data
            ∈ emitted Samples.fresh
                (snd (handlePushPayload Samples.env Samples.two_commits
                        Samples.fresh))) as Hin2
    by (vm_compute; constructor).
  split; (split; [assumption|]).
  - destruct (C3_anchor_link Samples.env Samples.one_commit Samples.fresh _ _
                "push" Samples.one_commit_data (surjective_pairing _) Hin1)
      as [Hone _].
    destruct (Hone Samples.fix_bug eq_refl) as (d & Hd & Hurl).
    injection Hd as <-. exact Hurl.
  - destruct (C3_anchor_link Samples.env Samples.two_commits Samples.fresh _ _
                "push" Samples.two_commits_data (surjective_pairing _) Hin2)
      as [_ Hmany].
    destruct (Hmany (le_n 2)) as (compare & Hcmp & Hurl).
    injection Hcmp as <-. exact Hurl.
Defined.

(** C5. A failing registry write is not fatal.  The outcome of
    [handlePushPayload] is the same under every schedule of failing writes:
    a push whose context, rendering and sender resolve gets its notification,
    with the derived subject and the rendered body, whichever writes fail.
    A [createThread] whose write fails returns normally, leaves the registry
    as it was, and only logs the error. *)
Theorem C5_put_failure_not_fatal E p w faults :
  let failing := mkWorld (entities w) faults (trace w) in
  fst (handlePushPayload E p failing)
  = fst (handlePushPayload E p (mkWorld (entities w) [] (trace w))) ∧
  (∀ c mailHtml senderUserName senderName,
     push_context E p c →
     templateOutput E "push" (pc_data E p c) = inl mailHtml →
     Pusher.Name (PushPayload.Pusher p) = Some senderUserName →
     value_of (senderNameLoop (PushPayload.Commits p) senderUserName
                 senderUserName) = Ret senderName →
     fst (handlePushPayload E p failing)
     = Ret (Some {| mail.Sender := senderAddress E senderName senderUserName;
                    mail.To := [getRecipient E];
                    mail.Subject := pc_subject c;
                    mail.HTMLBody := mailHtml |},
            None)) ∧
  (∀ sha subject e rest,
     rpc_faults w = Some e :: rest →
     createThread sha subject w
     = (Ret (),
        mkWorld (entities w) rest
          (trace w ++ [DatastorePut sha (mkEmailThread sha subject);
                       LogError ("Error creating thread: " +:+ e)]))).
Proof.
  cbn zeta. split; [apply handlePushPayload_outcome|]. split.
  - intros c mailHtml senderUserName senderName.
    apply handlePushPayload_sends.
  - intros sha subject e rest Hfaults. by rewrite createThread_run, Hfaults.
Qed.

Lemma C5_witness :
  let w := mkWorld ∅ [Some "datastore: timeout"; None] [] in
  fst (handlePushPayload Samples.env Samples.two_commits w)
  = Ret (Some Samples.push_mail, None) ∧
  createThread "abc1234def5678" "[org/repo] abc1234: Fix bug" w
  = (Ret (),
     mkWorld ∅ [None]
       [DatastorePut "abc1234def5678"
          (mkEmailThread "abc1234def5678" "[org/repo] abc1234: Fix bug");
        LogError "Error creating thread: datastore: timeout"]).
Proof.
  destruct (C5_put_failure_not_fatal Samples.env Samples.two_commits
              (mkWorld ∅ [Some "datastore: timeout"; None] [])
              [Some "datastore: timeout"; None]) as (Hsame & _ & Hlogged).
  split.
  - cbn [entities trace] in Hsame. cbn zeta in *. rewrite Hsame.
    vm_compute. reflexivity.
  - exact (Hlogged _ _ _ _ eq_refl).
Defined.

(** C6. For every event-type tag other than "push" and "commit_comment",
    [handlePayload] returns no notification and no error and touches
    nothing, the payload body included; [hookHandler] then answers 200 and
    sends no mail.  For a recognized tag whose body does not decode,
    [handlePayload] returns the decode error and [hookHandler] answers 500.
    The two outcomes are never conflated: no notification and no error is
    returned only for an unrecognized tag. *)
Theorem C6_unrecognized_or_malformed E r w :
  let eventType := default "" (http.Header r !! "X-Github-Event") in
  let body := http.Body r in
  (¬ recognized eventType →
   handlePayload E eventType body w = (Ret (None, None), w) ∧
   hookHandler E r w
   = (Ret (http.mkResponse 200 ("Unhandled event type: %s" +:+ eventType)),
      with_events w [LogWarning ("Unhandled event type: " +:+ eventType)])) ∧
  (∀ err,
     malformed E eventType body err →
     handlePayload E eventType body w
     = (Ret (None, Some err), with_events w [JsonDecode body]) ∧
     hookHandler E r w
     = (Ret (http.Error "Error handling payload" 500),
        with_events w
          [JsonDecode body;
           LogError ("Error " +:+ err +:+ " handling " +:+ eventType
                       +:+ " payload")])) ∧
  (∀ w', handlePayload E eventType body w = (Ret (None, None), w') →
         ¬ recognized eventType).
Proof.
  cbn zeta. split; [|split].
  - intros Hno. split; [by apply handlePayload_unrecognized|].
    unfold hookHandler.
    by rewrite (bind_Ret _ _ _ _ _ (handlePayload_unrecognized _ _ _ _ Hno)).
  - intros err Hbad. split; [by apply handlePayload_malformed|].
    unfold hookHandler.
    rewrite (bind_Ret _ _ _ _ _ (handlePayload_malformed _ _ _ _ _ Hbad)).
    unfold bind, logErrorf, emit, with_events. cbn [entities rpc_faults trace ret].
    by rewrite <-app_assoc.
  - intros w' Hrun [Hpush|Hcomment]; unfold handlePayload in Hrun.
    + rewrite Hpush in Hrun. cbn [String.eqb Ascii.eqb Bool.eqb] in Hrun.
      unfold decodePush, bind, emit in Hrun. cbn [ret] in Hrun.
      destruct (decodePushPayload E _) as [p|err]; [|done].
      by apply handlePushPayload_not_silent in Hrun.
    + rewrite Hcomment in Hrun. cbn [String.eqb Ascii.eqb Bool.eqb] in Hrun.
      unfold decodeCommitComment, bind, emit in Hrun. cbn [ret] in Hrun.
      destruct (decodeCommitCommentPayload E _) as [p|err]; [|done].
      by apply handleCommitCommentPayload_not_silent in Hrun.
Qed.

Lemma C6_witness :
  let ping := http.mkRequest {[ "X-Github-Event" := "ping" ]} "{}" in
  let bad := http.mkRequest {[ "X-Github-Event" := "push" ]} "{" in
  (¬ recognized "ping" ∧
   handlePayload Samples.env "ping" "{}" Samples.fresh
   = (Ret (None, None), Samples.fresh) ∧
   hookHandler Samples.env ping Samples.fresh
   = (Ret (http.mkResponse 200 "Unhandled event type: %sping"),
      with_events Samples.fresh [LogWarning "Unhandled event type: ping"])) ∧
  (malformed Samples.env "push" "{" "unexpected end of JSON input" ∧
   handlePayload Samples.env "push" "{" Samples.fresh
   = (Ret (None, Some "unexpected end of JSON input"),
      with_events Samples.fresh [JsonDecode "{"]) ∧
   fst (hookHandler Samples.env bad Samples.fresh)
   = Ret (http.Error "Error handling payload" 500)).
Proof.
  assert (¬ recognized "ping") as Hping by (by intros [|]).
  assert (malformed Samples.env "push" "{" "unexpected end of JSON input")
    as Hbad by (by left).
  split.
  - destruct (C6_unrecognized_or_malformed Samples.env
                (http.mkRequest {[ "X-Github-Event" := "ping" ]} "{}")
                Samples.fresh) as [Hno _].
    destruct (Hno Hping) as [Hpayload Hhook]. by split_and!.
  - destruct (C6_unrecognized_or_malformed Samples.env
                (http.mkRequest {[ "X-Github-Event" := "push" ]} "{")
                Samples.fresh) as (_ & Hmal & _).
    destruct (Hmal _ Hbad) as [Hpayload Hhook].
    split; [exact Hbad|]. split; [exact Hpayload|].
    cbn zeta in Hhook. by rewrite Hhook.
Defined.

(** C7. In a commit-comment run whose comment body is the empty string the
    markdown renderer is never called and the body handed to the template is
    the empty string; when the body is not empty, the body handed to the
    template is the markdown rendering of it, for which the renderer was
    called. *)
Theorem C7_comment_body E p w r w' body :
  Comment.Body (CommitCommentPayload.Comment p) = Some body →
  handleCommitCommentPayload E p w = (r, w') →
  (body = "" →
   (∀ b, MarkdownRender b ∉ emitted w w') ∧
   (∀ name data, TemplateExecute name data ∈ emitted w w' →
      data !! "Body" = Some (VString ""))) ∧
  (body ≠ "" →
   ∀ name data, TemplateExecute name data ∈ emitted w w' →
     MarkdownRender body ∈ emitted w w' ∧
     data !! "Body"
     = Some (VString (markdownHTML E body (CommitCommentPayload.Repo p)))).
Proof.
  intros Hbody Hrun.
  destruct (handleCommitCommentPayload_events _ _ _ _ _ Hrun)
    as [->|(c & evs & Hc & -> & Hevs)].
  { split; [intros _; split; [intros b Hin|intros name data Hin]
           |intros _ name data Hin]; by apply elem_of_nil in Hin. }
  pose proof (cc_body_ok _ _ Hc) as Hc_body. rewrite Hbody in Hc_body.
  injection Hc_body as Hc_body.
  rewrite Forall_forall in Hevs.
  unfold cc_events, cc_data. split.
  - intros ->. rewrite <-Hc_body. cbn [String.length].
    rewrite (decide_False (P := 0 < 0)) by lia. cbn [app]. split.
    + intros b [[=]|Hin%Hevs]%elem_of_cons. done.
    + intros name data [[= -> ->]|Hin%Hevs]%elem_of_cons; [|done].
      unfold cc_rendered. rewrite <-Hc_body. cbn [String.length].
      by rewrite (decide_False (P := 0 < 0)) by lia.
  - intros Hne%length_pos_nonempty name data. rewrite Hc_body in Hne.
    rewrite (decide_True (P := 0 < String.length (cc_body c))) by done.
    cbn [app]. rewrite <-Hc_body.
    intros [[=]|[[= -> ->]|Hin%Hevs]%elem_of_cons]%elem_of_cons; [|done].
    split; [by left|]. unfold commentTemplateData.
    change (list_to_map _ !! "Body") with
      (Some (VString (cc_rendered E p c))).
    unfold cc_rendered.
    by rewrite (decide_True (P := 0 < String.length (cc_body c))), Hc_body by done.
Qed.

Lemma C7_witness :
  let empty := Samples.comment_on "abc1234def5678" "" in
  let lgtm := Samples.comment_on "abc1234def5678" "LGTM" in
  let run0 := handleCommitCommentPayload Samples.env empty Samples.fresh in
  let run1 := handleCommitCommentPayload Samples.env lgtm Samples.fresh in
  ((∀ b, MarkdownRender b ∉ emitted Samples.fresh (snd run0)) ∧
   TemplateExecute "commit-comment" (Samples.comment_data "" "")
     ∈ emitted Samples.fresh (snd run0) ∧
   Samples.comment_data "" "" !! "Body" = Some (VString "")) ∧
  (TemplateExecute "commit-comment" (Samples.comment_data "LGTM" "<p>LGTM</p>")
     ∈ emitted Samples.fresh (snd run1) ∧
   MarkdownRender "LGTM" ∈ emitted Samples.fresh (snd run1) ∧
   Samples.comment_data "LGTM" "<p>LGTM</p>" !! "Body"
   = Some (VString "<p>LGTM</p>")).
Proof.
  assert (TemplateExecute "commit-comment" (Samples.comment_data "" "")
            ∈ emitted Samples.fresh
                (snd (handleCommitCommentPayload Samples.env
                        (Samples.comment_on "abc1234def5678" "") Samples.fresh)))
    as Hin0 by (vm_compute; constructor).
  assert (TemplateExecute "commit-comment"
            (Samples.comment_data "LGTM" "<p>LGTM</p>")
            ∈ emitted Samples.fresh
                (snd (handleCommitCommentPayload Samples.env
                        (Samples.comment_on "abc1234def5678" "LGTM")
                        Samples.fresh)))
    as Hin1 by (vm_compute; do 2 constructor).
  split.
  - destruct (C7_comment_body Samples.env
                (Samples.comment_on "abc1234def5678" "") Samples.fresh _ _ ""
                eq_refl (surjective_pairing _)) as [Hempty _].
    destruct (Hempty eq_refl) as [Hnever Hbody].
    split; [exact Hnever|]. split; [exact Hin0|]. exact (Hbody _ _ Hin0).
  - destruct (C7_comment_body Samples.env
                (Samples.comment_on "abc1234def5678" "LGTM") Samples.fresh _ _
                "LGTM" eq_refl (surjective_pairing _)) as [_ Hrendered].
    destruct (Hrendered ltac:(discriminate) _ _ Hin1) as [Hcalled Hbody].
    split; [exact Hin1|]. split; [exact Hcalled|exact Hbody].
Defined.

(** C8. [createThread] is idempotent: once a put of [subject] under [sha] has
    gone through, a second [createThread] with the same key and subject
    leaves the registry exactly as the first one left it, whether its write
    goes through or fails, and a registry read for [sha] that goes through
    returns [subject], after one put as after two. *)
Theorem C8_put_idempotent sha subject w :
  next_fault w = None →
  let w1 := snd (createThread sha subject w) in
  let w2 := snd (createThread sha subject w1) in
  entities w1 !! sha = Some (mkEmailThread sha subject) ∧
  entities w2 = entities w1 ∧
  (next_fault w1 = None → fst (getSubjectForCommit sha w1) = Ret subject) ∧
  (next_fault w2 = None → fst (getSubjectForCommit sha w2) = Ret subject).
Proof.
  intros Hfirst. cbn zeta.
  assert (entities (snd (createThread sha subject w))
          = <[sha := mkEmailThread sha subject]> (entities w)) as Hw1.
  { rewrite createThread_run. cbn [snd]. unfold next_fault in Hfirst.
    by destruct (rpc_faults w) as [|[e|] rest]. }
  set (w1 := snd (createThread sha subject w)) in *.
  assert (entities (snd (createThread sha subject w1)) = entities w1) as Hw2.
  { rewrite createThread_run. cbn [snd].
    destruct (rpc_faults w1) as [|[e|] rest]; cbn [entities]; [|done|];
      by rewrite Hw1, insert_insert_eq. }
  set (w2 := snd (createThread sha subject w1)) in *.
  assert (∀ w', entities w' !! sha = Some (mkEmailThread sha subject) →
                next_fault w' = None →
                fst (getSubjectForCommit sha w') = Ret subject) as Hget.
  { intros w' Hstored Hnext.
    destruct (getSubjectForCommit_run sha w') as (evs & -> & _).
    unfold registry_get. by rewrite Hnext, Hstored. }
  assert (entities w1 !! sha = Some (mkEmailThread sha subject)) as Hstored
    by (by rewrite Hw1, lookup_insert_eq).
  split; [done|]. split; [done|]. split; [by apply Hget|].
  apply Hget. by rewrite Hw2.
Qed.

Lemma C8_witness :
  let w := mkWorld ∅ [None; Some "datastore: timeout"] [] in
  let w1 := snd (createThread "abc1234def5678" "[org/repo] abc1234: Fix bug" w) in
  let w2 := snd (createThread "abc1234def5678" "[org/repo] abc1234: Fix bug" w1) in
  next_fault w = None ∧
  entities w2 = entities w1 ∧
  fst (getSubjectForCommit "abc1234def5678" w2)
  = Ret "[org/repo] abc1234: Fix bug".
Proof.
  destruct (C8_put_idempotent "abc1234def5678" "[org/repo] abc1234: Fix bug"
              (mkWorld ∅ [None; Some "datastore: timeout"] []) eq_refl)
    as (_ & Hsame & _ & Hget).
  split; [reflexivity|]. split; [exact Hsame|]. exact (Hget eq_refl).
Defined.

(** C9 (as amended).  When the ref is an 11-byte prefix followed by a branch
    name, the branch name a push run hands to its template is the ref
    without those 11 bytes.  When the ref is shorter than 11 bytes the slice
    is not guarded: [handlePushPayload] panics, with the slice bounds out of
    range as soon as the display commits were built, and nothing is rendered,
    registered or returned. *)
Theorem C9_branch_name E p w ref :
  PushPayload.Ref p = Some ref →
  (∀ prefix branch r w' name data,
     ref = prefix +:+ branch →
     String.length prefix = 11 →
     handlePushPayload E p w = (r, w') →
     TemplateExecute name data ∈ emitted w w' →
     data !! "BranchName" = Some (VString branch)) ∧
  (String.length ref < 11 →
   ∃ pn,
     handlePushPayload E p w = (Panic pn, w) ∧
     ∀ dcs,
       value_of (displayCommitsLoop E p "America/Los_Angeles"
                   (PushPayload.Commits p) []) = Ret dcs →
       pn = SliceBoundsOutOfRange 11 (String.length ref)).
Proof.
  intros Href. split.
  - intros prefix branch r w' name data -> Hprefix Hrun Hin.
    destruct (handlePushPayload_templates _ _ _ _ _ _ _ Hrun Hin)
      as (_ & c & Hc & ->).
    rewrite pc_data_BranchName. do 2 f_equal.
    pose proof (pc_ref_ok _ _ _ Hc) as Hc_ref. rewrite Href in Hc_ref.
    unfold pc_branchName. injection Hc_ref as <-.
    rewrite <-Hprefix. apply substring_after_prefix.
  - intros Hshort. unfold handlePushPayload.
    rewrite (bind_Pure _ _ _ (Pure_displayCommitsLoop E _ _ _ _)).
    destruct (value_of (displayCommitsLoop _ _ _ _ _)) as [dcs|pn].
    + rewrite (bind_Pure _ _ _ (Pure_deref _)), Href. cbn [deref].
      rewrite value_of_ret, (bind_Pure _ _ _ (Pure_sliceFrom _ _)).
      unfold sliceFrom. case_decide; [lia|].
      eexists. split; [reflexivity|done].
    + exists pn. split; [done|]. by intros dcs.
Qed.

Lemma C9_witness :
  let run := handlePushPayload Samples.env Samples.one_commit Samples.fresh in
  let short := Samples.push "refs/x" "bob" [Samples.fix_bug] in
  (TemplateExecute "push" Samples.one_commit_data
     ∈ emitted Samples.fresh (snd run) ∧
   Samples.one_commit_data !! "BranchName" = Some (VString "main")) ∧
  handlePushPayload Samples.env short Samples.fresh
  = (Panic (SliceBoundsOutOfRange 11 6), Samples.fresh).
Proof.
  assert (TemplateExecute "push" Samples.one_commit_data
            ∈ emitted Samples.fresh
                (snd (handlePushPayload Samples.env Samples.one_commit
                        Samples.fresh))) as Hin
    by (vm_compute; constructor).
  split; [split; [exact Hin|]|].
  - destruct (C9_branch_name Samples.env Samples.one_commit Samples.fresh
                "refs/heads/main" eq_refl) as [Hbranch _].
    exact (Hbranch "refs/heads/" "main" _ _ _ _ eq_refl eq_refl
             (surjective_pairing _) Hin).
  - destruct (C9_branch_name Samples.env
                (Samples.push "refs/x" "bob" [Samples.fix_bug]) Samples.fresh
                "refs/x" eq_refl) as [_ Hshort].
    destruct (Hshort ltac:(vm_compute; lia)) as (pn & Hrun & Hpn).
    rewrite Hrun. f_equal. f_equal. exact (Hpn _ eq_refl).
Defined.

(** The claim C9 as stated fails: on a push whose ref has 6 bytes the slice
    panics and the run returns nothing. *)
Lemma C9_counterexample :
  let short := Samples.push "refs/x" "bob" [Samples.fix_bug] in
  PushPayload.Ref short = Some "refs/x" ∧
  String.length "refs/x" < 11 ∧
  handlePushPayload Samples.env short Samples.fresh
  = (Panic (SliceBoundsOutOfRange 11 6), Samples.fresh) ∧
  ∀ v w', handlePushPayload Samples.env short Samples.fresh ≠ (Ret v, w').
Proof.
  cbn zeta. split; [done|]. split; [vm_compute; lia|].
  split; [vm_compute; reflexivity|].
  intros v w'. vm_compute. discriminate.
Qed.

(** C10 (as amended).  A push without commits never yields a notification:
    [handlePushPayload] panics before anything is rendered or registered.
    The panic is the index out of range on the first display commit whenever
    the statements before it pass, that is when the ref is present with at
    least 11 bytes and the repository's full name is present. *)
Theorem C10_empty_push_panics E p w :
  PushPayload.Commits p = [] →
  ∃ pn,
    handlePushPayload E p w = (Panic pn, w) ∧
    ∀ ref fullName,
      PushPayload.Ref p = Some ref →
      11 ≤ String.length ref →
      Repository.FullName (PushPayload.Repo p) = Some fullName →
      pn = IndexOutOfRange 0 0.
Proof.
  intros Hempty. unfold handlePushPayload. rewrite Hempty.
  cbn [displayCommitsLoop]. rewrite (bind_Pure _ _ _ (Pure_ret _)), value_of_ret.
  rewrite (bind_Pure _ _ _ (Pure_deref _)).
  destruct (PushPayload.Ref p) as [ref|].
  2:{ eexists. split; [reflexivity|]. by intros ref fn. }
  cbn [deref]. rewrite value_of_ret, (bind_Pure _ _ _ (Pure_sliceFrom _ _)).
  unfold sliceFrom. case_decide as Hlen.
  2:{ eexists. split; [reflexivity|]. intros ref' fn [= <-]. lia. }
  rewrite value_of_ret, (bind_Pure _ _ _ (Pure_deref _)).
  destruct (Repository.FullName _) as [fn|].
  2:{ eexists. split; [reflexivity|]. by intros ref' fn. }
  cbn [deref]. rewrite value_of_ret, (bind_Pure _ _ _ (Pure_index _ _)).
  eexists. split; [reflexivity|]. by intros ref' fn'.
Qed.

Lemma C10_witness :
  let empty := Samples.push "refs/heads/main" "bob" [] in
  PushPayload.Commits empty = [] ∧
  handlePushPayload Samples.env empty Samples.fresh
  = (Panic (IndexOutOfRange 0 0), Samples.fresh).
Proof.
  split; [reflexivity|].
  destruct (C10_empty_push_panics Samples.env
              (Samples.push "refs/heads/main" "bob" []) Samples.fresh eq_refl)
    as (pn & Hrun & Hpn).
  rewrite Hrun. f_equal. f_equal.
  apply (Hpn "refs/heads/main" "org/repo" eq_refl); [vm_compute; lia|reflexivity].
Defined.

(** The claim C10 as stated fails: on a push without commits and without a
    ref, or with a ref shorter than 11 bytes, the run stops at the ref and
    the index of the first display commit is not reached. *)
Lemma C10_counterexample :
  let no_ref :=
    {| PushPayload.Ref := None;
       PushPayload.Compare := None;
       PushPayload.Repo := Samples.org_repo;
       PushPayload.Pusher := {| Pusher.Name := Some "bob" |};
       PushPayload.Sender := {| User.Login := Some "bob" |};
       PushPayload.Commits := [] |} in
  let short_ref := Samples.push "refs/x" "bob" [] in
  PushPayload.Commits no_ref = [] ∧
  handlePushPayload Samples.env no_ref Samples.fresh
  = (Panic NilDereference, Samples.fresh) ∧
  fst (handlePushPayload Samples.env no_ref Samples.fresh)
  ≠ Panic (IndexOutOfRange 0 0) ∧
  PushPayload.Commits short_ref = [] ∧
  handlePushPayload Samples.env short_ref Samples.fresh
  = (Panic (SliceBoundsOutOfRange 11 6), Samples.fresh) ∧
  fst (handlePushPayload Samples.env short_ref Samples.fresh)
  ≠ Panic (IndexOutOfRange 0 0).
Proof.
  cbn zeta. split; [done|]. split; [vm_compute; reflexivity|].
  split; [vm_compute; discriminate|].
  split; [done|]. split; [vm_compute; reflexivity|]. vm_compute; discriminate.
Qed.

(** ** Further properties *)

(** *** What a computation emits, and whether it writes the registry *)

Lemma emits_Pure {A : Type} (P : Event → Prop) (m : M A) : Pure m → emits P m.
Proof. intros Hm w. exists []. by rewrite (Hm w), app_nil_r. Qed.

Lemma emits_emit (P : Event → Prop) e : P e → emits P (emit e).
Proof. intros He w. exists [e]. split; [done|]. by constructor. Qed.

Lemma emits_bind {A B : Type} (P : Event → Prop) (m : M A) (f : A → M B) :
  emits P m → (∀ a, emits P (f a)) → emits P (bind m f).
Proof.
  intros Hm Hf w. unfold bind. destruct (Hm w) as (evs1 & Htr1 & Hevs1).
  destruct (m w) as [[a|pn] w1]; cbn [snd] in *.
  - destruct (Hf a w1) as (evs2 & Htr2 & Hevs2). exists (evs1 ++ evs2).
    rewrite Htr2, Htr1, <-app_assoc. split; [done|]. by apply Forall_app.
  - by exists evs1.
Qed.

Lemma emits_weaken {A : Type} (P Q : Event → Prop) (m : M A) :
  (∀ e, P e → Q e) → emits P m → emits Q m.
Proof.
  intros HPQ Hm w. destruct (Hm w) as (evs & Htr & Hevs).
  exists evs. split; [done|]. by eapply Forall_impl.
Qed.

Lemma emits_emitted {A : Type} (P : Event → Prop) (m : M A) w :
  emits P m → Forall P (emitted w (snd (m w))).
Proof.
  intros Hm. destruct (Hm w) as (evs & Htr & Hevs).
  unfold emitted. by rewrite Htr, drop_app_length.
Qed.

Lemma emits_datastore_Put (P : Event → Prop) key thread :
  P (DatastorePut key thread) → emits P (datastore_Put key thread).
Proof.
  intros He w. exists [DatastorePut key thread].
  unfold datastore_Put, bind, emit, pop_fault; cbn [rpc_faults entities trace].
  destruct (rpc_faults w) as [|[e|] rest]; cbn [snd trace];
    (split; [done|by constructor]).
Qed.

Lemma emits_datastore_Get (P : Event → Prop) key :
  P (DatastoreGet key) → emits P (datastore_Get key).
Proof.
  intros He w. exists [DatastoreGet key].
  unfold datastore_Get, bind, emit, pop_fault; cbn [rpc_faults entities trace].
  destruct (rpc_faults w) as [|[e|] rest]; cbn [rpc_faults entities trace];
    try destruct (entities w !! key); cbn [snd trace];
    (split; [done|by constructor]).
Qed.

Lemma emits_mail_Send (P : Event → Prop) message :
  P (MailSend message) → emits P (mail_Send message).
Proof.
  intros He w. exists [MailSend message].
  unfold mail_Send, bind, emit, pop_fault; cbn [rpc_faults entities trace].
  destruct (rpc_faults w) as [|f rest]; cbn [snd trace];
    (split; [done|by constructor]).
Qed.

Lemma keeps_Pure {A : Type} (m : M A) : Pure m → keeps_entities m.
Proof. intros Hm w. by rewrite (Hm w). Qed.

Lemma keeps_emit e : keeps_entities (emit e).
Proof. by intros w. Qed.

Lemma keeps_bind {A B : Type} (m : M A) (f : A → M B) :
  keeps_entities m → (∀ a, keeps_entities (f a)) → keeps_entities (bind m f).
Proof.
  intros Hm Hf w. unfold bind. specialize (Hm w).
  destruct (m w) as [[a|pn] w1]; cbn [snd] in *; [|done].
  by rewrite Hf.
Qed.

Lemma keeps_datastore_Get key : keeps_entities (datastore_Get key).
Proof.
  intros w. unfold datastore_Get, bind, emit, pop_fault;
    cbn [rpc_faults entities trace].
  destruct (rpc_faults w) as [|[e|] rest]; cbn [rpc_faults entities trace];
    try destruct (entities w !! key); done.
Qed.

Lemma keeps_mail_Send message : keeps_entities (mail_Send message).
Proof.
  intros w. unfold mail_Send, bind, emit, pop_fault;
    cbn [rpc_faults entities trace].
  by destruct (rpc_faults w).
Qed.

Lemma keeps_getSubjectForCommit sha : keeps_entities (getSubjectForCommit sha).
Proof.
  apply keeps_bind; [apply keeps_datastore_Get|].
  intros [thread|e]; [by apply keeps_Pure, Pure_ret|].
  apply keeps_bind; [apply keeps_emit|]. intros _. by apply keeps_Pure, Pure_ret.
Qed.

Lemma preserves_of_keeps {A : Type} (I : World → Prop) (m : M A) :
  entities_only I → keeps_entities m → preserves I m.
Proof. intros HI Hm w Hw. apply (HI w); [|done]. by rewrite Hm. Qed.

Lemma entities_only_all_threads Q : entities_only (all_threads Q).
Proof. intros w w' Heq Hw key thread. rewrite <-Heq. apply Hw. Qed.

Section Further.

Variable E : Collaborators.

Lemma emits_templateExecute (P : Event → Prop) name data :
  P (TemplateExecute name data) → emits P (templateExecute E name data).
Proof.
  intros He. apply emits_bind; [by apply emits_emit|].
  intros _. apply emits_Pure, Pure_ret.
Qed.

Lemma emits_createThread sha subject : emits push_event (createThread sha subject).
Proof.
  apply emits_bind; [by apply emits_datastore_Put|].
  intros [e|]; by apply emits_emit.
Qed.

Lemma emits_createThreadsLoop displayCommits subject :
  emits push_event (createThreadsLoop displayCommits subject).
Proof.
  induction displayCommits as [|d rest IH]; cbn.
  - apply emits_Pure, Pure_ret.
  - apply emits_bind; [apply emits_createThread|done].
Qed.

Lemma emits_handlePushPayload p : emits push_event (handlePushPayload E p).
Proof.
  unfold handlePushPayload.
  apply emits_bind; [apply emits_Pure, Pure_displayCommitsLoop|intros dcs].
  apply emits_bind; [apply emits_Pure, Pure_deref|intros ref].
  apply emits_bind; [apply emits_Pure, Pure_sliceFrom|intros branchName].
  apply emits_bind; [apply emits_Pure, Pure_deref|intros fn].
  apply emits_bind; [apply emits_Pure, Pure_index|intros d0].
  apply emits_bind; [apply emits_Pure; case_decide; auto with pure|intros ext].
  apply emits_bind; [by apply emits_templateExecute|].
  intros [mailHtml|err]; [|apply emits_Pure, Pure_ret].
  apply emits_bind; [apply emits_Pure, Pure_deref|intros user].
  apply emits_bind; [apply emits_Pure, Pure_senderNameLoop|intros name].
  apply emits_bind; [apply emits_Pure, Pure_index|intros d0'].
  apply emits_bind; [apply emits_Pure, Pure_deref|intros fn'].
  apply emits_bind; [apply emits_createThreadsLoop|].
  intros _. apply emits_Pure, Pure_ret.
Qed.

Lemma emits_getSubjectForCommit sha : emits comment_event (getSubjectForCommit sha).
Proof.
  apply emits_bind; [by apply emits_datastore_Get|].
  intros [thread|e]; [apply emits_Pure, Pure_ret|].
  apply emits_bind; [by apply emits_emit|]. intros _. apply emits_Pure, Pure_ret.
Qed.

Lemma emits_handleCommitCommentPayload p :
  emits comment_event (handleCommitCommentPayload E p).
Proof.
  unfold handleCommitCommentPayload.
  apply emits_bind; [apply emits_Pure, Pure_deref|intros sha].
  apply emits_bind; [apply emits_Pure, Pure_sliceTo|intros short].
  apply emits_bind; [apply emits_Pure, Pure_deref|intros url].
  apply emits_bind; [apply emits_Pure, Pure_deref|intros body0].
  apply emits_bind; [|intros body].
  { case_decide; [|apply emits_Pure, Pure_ret].
    apply emits_bind; [by apply emits_emit|].
    intros _. apply emits_Pure, Pure_ret. }
  apply emits_bind; [by apply emits_templateExecute|].
  intros [mailHtml|err]; [|apply emits_Pure, Pure_ret].
  apply emits_bind; [apply emits_Pure, Pure_deref|intros user].
  apply emits_bind; [apply emits_getSubjectForCommit|intros stored].
  apply emits_bind; [|intros subject; apply emits_Pure, Pure_ret].
  apply emits_Pure. destruct (String.eqb stored ""); auto with pure.
Qed.

Lemma emits_handlePayload eventType body :
  emits payload_event (handlePayload E eventType body).
Proof.
  unfold handlePayload.
  destruct (String.eqb eventType "push").
  { apply emits_bind.
    - apply emits_bind; [by apply emits_emit|].
      intros _. apply emits_Pure, Pure_ret.
    - intros [p|err]; [|apply emits_Pure, Pure_ret].
      apply (emits_weaken push_event); [by intros []|].
      apply emits_handlePushPayload. }
  destruct (String.eqb eventType "commit_comment").
  { apply emits_bind.
    - apply emits_bind; [by apply emits_emit|].
      intros _. apply emits_Pure, Pure_ret.
    - intros [p|err]; [|apply emits_Pure, Pure_ret].
      apply (emits_weaken comment_event); [by intros []|].
      apply emits_handleCommitCommentPayload. }
  apply emits_Pure, Pure_ret.
Qed.

Lemma keeps_handleCommitCommentPayload p :
  keeps_entities (handleCommitCommentPayload E p).
Proof.
  unfold handleCommitCommentPayload.
  apply keeps_bind; [apply keeps_Pure, Pure_deref|intros sha].
  apply keeps_bind; [apply keeps_Pure, Pure_sliceTo|intros short].
  apply keeps_bind; [apply keeps_Pure, Pure_deref|intros url].
  apply keeps_bind; [apply keeps_Pure, Pure_deref|intros body0].
  apply keeps_bind; [case_decide; by intros w|intros body].
  apply keeps_bind; [by intros w|].
  intros [mailHtml|err]; [|apply keeps_Pure, Pure_ret].
  apply keeps_bind; [apply keeps_Pure, Pure_deref|intros user].
  apply keeps_bind; [apply keeps_getSubjectForCommit|intros stored].
  apply keeps_bind; [|intros subject; apply keeps_Pure, Pure_ret].
  apply keeps_Pure. destruct (String.eqb stored ""); auto with pure.
Qed.

(** A key outside the display commits keeps its entity; a key among them
    keeps it or receives the thread of this push. *)
Lemma createThreadsLoop_touch displayCommits subject w key :
  let w' := snd (createThreadsLoop displayCommits subject w) in
  entities w' !! key = entities w !! key ∨
  (key ∈ DisplayCommit.SHA <$> displayCommits ∧
   entities w' !! key = Some (mkEmailThread key subject)).
Proof.
  revert w. induction displayCommits as [|d rest IH]; intros w; [by left|].
  rewrite createThreadsLoop_cons. cbn zeta.
  destruct (IH (snd (createThread (DisplayCommit.SHA d) subject w)))
    as [Hsame|[Hin Hnew]].
  2:{ right. split; [|done]. rewrite fmap_cons. by right. }
  cbn zeta in Hsame. rewrite Hsame, createThread_run. cbn [snd].
  destruct (rpc_faults w) as [|[e|] rest']; cbn [entities]; [|by left|];
    (destruct (decide (DisplayCommit.SHA d = key)) as [<-|Hne];
      [right; split; [rewrite fmap_cons; by left|by rewrite lookup_insert_eq]
      |left; by rewrite lookup_insert_ne]).
Qed.

(** The registry after a push run, key by key. *)
Lemma handlePushPayload_registry p w r w' key :
  handlePushPayload E p w = (r, w') →
  entities w' !! key = entities w !! key ∨
  (∃ m c,
     r = Ret (Some m, None) ∧ push_context E p c ∧
     mail.Subject m = pc_subject c ∧
     key ∈ WebHookCommit.ID <$> PushPayload.Commits p ∧
     entities w' !! key = Some (mkEmailThread key (mail.Subject m))).
Proof.
  intros Hrun. pose proof (handlePushPayload_run E p w) as H.
  rewrite Hrun in H. cbn [fst snd] in H.
  inversion H as [pn|c err Hc Hout|c mailHtml pn Hc Hout
                  |c mailHtml u senderName Hc Hout Hu Hname]; subst;
    try by left.
  destruct (createThreadsLoop_touch (pc_displayCommits c) (pc_subject c)
              (with_events w [TemplateExecute "push" (pc_data E p c)]) key)
    as [Hsame|[Hin Hnew]]; [by left|].
  right. eexists _, c. split; [done|]. split; [done|]. split; [done|].
  split; [|done]. by rewrite <-(push_context_SHAs E p c).
Qed.

End Further.

Section Notifications.

Variable E : Collaborators.

Lemma mails_payload_events evs : Forall payload_event evs → mails evs = [].
Proof.
  induction 1 as [|e evs He _ IH]; [done|].
  destruct e; try done; apply IH.
Qed.

Lemma mails_app evs1 evs2 : mails (evs1 ++ evs2) = mails evs1 ++ mails evs2.
Proof. apply omap_app. Qed.

Lemma handlePushPayload_notification p w m oe w' :
  handlePushPayload E p w = (Ret (Some m, oe), w') →
  oe = None ∧ mail.To m = [getRecipient E] ∧ mail.Subject m ≠ "".
Proof.
  intros (c & mailHtml & u & name & _ & _ & _ & _ & -> & -> & _)
    %handlePushPayload_sends_inv.
  by split_and!.
Qed.

Lemma handleCommitCommentPayload_notification p w m oe w' :
  handleCommitCommentPayload E p w = (Ret (Some m, oe), w') →
  oe = None ∧ mail.To m = [getRecipient E] ∧ mail.Subject m ≠ "".
Proof.
  intros Hrun. pose proof (handleCommitCommentPayload_run E p w) as H.
  rewrite Hrun in H. cbn [fst snd] in H.
  inversion H as [| | | |c mailHtml user subject Hc Hout Huser Hget]; subst.
  split; [done|]. split; [done|]. cbn [mail.Subject].
  destruct (registry_get w (cc_commitSHA c)) as [thread|].
  - destruct (String.eqb (Subject thread) "") eqn:Hempty.
    + by destruct Hget as (fullName & _ & ->).
    + subst subject. by apply String.eqb_neq.
  - by destruct Hget as (fullName & _ & ->).
Qed.

Lemma handlePayload_notification eventType body w m oe w' :
  handlePayload E eventType body w = (Ret (Some m, oe), w') →
  oe = None ∧ mail.To m = [getRecipient E] ∧ mail.Subject m ≠ "".
Proof.
  unfold handlePayload.
  destruct (String.eqb eventType "push").
  { unfold decodePush, bind, emit. cbn [ret].
    destruct (decodePushPayload E body) as [p|err]; [|done].
    apply handlePushPayload_notification. }
  destruct (String.eqb eventType "commit_comment"); [|done].
  unfold decodeCommitComment, bind, emit. cbn [ret].
  destruct (decodeCommitCommentPayload E body) as [p|err]; [|done].
  apply handleCommitCommentPayload_notification.
Qed.

End Notifications.

(** X1. Every notification [handlePayload] returns, for a push or for a
    comment and whatever the registry holds, comes without an error, has a
    subject that is not empty and has exactly one recipient: mihai@quip.com
    on the development server, eng+commits@quip.com otherwise. *)
Theorem notification_well_formed E eventType body w m oe w' :
  handlePayload E eventType body w = (Ret (Some m, oe), w') →
  oe = None ∧
  mail.Subject m ≠ "" ∧
  mail.To m
  = [if isDevAppServer E then "mihai@quip.com" else "eng+commits@quip.com"].
Proof.
  intros (-> & Hto & Hsubject)%handlePayload_notification. by split_and!.
Qed.

Lemma notification_well_formed_witness :
  let run := handlePayload Samples.env "push" "push" Samples.fresh in
  run = (Ret (Some Samples.push_mail, None), snd run) ∧
  mail.Subject Samples.push_mail ≠ "" ∧
  mail.To Samples.push_mail = ["eng+commits@quip.com"].
Proof.
  assert (handlePayload Samples.env "push" "push" Samples.fresh
          = (Ret (Some Samples.push_mail, None),
             snd (handlePayload Samples.env "push" "push" Samples.fresh)))
    as Hrun by (vm_compute; reflexivity).
  destruct (notification_well_formed _ _ _ _ _ _ _ Hrun) as (_ & Hsubject & Hto).
  by split_and!.
Defined.

(** X2. The registry after a push run, key by key: a key keeps the entity it
    had, unless the run returned a notification and the key is the id of a
    commit of the push, in which case it may hold the thread of that id with
    the notification's subject.  So a run that panics or fails to render
    registers nothing, and no run touches the keys of other commits. *)
Theorem push_registry_effect E p w r w' key :
  handlePushPayload E p w = (r, w') →
  entities w' !! key = entities w !! key ∨
  (∃ m,
     r = Ret (Some m, None) ∧
     key ∈ WebHookCommit.ID <$> PushPayload.Commits p ∧
     entities w' !! key = Some (mkEmailThread key (mail.Subject m))).
Proof.
  intros [Hsame|(m & c & -> & _ & _ & Hin & Hnew)]%(handlePushPayload_registry E p w r w' key);
    [by left|].
  right. by exists m.
Qed.

Lemma push_registry_effect_witness :
  let stored := mkEmailThread "0123456789" "[org/repo] 0123456: Older" in
  let w := mkWorld {[ "0123456789" := stored ]} [Some "datastore: timeout"] [] in
  let w' := snd (handlePushPayload Samples.env Samples.two_commits w) in
  entities w' !! "0123456789" = Some stored ∧
  entities w' !! "abc1234def5678" = None ∧
  entities w' !! "fedcba9876543210"
  = Some (mkEmailThread "fedcba9876543210" "[org/repo] abc1234: Fix bug").
Proof.
  cbn zeta.
  set (w := mkWorld {[ "0123456789" :=
                         mkEmailThread "0123456789" "[org/repo] 0123456: Older" ]}
              [Some "datastore: timeout"] []).
  assert (∀ key, key ∉ WebHookCommit.ID <$> PushPayload.Commits Samples.two_commits →
            entities (snd (handlePushPayload Samples.env Samples.two_commits w))
              !! key = entities w !! key) as Hframe.
  { intros key Hout.
    destruct (push_registry_effect Samples.env Samples.two_commits w _ _ key
                (surjective_pairing _)) as [Hsame|(m & _ & Hin & _)]; done. }
  split; [|split].
  - rewrite Hframe; [reflexivity|]. intros Hin. cbn in Hin.
    repeat (apply elem_of_cons in Hin as [Hin|Hin]; [discriminate|]).
    by apply elem_of_nil in Hin.
  - vm_compute. reflexivity.
  - vm_compute. reflexivity.
Defined.

(** *** The push handler over any display-commit builder *)

Lemma bind_same_start {A B : Type} (m m' : M A) (f : A → M B) w :
  m w = m' w → bind m f w = bind m' f w.
Proof. intros H. unfold bind. by rewrite H. Qed.

Lemma displayCommitsLoopWith_newDisplayCommit E p location commits acc w :
  displayCommitsLoopWith (newDisplayCommit E) p location commits acc w
  = displayCommitsLoop E p location commits acc w.
Proof.
  revert acc w. induction commits as [|commit rest IH]; intros acc w; [done|].
  cbn. unfold bind.
  destruct (newDisplayCommit E commit _ _ location w) as [[d|pn] w1]; [|done].
  apply IH.
Qed.

(** With the spec's builder the handler over a builder is
    [handlePushPayload]. *)
Lemma handlePushPayloadWith_newDisplayCommit E p w :
  handlePushPayloadWith E (newDisplayCommit E) p w = handlePushPayload E p w.
Proof.
  unfold handlePushPayloadWith, handlePushPayload.
  apply bind_same_start, displayCommitsLoopWith_newDisplayCommit.
Qed.

Lemma emits_displayCommitsLoopWith build (P : Event → Prop) p location commits acc :
  (∀ commit sender repo loc, emits P (build commit sender repo loc)) →
  emits P (displayCommitsLoopWith build p location commits acc).
Proof.
  intros Hbuild. revert acc.
  induction commits as [|commit rest IH]; intros acc; cbn.
  - apply emits_Pure, Pure_ret.
  - apply emits_bind; [apply Hbuild|intros d; apply IH].
Qed.

(** The events of [m] come before those of what follows it. *)
Lemma emits_then {A B : Type} (P Q : Event → Prop) (m : M A) (f : A → M B) w :
  emits P m → (∀ a, emits Q (f a)) →
  ∃ evs1 evs2,
    trace (snd (bind m f w)) = trace w ++ evs1 ++ evs2 ∧
    Forall P evs1 ∧ Forall Q evs2.
Proof.
  intros Hm Hf. unfold bind. destruct (Hm w) as (evs1 & Htr1 & Hevs1).
  destruct (m w) as [[a|pn] w1]; cbn [snd] in *.
  - destruct (Hf a w1) as (evs2 & Htr2 & Hevs2). exists evs1, evs2.
    by rewrite Htr2, Htr1, <-app_assoc.
  - exists evs1, []. by rewrite app_nil_r.
Qed.

(** X3. Whatever [newDisplayCommit] does with the context it is handed, the
    events of a push run are those of building the display commits followed
    by events of [handlePushPayload]'s own statements, and these only execute
    the template, put threads and log: the handler itself never reads the
    registry, never renders markdown, never decodes a body and never sends
    mail. *)
Theorem push_run_events E build (P : Event → Prop) p w r w' :
  (∀ commit sender repo location,
     emits P (build commit sender repo location)) →
  handlePushPayloadWith E build p w = (r, w') →
  ∃ built rest,
    emitted w w' = built ++ rest ∧ Forall P built ∧ Forall push_event rest.
Proof.
  intros Hbuild Hrun.
  replace w' with (snd (handlePushPayloadWith E build p w)) by by rewrite Hrun.
  unfold handlePushPayloadWith.
  match goal with
  | |- context [bind ?m ?f w] =>
      destruct (emits_then P push_event m f w) as (built & rest & Htr & HP & HQ)
  end.
  - by apply emits_displayCommitsLoopWith.
  - intros dcs.
    apply emits_bind; [apply emits_Pure, Pure_deref|intros ref].
    apply emits_bind; [apply emits_Pure, Pure_sliceFrom|intros branchName].
    apply emits_bind; [apply emits_Pure, Pure_deref|intros fn].
    apply emits_bind; [apply emits_Pure, Pure_index|intros d0].
    apply emits_bind; [apply emits_Pure; case_decide; auto with pure|intros ext].
    apply emits_bind; [by apply emits_templateExecute|].
    intros [mailHtml|err]; [|apply emits_Pure, Pure_ret].
    apply emits_bind; [apply emits_Pure, Pure_deref|intros user].
    apply emits_bind; [apply emits_Pure, Pure_senderNameLoop|intros name].
    apply emits_bind; [apply emits_Pure, Pure_index|intros d0'].
    apply emits_bind; [apply emits_Pure, Pure_deref|intros fn'].
    apply emits_bind; [apply emits_createThreadsLoop|].
    intros _. apply emits_Pure, Pure_ret.
  - exists built, rest. split; [|done].
    apply emitted_app. by rewrite Htr.
Qed.

Lemma push_run_events_witness :
  ∃ built rest,
    emitted Samples.fresh
      (snd (handlePushPayload Samples.env Samples.two_commits Samples.fresh))
    = built ++ rest ∧
    Forall (λ _, False) built ∧ Forall push_event rest.
Proof.
  rewrite <-handlePushPayloadWith_newDisplayCommit.
  apply (push_run_events Samples.env (newDisplayCommit Samples.env)
           (λ _, False) Samples.two_commits Samples.fresh
           (fst (handlePushPayloadWith Samples.env (newDisplayCommit Samples.env)
                   Samples.two_commits Samples.fresh))).
  - intros commit sender repo location.
    apply emits_Pure, Pure_newDisplayCommit.
  - apply surjective_pairing.
Defined.

(** X4. A comment run never writes the registry: whatever its outcome the
    entities are those it found.  It only renders markdown, executes the
    template, reads the registry and logs; it never sends mail. *)
Theorem comment_run_read_only E p w r w' :
  handleCommitCommentPayload E p w = (r, w') →
  entities w' = entities w ∧
  Forall comment_event (emitted w w').
Proof.
  intros Hrun.
  replace w' with (snd (handleCommitCommentPayload E p w)) by by rewrite Hrun.
  split; [apply keeps_handleCommitCommentPayload|].
  apply emits_emitted, emits_handleCommitCommentPayload.
Qed.

Lemma comment_run_read_only_witness :
  let pushed :=
    snd (handlePushPayload Samples.env Samples.two_commits Samples.fresh) in
  let run :=
    handleCommitCommentPayload Samples.env
      (Samples.comment_on "abc1234def5678" "LGTM") pushed in
  entities (snd run) = entities pushed ∧
  Forall comment_event (emitted pushed (snd run)).
Proof.
  exact (comment_run_read_only Samples.env _ _ _ _ (surjective_pairing _)).
Defined.

Lemma bind_Panic' {A B : Type} (m : M A) (f : A → M B) w pn w1 :
  m w = (Panic pn, w1) → bind m f w = (Panic pn, w1).
Proof. intros H. unfold bind. by rewrite H. Qed.

Section Hook.

Variable E : Collaborators.

(** [hookHandler] after [handlePayload], outcome by outcome. *)
Lemma hookHandler_after r w h w1 :
  handlePayload E (default "" (http.Header r !! "X-Github-Event"))
    (http.Body r) w = (h, w1) →
  hookHandler E r w
  = match h with
    | Panic pn => (Panic pn, w1)
    | Ret (_, Some err) =>
        (Ret (http.Error "Error handling payload" 500),
         with_events w1
           [LogError ("Error " +:+ err +:+ " handling "
                        +:+ default "" (http.Header r !! "X-Github-Event")
                        +:+ " payload")])
    | Ret (None, None) =>
        (Ret (http.mkResponse 200
                ("Unhandled event type: %s"
                   +:+ default "" (http.Header r !! "X-Github-Event"))),
         with_events w1
           [LogWarning ("Unhandled event type: "
                          +:+ default "" (http.Header r !! "X-Github-Event"))])
    | Ret (Some m, None) =>
        (Ret match next_fault w1 with
             | Some _ => http.Error "Could not send mail" 500
             | None => http.mkResponse 200 "OK"
             end,
         mkWorld (entities w1) (tail (rpc_faults w1))
           (trace w1
              ++ [MailSend m;
                  match next_fault w1 with
                  | Some e => LogError ("Could not send mail: " +:+ e)
                  | None => LogInfo ("Sent mail to " +:+ getRecipient E)
                  end]))
    end.
Proof.
  intros Hrun. unfold hookHandler.
  destruct h as [[om oe]|pn]; [|by rewrite (bind_Panic' _ _ _ _ _ Hrun)].
  rewrite (bind_Ret _ _ _ _ _ Hrun).
  destruct oe as [err|].
  { by destruct om. }
  destruct om as [m|]; [|done].
  destruct (handlePayload_notification E _ _ _ _ _ _ Hrun) as (_ & Hto & _).
  unfold mail_Send, bind, emit, pop_fault, next_fault, logErrorf, logInfof,
    emit, index; cbn [rpc_faults entities trace].
  rewrite Hto.
  destruct (rpc_faults w1) as [|[e|] rest];
    cbn [rpc_faults entities trace tail lookup ret]; cbn;
    by rewrite <-app_assoc.
Qed.

End Hook.

(** X5. [hookHandler] answers 200 "OK" exactly when [handlePayload] produced
    a notification and the mail transport accepted it; the request then
    leaves, after the effects of [handlePayload], one send of that
    notification and one log line naming the recipient. *)
Theorem hookHandler_OK_iff_sent E r w w' :
  hookHandler E r w = (Ret (http.mkResponse 200 "OK"), w') ↔
  ∃ m w1,
    handlePayload E (default "" (http.Header r !! "X-Github-Event"))
      (http.Body r) w = (Ret (Some m, None), w1) ∧
    next_fault w1 = None ∧
    w' = mkWorld (entities w1) (tail (rpc_faults w1))
           (trace w1 ++ [MailSend m;
                         LogInfo ("Sent mail to " +:+ getRecipient E)]).
Proof.
  split.
  - destruct (handlePayload E (default "" (http.Header r !! "X-Github-Event"))
                (http.Body r) w) as [h w1] eqn:Hrun.
    rewrite (hookHandler_after E r w h w1 Hrun).
    destruct h as [[[m|] [err|]]|pn]; try done.
    destruct (next_fault w1) as [e|] eqn:Hnext; [done|].
    intros [= <-]. by exists m, w1.
  - intros (m & w1 & Hrun & Hnext & ->).
    by rewrite (hookHandler_after E r w _ w1 Hrun), Hnext.
Qed.

Lemma hookHandler_OK_iff_sent_witness :
  hookHandler Samples.env
    (http.mkRequest {[ "X-Github-Event" := "push" ]} "push") Samples.fresh
  = (Ret (http.mkResponse 200 "OK"),
     snd (hookHandler Samples.env
            (http.mkRequest {[ "X-Github-Event" := "push" ]} "push")
            Samples.fresh)) ∧
  ∃ m w1,
    handlePayload Samples.env "push" "push" Samples.fresh
    = (Ret (Some m, None), w1) ∧ next_fault w1 = None.
Proof.
  assert (hookHandler Samples.env
            (http.mkRequest {[ "X-Github-Event" := "push" ]} "push")
            Samples.fresh
          = (Ret (http.mkResponse 200 "OK"),
             snd (hookHandler Samples.env
                    (http.mkRequest {[ "X-Github-Event" := "push" ]} "push")
                    Samples.fresh))) as Hok by (vm_compute; reflexivity).
  split; [exact Hok|].
  destruct (proj1 (hookHandler_OK_iff_sent Samples.env _ _ _) Hok)
    as (m & w1 & Hrun & Hnext & _).
  by exists m, w1.
Defined.

(** X6. [hookHandler] hands at most one message to the mail transport per
    request: the notification when [handlePayload] produced one, sent once
    whether the transport accepts it or fails, and nothing otherwise.  Its
    own steps never touch the registry: what [handlePayload] registered
    stays registered when the send fails. *)
Theorem hookHandler_mails E r w res w' h w1 :
  hookHandler E r w = (res, w') →
  handlePayload E (default "" (http.Header r !! "X-Github-Event"))
    (http.Body r) w = (h, w1) →
  mails (emitted w w')
  = match h with
    | Ret (Some m, None) => [m]
    | _ => []
    end ∧
  entities w' = entities w1.
Proof.
  intros Hhook Hrun. rewrite (hookHandler_after E r w h w1 Hrun) in Hhook.
  destruct (emits_handlePayload E (default "" (http.Header r !! "X-Github-Event"))
              (http.Body r) w) as (evs & Htr & Hevs).
  rewrite Hrun in Htr. cbn [snd] in Htr.
  apply mails_payload_events in Hevs.
  destruct h as [[[m|] [err|]]|pn]; injection Hhook as <- <-;
    cbn [entities]; (split; [|done]);
    unfold emitted, with_events; cbn [trace]; rewrite ?Htr, <-?app_assoc;
    rewrite drop_app_length, ?mails_app, ?Hevs; try done.
  by destruct (next_fault w1).
Qed.

Lemma hookHandler_mails_witness :
  let r := http.mkRequest {[ "X-Github-Event" := "push" ]} "push" in
  let w := mkWorld ∅ [None; None; Some "mail: over quota"] [] in
  fst (hookHandler Samples.env r w)
  = Ret (http.Error "Could not send mail" 500) ∧
  mails (emitted w (snd (hookHandler Samples.env r w))) = [Samples.push_mail] ∧
  entities (snd (hookHandler Samples.env r w)) !! "abc1234def5678"
  = Some (mkEmailThread "abc1234def5678" "[org/repo] abc1234: Fix bug").
Proof.
  cbn zeta.
  set (r := http.mkRequest {[ "X-Github-Event" := "push" ]} "push").
  set (w := mkWorld ∅ [None; None; Some "mail: over quota"] []).
  assert (handlePayload Samples.env
            (default "" (http.Header r !! "X-Github-Event")) (http.Body r) w
          = (Ret (Some Samples.push_mail, None),
             snd (handlePayload Samples.env "push" "push" w))) as Hrun
    by (vm_compute; reflexivity).
  destruct (hookHandler_mails Samples.env r w _ _ _ _
              (surjective_pairing _) Hrun) as [Hmails Hentities].
  split; [vm_compute; reflexivity|]. split; [exact Hmails|].
  rewrite Hentities. vm_compute. reflexivity.
Defined.

(** X7. [hookHandler] has no panic of its own: it panics exactly when
    [handlePayload] does, with the same panic and the same world; in
    particular its index of the first recipient is always in range. *)
Theorem hookHandler_panics_iff E r w pn w' :
  hookHandler E r w = (Panic pn, w') ↔
  handlePayload E (default "" (http.Header r !! "X-Github-Event"))
    (http.Body r) w = (Panic pn, w').
Proof.
  split.
  - destruct (handlePayload E (default "" (http.Header r !! "X-Github-Event"))
                (http.Body r) w) as [h w1] eqn:Hrun.
    rewrite (hookHandler_after E r w h w1 Hrun).
    destruct h as [[[m|] [err|]]|pn']; try done. by intros [= <- <-].
  - intros Hrun. by rewrite (hookHandler_after E r w _ w' Hrun).
Qed.

Section ClosedForms.

Variable E : Collaborators.

(** A push run whose context resolves, in closed form. *)
Lemma handlePushPayload_with_context p w c :
  push_context E p c →
  handlePushPayload E p w
  = let w1 := with_events w [TemplateExecute "push" (pc_data E p c)] in
    match templateOutput E "push" (pc_data E p c) with
    | inr err => (Ret (None, Some err), w1)
    | inl mailHtml =>
        match Pusher.Name (PushPayload.Pusher p) with
        | None => (Panic NilDereference, w1)
        | Some user =>
            match value_of (senderNameLoop (PushPayload.Commits p) user user) with
            | Panic pn => (Panic pn, w1)
            | Ret name =>
                (Ret (Some {| mail.Sender := senderAddress E name user;
                              mail.To := [getRecipient E];
                              mail.Subject := pc_subject c;
                              mail.HTMLBody := mailHtml |},
                      None),
                 snd (createThreadsLoop (pc_displayCommits c) (pc_subject c) w1))
            end
        end
    end.
Proof.
  intros [Hbuilt Href Hlong Hfn Hfirst Hext]. cbn zeta.
  unfold handlePushPayload.
  rewrite (bind_Pure _ _ _ (Pure_displayCommitsLoop E _ _ _ _)), Hbuilt.
  rewrite (bind_Pure _ _ _ (Pure_deref _)), Href. cbn [deref].
  rewrite value_of_ret, (bind_Pure _ _ _ (Pure_sliceFrom _ _)).
  unfold sliceFrom. rewrite (decide_True (P := 11 ≤ _)) by done.
  rewrite value_of_ret, (bind_Pure _ _ _ (Pure_deref _)), Hfn. cbn [deref].
  rewrite value_of_ret, (bind_Pure _ _ _ (Pure_index _ _)).
  unfold index. rewrite Hfirst, value_of_ret.
  assert (∀ {B} (k : string → M B),
            bind (if decide (1 < length (pc_displayCommits c))
                  then deref (PushPayload.Compare p)
                  else ret (DisplayCommit.URL (pc_first c))) k w
            = k (pc_extensionUrl c) w) as Hstep.
  { intros B k. case_decide.
    - by rewrite (bind_Pure _ _ _ (Pure_deref _)), Hext.
    - by rewrite (bind_Pure _ _ _ (Pure_ret _)), value_of_ret, Hext. }
  rewrite Hstep. clear Hstep.
  change (pushTemplateData _ _ _ _ _ _ _) with (pc_data E p c).
  rewrite (bind_Ret _ _ _ _ _ (templateExecute_run _ _ _ _)).
  destruct (templateOutput E "push" (pc_data E p c)) as [mailHtml|err]; [|done].
  rewrite (bind_Pure _ _ _ (Pure_deref _)).
  destruct (Pusher.Name _) as [user|]; [|done].
  cbn [deref]. rewrite value_of_ret, (bind_Pure _ _ _ (Pure_senderNameLoop _ _ _)).
  destruct (value_of (senderNameLoop _ _ _)) as [name|pn]; [|done].
  unfold bind. cbn [ret].
  change ("[" +:+ pc_fullName c +:+ _) with (pc_subject c).
  pose proof (createThreadsLoop_returns (pc_displayCommits c) (pc_subject c)
    (with_events w [TemplateExecute "push" (pc_data E p c)])) as Hret.
  destruct (createThreadsLoop _ _ _) as [r w']. cbn [fst snd] in *. by subst r.
Qed.

(** A comment run whose context resolves, in closed form. *)
Lemma handleCommitCommentPayload_with_context p w c :
  comment_context p c →
  handleCommitCommentPayload E p w
  = let w1 := with_events w (cc_events E p c) in
    match templateOutput E "commit-comment" (cc_data E p c) with
    | inr err => (Ret (None, Some err), w1)
    | inl mailHtml =>
        match User.Login (CommitCommentPayload.Sender p) with
        | None => (Panic NilDereference, w1)
        | Some user =>
            let stored :=
              from_option Subject "" (registry_get w (cc_commitSHA c)) in
            let notify subject :=
              Ret (Some {| mail.Sender := senderAddress E user user;
                           mail.To := [getRecipient E];
                           mail.Subject := subject;
                           mail.HTMLBody := mailHtml |},
                   None) in
            if String.eqb stored "" then
              match Repository.FullName (CommitCommentPayload.Repo p) with
              | None => (Panic NilDereference, cc_after_get E p c w)
              | Some fullName =>
                  (notify ("[" +:+ fullName +:+ "] " +:+ cc_shortSHA c),
                   cc_after_get E p c w)
              end
            else (notify stored, cc_after_get E p c w)
        end
    end.
Proof.
  intros [Hsha Hlen Hurl Hbody]. cbn zeta.
  unfold handleCommitCommentPayload.
  rewrite (bind_Pure _ _ _ (Pure_deref _)), Hsha. cbn [deref].
  rewrite value_of_ret, (bind_Pure _ _ _ (Pure_sliceTo _ _)).
  unfold sliceTo. rewrite (decide_True (P := 7 ≤ _)) by done.
  rewrite value_of_ret, (bind_Pure _ _ _ (Pure_deref _)), Hurl. cbn [deref].
  rewrite value_of_ret, (bind_Pure _ _ _ (Pure_deref _)), Hbody. cbn [deref].
  rewrite value_of_ret.
  assert (∀ {B} (k : string + error → M B),
            bind (if decide (0 < String.length (cc_body c))
                  then renderMessageMarkdown E (cc_body c)
                         (CommitCommentPayload.Repo p)
                  else ret (cc_body c))
              (λ body, bind (templateExecute E "commit-comment"
                               (commentTemplateData E p
                                  (String.substring 0 7 (cc_commitSHA c))
                                  body
                                  (cc_repoURL c +:+ "/commit/" +:+ cc_commitSHA c)
                                  "America/Los_Angeles")) k) w
            = k (templateOutput E "commit-comment" (cc_data E p c))
                (with_events w (cc_events E p c))) as Hstep.
  { intros B k. unfold cc_events, cc_data, cc_rendered, cc_shortSHA.
    case_decide.
    - rewrite (bind_Ret _ _ _ _ _ (renderMessageMarkdown_run _ _ _ _)).
      rewrite (bind_Ret _ _ _ _ _ (templateExecute_run _ _ _ _)).
      by rewrite with_events_app.
    - rewrite (bind_Pure _ _ _ (Pure_ret _)), value_of_ret.
      by rewrite (bind_Ret _ _ _ _ _ (templateExecute_run _ _ _ _)). }
  rewrite Hstep. clear Hstep.
  destruct (templateOutput E "commit-comment" (cc_data E p c))
    as [mailHtml|err]; [|done].
  rewrite (bind_Pure _ _ _ (Pure_deref _)).
  destruct (User.Login _) as [user|]; [|done].
  cbn [deref]. rewrite value_of_ret.
  set (w1 := with_events w (cc_events E p c)).
  destruct (getSubjectForCommit_run (cc_commitSHA c) w1) as (evs & Hget & _).
  assert (cc_after_get E p c w
          = mkWorld (entities w1) (tail (rpc_faults w1))
              (trace w1 ++ DatastoreGet (cc_commitSHA c) :: evs)) as Hafter.
  { unfold cc_after_get. fold w1. by rewrite Hget. }
  rewrite (bind_Ret _ _ _ _ _ Hget), <-Hafter.
  assert (registry_get w1 (cc_commitSHA c) = registry_get w (cc_commitSHA c))
    as -> by done.
  destruct (String.eqb (from_option Subject "" _) "").
  - rewrite (bind_Pure _ _ _ (Pure_bind _ _ (Pure_deref _) (λ _, Pure_ret _))).
    rewrite value_of_bind by apply Pure_deref.
    destruct (Repository.FullName _) as [fullName|]; [|done].
    cbn [deref]. by rewrite !value_of_ret.
  - by rewrite (bind_Pure _ _ _ (Pure_ret _)), value_of_ret.
Qed.

(** The sender loop stops with a nil dereference at the first commit, in
    payload order, that lacks a username it has to compare. *)
Lemma senderNameLoop_missing_username before commit after user senderName :
  Forall (other_user user) before →
  (WebHookAuthor.Username (WebHookCommit.Author commit) = None ∨
   ∃ author,
     WebHookAuthor.Username (WebHookCommit.Author commit) = Some author ∧
     author ≠ user ∧
     WebHookAuthor.Username (WebHookCommit.Committer commit) = None) →
  value_of (senderNameLoop (before ++ commit :: after) user senderName)
  = Panic NilDereference.
Proof.
  intros Hbefore Hmissing.
  induction Hbefore as [|c before (a & k & Ha & Hk & Hna & Hnk) _ IH]; cbn.
  - destruct Hmissing as [Ha|(a & Ha & Hna & Hk)].
    + rewrite value_of_bind by apply Pure_deref. by rewrite Ha.
    + rewrite value_of_bind by apply Pure_deref. rewrite Ha. cbn [deref].
      rewrite value_of_ret. apply String.eqb_neq in Hna. rewrite Hna.
      rewrite value_of_bind by apply Pure_deref. by rewrite Hk.
  - rewrite value_of_bind by apply Pure_deref. rewrite Ha. cbn [deref].
    rewrite value_of_ret. apply String.eqb_neq in Hna. rewrite Hna.
    rewrite value_of_bind by apply Pure_deref. rewrite Hk. cbn [deref].
    rewrite value_of_ret. apply String.eqb_neq in Hnk. by rewrite Hnk.
Qed.

End ClosedForms.

Ltac sample_context := split; vm_compute; first [reflexivity | lia].

(** X8. A push whose template fails to render returns the render error and
    no notification, and [handlePushPayload] itself has done nothing but call
    the template: the world is the one building the display commits left,
    with the template call added to its trace; the handler registers no
    thread and makes no service call of its own. *)
Theorem push_render_error E build p w c w0 err :
  push_context_with build p w c w0 →
  templateOutput E "push" (pc_data E p c) = inr err →
  handlePushPayloadWith E build p w
  = (Ret (None, Some err),
     with_events w0 [TemplateExecute "push" (pc_data E p c)]).
Proof.
  intros [Hbuilt Href Hlong Hfn Hfirst Hext] Hout.
  unfold handlePushPayloadWith.
  rewrite (bind_Ret _ _ _ _ _ Hbuilt).
  rewrite (bind_Pure _ _ _ (Pure_deref _)), Href. cbn [deref].
  rewrite value_of_ret, (bind_Pure _ _ _ (Pure_sliceFrom _ _)).
  unfold sliceFrom. rewrite (decide_True (P := 11 ≤ _)) by done.
  rewrite value_of_ret, (bind_Pure _ _ _ (Pure_deref _)), Hfn. cbn [deref].
  rewrite value_of_ret, (bind_Pure _ _ _ (Pure_index _ _)).
  unfold index. rewrite Hfirst, value_of_ret.
  assert (∀ {B} (k : string → M B),
            bind (if decide (1 < length (pc_displayCommits c))
                  then deref (PushPayload.Compare p)
                  else ret (DisplayCommit.URL (pc_first c))) k w0
            = k (pc_extensionUrl c) w0) as Hstep.
  { intros B k. case_decide.
    - by rewrite (bind_Pure _ _ _ (Pure_deref _)), Hext.
    - by rewrite (bind_Pure _ _ _ (Pure_ret _)), value_of_ret, Hext. }
  rewrite Hstep. clear Hstep.
  change (pushTemplateData _ _ _ _ _ _ _) with (pc_data E p c).
  rewrite (bind_Ret _ _ _ _ _ (templateExecute_run _ _ _ _)).
  by rewrite Hout.
Qed.

Lemma push_render_error_witness :
  let E := AuxSamples.failing_env in
  let c := AuxSamples.push_context_of E Samples.two_commits in
  push_context_with (newDisplayCommit E) Samples.two_commits Samples.fresh c
    Samples.fresh ∧
  handlePushPayload E Samples.two_commits Samples.fresh
  = (Ret (None, Some "template: exec error"),
     with_events Samples.fresh
       [TemplateExecute "push" (pc_data E Samples.two_commits c)]).
Proof.
  cbn zeta.
  assert (push_context_with (newDisplayCommit AuxSamples.failing_env)
            Samples.two_commits Samples.fresh
            (AuxSamples.push_context_of AuxSamples.failing_env
               Samples.two_commits) Samples.fresh) as Hc by sample_context.
  split; [exact Hc|].
  rewrite <-handlePushPayloadWith_newDisplayCommit.
  exact (push_render_error AuxSamples.failing_env _ Samples.two_commits
           Samples.fresh _ _ _ Hc eq_refl).
Defined.

(** X9. A comment whose template fails to render returns the render error
    and no notification, before the registry is read: the run has rendered
    the markdown of a non-empty body and called the template, nothing else. *)
Theorem comment_render_error E p w c err :
  comment_context p c →
  templateOutput E "commit-comment" (cc_data E p c) = inr err →
  handleCommitCommentPayload E p w
  = (Ret (None, Some err), with_events w (cc_events E p c)).
Proof.
  intros Hc Hout.
  by rewrite (handleCommitCommentPayload_with_context E p w c Hc), Hout.
Qed.

Lemma comment_render_error_witness :
  let E := AuxSamples.failing_env in
  let p := Samples.comment_on "abc1234def5678" "LGTM" in
  let c := AuxSamples.comment_context_of p in
  comment_context p c ∧
  handleCommitCommentPayload E p Samples.fresh
  = (Ret (None, Some "template: exec error"),
     with_events Samples.fresh (cc_events E p c)).
Proof.
  cbn zeta.
  assert (comment_context (Samples.comment_on "abc1234def5678" "LGTM")
            (AuxSamples.comment_context_of
               (Samples.comment_on "abc1234def5678" "LGTM"))) as Hc
    by sample_context.
  split; [exact Hc|].
  exact (comment_render_error AuxSamples.failing_env _ Samples.fresh _ _ Hc
           eq_refl).
Defined.

(** X10. The short id of a commented commit is sliced without a guard: a
    comment payload without commit id panics with a nil dereference, one
    whose commit id has fewer than 7 bytes panics with the slice bounds out
    of range, and in both cases nothing else has happened. *)
Theorem comment_commit_id_bounds E p w :
  match Comment.CommitID (CommitCommentPayload.Comment p) with
  | None => handleCommitCommentPayload E p w = (Panic NilDereference, w)
  | Some sha =>
      String.length sha < 7 →
      handleCommitCommentPayload E p w
      = (Panic (SliceBoundsOutOfRange 7 (String.length sha)), w)
  end.
Proof.
  unfold handleCommitCommentPayload.
  rewrite (bind_Pure _ _ _ (Pure_deref _)).
  destruct (Comment.CommitID _) as [sha|]; [|done].
  intros Hshort. cbn [deref].
  rewrite value_of_ret, (bind_Pure _ _ _ (Pure_sliceTo _ _)).
  unfold sliceTo. by rewrite (decide_False (P := 7 ≤ _)) by lia.
Qed.

Lemma comment_commit_id_bounds_witness :
  String.length "abc12" < 7 ∧
  handleCommitCommentPayload Samples.env (Samples.comment_on "abc12" "LGTM")
    Samples.fresh
  = (Panic (SliceBoundsOutOfRange 7 5), Samples.fresh).
Proof.
  assert (String.length "abc12" < 7) as Hshort by (vm_compute; lia).
  split; [exact Hshort|].
  exact (comment_commit_id_bounds Samples.env
           (Samples.comment_on "abc12" "LGTM") Samples.fresh Hshort).
Defined.

(** X11. A comment run needs the repository's full name only when the
    registry read misses.  For a payload without full name, a hit on a thread
    with a subject still yields the notification, under the stored subject;
    a miss panics with a nil dereference, after the template was executed
    and the registry read. *)
Theorem comment_full_name_on_miss_only E p w c mailHtml user :
  comment_context p c →
  templateOutput E "commit-comment" (cc_data E p c) = inl mailHtml →
  User.Login (CommitCommentPayload.Sender p) = Some user →
  Repository.FullName (CommitCommentPayload.Repo p) = None →
  match registry_get w (cc_commitSHA c) with
  | Some thread =>
      Subject thread ≠ "" →
      handleCommitCommentPayload E p w
      = (Ret (Some {| mail.Sender := senderAddress E user user;
                      mail.To := [getRecipient E];
                      mail.Subject := Subject thread;
                      mail.HTMLBody := mailHtml |},
              None),
         cc_after_get E p c w)
  | None =>
      handleCommitCommentPayload E p w
      = (Panic NilDereference, cc_after_get E p c w)
  end.
Proof.
  intros Hc Hout Huser Hfn.
  rewrite (handleCommitCommentPayload_with_context E p w c Hc), Hout, Huser, Hfn.
  cbn zeta.
  destruct (registry_get w (cc_commitSHA c)) as [thread|]; cbn [from_option].
  - intros Hsubject%String.eqb_neq. by rewrite Hsubject.
  - done.
Qed.

Lemma comment_full_name_on_miss_only_witness :
  let p := AuxSamples.comment_no_full_name "abc1234def5678" in
  let pushed :=
    snd (handlePushPayload Samples.env Samples.two_commits Samples.fresh) in
  (∃ m, fst (handleCommitCommentPayload Samples.env p pushed)
        = Ret (Some m, None) ∧
        mail.Subject m = "[org/repo] abc1234: Fix bug") ∧
  fst (handleCommitCommentPayload Samples.env p Samples.fresh)
  = Panic NilDereference.
Proof.
  cbn zeta.
  set (p := AuxSamples.comment_no_full_name "abc1234def5678").
  assert (comment_context p (AuxSamples.comment_context_of p)) as Hc
    by sample_context.
  split.
  - pose proof (comment_full_name_on_miss_only Samples.env p
                  (snd (handlePushPayload Samples.env Samples.two_commits
                          Samples.fresh))
                  _ "<div><p>LGTM</p></div>" "carol" Hc eq_refl eq_refl eq_refl)
      as Hhit.
    change (registry_get _ _) with
      (Some (mkEmailThread "abc1234def5678" "[org/repo] abc1234: Fix bug"))
      in Hhit.
    rewrite (Hhit ltac:(discriminate)). eexists. split; reflexivity.
  - pose proof (comment_full_name_on_miss_only Samples.env p Samples.fresh
                  _ "<div><p>LGTM</p></div>" "carol" Hc eq_refl eq_refl eq_refl)
      as Hmiss.
    change (registry_get _ _) with (@None EmailThread) in Hmiss.
    by rewrite Hmiss.
Defined.

(** X12. The sender loop dereferences the usernames of every commit it
    passes.  When the commits before the first match all carry other
    usernames and the next commit lacks its author's username (or, its
    author being someone else, its committer's), the push run panics with a
    nil dereference after the template was executed: no notification is
    returned and no thread is registered, even if a later commit names the
    pusher. *)
Theorem push_missing_username_panics E p w c mailHtml user before commit after :
  push_context E p c →
  templateOutput E "push" (pc_data E p c) = inl mailHtml →
  Pusher.Name (PushPayload.Pusher p) = Some user →
  PushPayload.Commits p = before ++ commit :: after →
  Forall (other_user user) before →
  (WebHookAuthor.Username (WebHookCommit.Author commit) = None ∨
   ∃ author,
     WebHookAuthor.Username (WebHookCommit.Author commit) = Some author ∧
     author ≠ user ∧
     WebHookAuthor.Username (WebHookCommit.Committer commit) = None) →
  handlePushPayload E p w
  = (Panic NilDereference,
     with_events w [TemplateExecute "push" (pc_data E p c)]).
Proof.
  intros Hc Hout Huser Hcommits Hbefore Hmissing.
  rewrite (handlePushPayload_with_context E p w c Hc), Hout, Huser, Hcommits.
  cbn zeta.
  by rewrite (senderNameLoop_missing_username before commit after user user
                Hbefore Hmissing).
Qed.

Lemma push_missing_username_panics_witness :
  let p :=
    Samples.push "refs/heads/main" "bob"
      [Samples.fix_bug; AuxSamples.by_stranger; Samples.add_test] in
  let c := AuxSamples.push_context_of Samples.env p in
  handlePushPayload Samples.env p Samples.fresh
  = (Panic NilDereference,
     with_events Samples.fresh [TemplateExecute "push" (pc_data Samples.env p c)]).
Proof.
  cbn zeta.
  set (p := Samples.push "refs/heads/main" "bob"
              [Samples.fix_bug; AuxSamples.by_stranger; Samples.add_test]).
  assert (push_context Samples.env p (AuxSamples.push_context_of Samples.env p))
    as Hc by sample_context.
  apply (push_missing_username_panics Samples.env p Samples.fresh _
           "<a href=https://github.com/org/repo/compare/000...fed>diff</a>"
           "bob" [Samples.fix_bug] AuxSamples.by_stranger [Samples.add_test] Hc);
    try reflexivity.
  - constructor; [|constructor]. exists "alice", "alice". by split_and!.
  - by left.
Defined.

Section TemplateData.

Variable E : Collaborators.

Lemma pc_data_fields p c :
  pc_data E p c !! "Payload" = Some (VPushPayload p) ∧
  pc_data E p c !! "Commits" = Some (VCommits (pc_displayCommits c)) ∧
  pc_data E p c !! "BranchURL"
  = Some (VString ("https://github.com/" +:+ pc_fullName c +:+ "/tree/"
                     +:+ pc_branchName c)).
Proof. by split_and!. Qed.

Lemma cc_data_fields p c :
  cc_data E p c !! "Payload" = Some (VCommitCommentPayload p) ∧
  cc_data E p c !! "Comment" = Some (VComment (CommitCommentPayload.Comment p)) ∧
  cc_data E p c !! "Sender" = Some (VUser (CommitCommentPayload.Sender p)) ∧
  cc_data E p c !! "Repo" = Some (VRepository (CommitCommentPayload.Repo p)) ∧
  cc_data E p c !! "ShortSHA" = Some (VString (cc_shortSHA c)) ∧
  cc_data E p c !! "CommitURL"
  = Some (VString (cc_repoURL c +:+ "/commit/" +:+ cc_commitSHA c)).
Proof. by split_and!. Qed.

(** Whatever the outcome, the only template a comment run executes is
    "commit-comment", on the data of its context. *)
Lemma handleCommitCommentPayload_templates p w r w' name data :
  handleCommitCommentPayload E p w = (r, w') →
  TemplateExecute name data ∈ emitted w w' →
  name = "commit-comment" ∧ ∃ c, comment_context p c ∧ data = cc_data E p c.
Proof.
  intros Hrun Hin.
  destruct (handleCommitCommentPayload_events E p w r w' Hrun)
    as [Hnone|(c & evs & Hc & Hevs & Hreg)].
  { rewrite Hnone in Hin. by apply elem_of_nil in Hin. }
  rewrite Hevs in Hin. unfold cc_events in Hin.
  rewrite Forall_forall in Hreg.
  apply elem_of_app in Hin as [Hin|Hin%Hreg]; [|done].
  apply elem_of_app in Hin as [Hin|Hin].
  - case_decide; [|by apply elem_of_nil in Hin].
    by apply list_elem_of_singleton in Hin.
  - apply list_elem_of_singleton in Hin as [= -> ->]. eauto.
Qed.

End TemplateData.

(** X13. Whatever a push run hands to its template, the data carries the
    payload itself, one display commit per commit of the payload, in payload
    order, each built by [newDisplayCommit] from its commit, and the branch
    URL ["https://github.com/{fullName}/tree/{branch}"] with the branch being
    the ref after its first 11 bytes. *)
Theorem push_template_data E p w r w' name data :
  handlePushPayload E p w = (r, w') →
  TemplateExecute name data ∈ emitted w w' →
  name = "push" ∧
  data !! "Payload" = Some (VPushPayload p) ∧
  ∃ displayCommits ref fullName,
    PushPayload.Ref p = Some ref ∧
    Repository.FullName (PushPayload.Repo p) = Some fullName ∧
    data !! "Commits" = Some (VCommits displayCommits) ∧
    Forall2 (λ commit d,
      value_of (newDisplayCommit E commit (PushPayload.Sender p)
                  (PushPayload.Repo p) "America/Los_Angeles") = Ret d)
      (PushPayload.Commits p) displayCommits ∧
    data !! "BranchURL"
    = Some (VString ("https://github.com/" +:+ fullName +:+ "/tree/"
                       +:+ String.substring 11 (String.length ref - 11) ref)).
Proof.
  intros Hrun Hin.
  destruct (handlePushPayload_templates E p w r w' name data Hrun Hin)
    as (-> & c & Hc & ->).
  destruct (pc_data_fields E p c) as (Hpayload & Hcommits & Hurl).
  split; [done|]. split; [done|].
  exists (pc_displayCommits c), (pc_ref c), (pc_fullName c).
  split; [apply (pc_ref_ok _ _ _ Hc)|].
  split; [apply (pc_fullName_ok _ _ _ Hc)|].
  split; [done|]. split; [by apply push_context_commits|done].
Qed.

Lemma push_template_data_witness :
  TemplateExecute "push" Samples.two_commits_data
    ∈ emitted Samples.fresh
        (snd (handlePushPayload Samples.env Samples.two_commits Samples.fresh)) ∧
  Samples.two_commits_data !! "BranchURL"
  = Some (VString "https://github.com/org/repo/tree/main") ∧
  ∃ displayCommits,
    Samples.two_commits_data !! "Commits" = Some (VCommits displayCommits) ∧
    length displayCommits = 2.
Proof.
  assert (TemplateExecute "push" Samples.two_commits_data
            ∈ emitted Samples.fresh
                (snd (handlePushPayload Samples.env Samples.two_commits
                        Samples.fresh))) as Hin
    by (vm_compute; constructor).
  split; [exact Hin|].
  destruct (push_template_data Samples.env Samples.two_commits Samples.fresh
              _ _ _ _ (surjective_pairing _) Hin)
    as (_ & _ & dcs & ref & fullName & Href & Hfn & Hcommits & Hall & Hurl).
  injection Href as <-. injection Hfn as <-.
  split; [exact Hurl|]. exists dcs. split; [exact Hcommits|].
  by rewrite <-(Forall2_length _ _ _ Hall).
Defined.

(** X14. Whatever a comment run hands to its template, the data carries the
    payload, its comment, sender and repository, the short id (the first 7
    bytes of the commit id) and the commit URL
    ["{repoURL}/commit/{commitID}"]. *)
Theorem comment_template_data E p w r w' name data :
  handleCommitCommentPayload E p w = (r, w') →
  TemplateExecute name data ∈ emitted w w' →
  name = "commit-comment" ∧
  data !! "Payload" = Some (VCommitCommentPayload p) ∧
  data !! "Comment" = Some (VComment (CommitCommentPayload.Comment p)) ∧
  data !! "Sender" = Some (VUser (CommitCommentPayload.Sender p)) ∧
  data !! "Repo" = Some (VRepository (CommitCommentPayload.Repo p)) ∧
  ∃ sha repoURL,
    Comment.CommitID (CommitCommentPayload.Comment p) = Some sha ∧
    Repository.URL (CommitCommentPayload.Repo p) = Some repoURL ∧
    data !! "ShortSHA" = Some (VString (String.substring 0 7 sha)) ∧
    data !! "CommitURL" = Some (VString (repoURL +:+ "/commit/" +:+ sha)).
Proof.
  intros Hrun Hin.
  destruct (handleCommitCommentPayload_templates E p w r w' name data Hrun Hin)
    as (-> & c & Hc & ->).
  destruct (cc_data_fields E p c) as (? & ? & ? & ? & ? & ?).
  split_and!; try done.
  exists (cc_commitSHA c), (cc_repoURL c).
  split; [apply (cc_commitSHA_ok _ _ Hc)|].
  split; [apply (cc_repoURL_ok _ _ Hc)|]. done.
Qed.

Lemma comment_template_data_witness :
  let data := Samples.comment_data "LGTM" "<p>LGTM</p>" in
  TemplateExecute "commit-comment" data
    ∈ emitted Samples.fresh
        (snd (handleCommitCommentPayload Samples.env
                (Samples.comment_on "abc1234def5678" "LGTM") Samples.fresh)) ∧
  data !! "ShortSHA" = Some (VString "abc1234") ∧
  data !! "CommitURL"
  = Some (VString "https://github.com/org/repo/commit/abc1234def5678").
Proof.
  cbn zeta.
  assert (TemplateExecute "commit-comment"
            (Samples.comment_data "LGTM" "<p>LGTM</p>")
            ∈ emitted Samples.fresh
                (snd (handleCommitCommentPayload Samples.env
                        (Samples.comment_on "abc1234def5678" "LGTM")
                        Samples.fresh))) as Hin
    by (vm_compute; do 2 constructor).
  split; [exact Hin|].
  destruct (comment_template_data Samples.env _ Samples.fresh _ _ _ _
              (surjective_pairing _) Hin)
    as (_ & _ & _ & _ & _ & sha & repoURL & Hsha & Hurl & Hshort & Hcommit).
  injection Hsha as <-. injection Hurl as <-. by split.
Defined.

Section ServiceInvariant.

Variable E : Collaborators.
Variable pageWritten : string → option (gmap string PageValue) → string.

Lemma preserves_push_threads_push p :
  preserves (all_threads push_thread) (handlePushPayload E p).
Proof.
  intros w Hw key thread Hlookup.
  destruct (handlePushPayload_registry E p w _ _ key (surjective_pairing _))
    as [Hsame|(m & c & _ & _ & Hsubject & _ & Hnew)].
  - apply Hw. by rewrite <-Hsame.
  - rewrite Hnew in Hlookup. injection Hlookup as <-.
    split; [done|]. cbn [Subject]. rewrite Hsubject. unfold pc_subject. eauto.
Qed.

Lemma preserves_push_threads_payload eventType body :
  preserves (all_threads push_thread) (handlePayload E eventType body).
Proof.
  unfold handlePayload.
  destruct (String.eqb eventType "push").
  { apply preserves_bind; [by intros w Hw|].
    intros [p|err]; [apply preserves_push_threads_push
                    |by apply preserves_Pure, Pure_ret]. }
  destruct (String.eqb eventType "commit_comment").
  { apply preserves_bind; [by intros w Hw|].
    intros [p|err]; [|by apply preserves_Pure, Pure_ret].
    apply preserves_of_keeps;
      [apply entities_only_all_threads|apply keeps_handleCommitCommentPayload]. }
  by apply preserves_Pure, Pure_ret.
Qed.

Lemma hookHandler_entities r w :
  entities (snd (hookHandler E r w))
  = entities (snd (handlePayload E
                     (default "" (http.Header r !! "X-Github-Event"))
                     (http.Body r) w)).
Proof.
  destruct (handlePayload E (default "" (http.Header r !! "X-Github-Event"))
              (http.Body r) w) as [h w1] eqn:Hrun.
  rewrite (hookHandler_after E r w h w1 Hrun).
  by destruct h as [[[m|] [err|]]|pn].
Qed.

Lemma hookTestHarnessHandler_world r w :
  snd (hookTestHarnessHandler E pageWritten r w)
  = if String.eqb (httpx.Method r) "GET" then w
    else if String.eqb (httpx.Method r) "POST" then
      snd (handlePayload E (httpx.FormValue r "event_type")
             (httpx.FormValue r "payload") w)
    else w.
Proof.
  unfold hookTestHarnessHandler.
  destruct (String.eqb (httpx.Method r) "GET"); [done|].
  destruct (String.eqb (httpx.Method r) "POST"); [|done].
  unfold bind. by destruct (handlePayload E _ _ w) as [[h|pn] w1].
Qed.

Lemma keeps_bounceHandler r : keeps_entities (bounceHandler r).
Proof. intros w. unfold bounceHandler. by destruct (httpx.BodyRead r). Qed.

Lemma keeps_testMailSendHandler r :
  keeps_entities (testMailSendHandler pageWritten r).
Proof.
  unfold testMailSendHandler.
  destruct (String.eqb (httpx.Method r) "GET"); [by apply keeps_Pure, Pure_ret|].
  destruct (String.eqb (httpx.Method r) "POST"); [|by apply keeps_Pure, Pure_ret].
  apply keeps_bind; [apply keeps_mail_Send|].
  intros err. by apply keeps_Pure, Pure_ret.
Qed.

Lemma keeps_testSubjectHandler r : keeps_entities (testSubjectHandler E r).
Proof.
  unfold testSubjectHandler.
  destruct (negb (isDevAppServer E)); [by apply keeps_Pure, Pure_ret|].
  destruct (httpx.URLQuery r !! "sha") as [sha|]; cbn [negb orb];
    [|by apply keeps_Pure, Pure_ret].
  destruct (bool_decide (length sha < 1)); [by apply keeps_Pure, Pure_ret|].
  apply keeps_bind; [apply keeps_Pure, Pure_index|intros sha0].
  apply keeps_bind; [apply keeps_getSubjectForCommit|].
  intros subject. by apply keeps_Pure, Pure_ret.
Qed.

Lemma service_reachable_push_threads w :
  service_reachable E pageWritten w → all_threads push_thread w.
Proof.
  induction 1 as [faults|w faults _ IH|r w _ IH|r w _ IH|r w _ IH|r w _ IH
                  |r w _ IH].
  - intros key thread. cbn [entities]. by rewrite lookup_empty.
  - done.
  - apply (entities_only_all_threads push_thread
             (snd (handlePayload E
                     (default "" (http.Header r !! "X-Github-Event"))
                     (http.Body r) w))); [by rewrite hookHandler_entities|].
    by apply preserves_push_threads_payload.
  - rewrite hookTestHarnessHandler_world.
    destruct (String.eqb (httpx.Method r) "GET"); [done|].
    destruct (String.eqb (httpx.Method r) "POST"); [|done].
    by apply preserves_push_threads_payload.
  - apply (entities_only_all_threads push_thread w); [|done].
    by rewrite keeps_testMailSendHandler.
  - apply (entities_only_all_threads push_thread w); [|done].
    by rewrite keeps_bounceHandler.
  - apply (entities_only_all_threads push_thread w); [|done].
    by rewrite keeps_testSubjectHandler.
Qed.

End ServiceInvariant.

(** X15. The registry invariant of the whole service.  Starting from an
    empty registry, whatever requests the five handlers serve and whatever
    service calls fail, every thread in the registry records the key it is
    stored under as its commit id and has a subject of the form
    ["[{fullName}] {shortID}: {title}"]; the auxiliary handlers
    ([bounceHandler], [testSubjectHandler], [testMailSendHandler]) never
    write the registry. *)
Theorem registry_invariant E pageWritten w key thread :
  service_reachable E pageWritten w →
  entities w !! key = Some thread →
  CommitSHA thread = key ∧
  ∃ fullName shortSHA title,
    Subject thread = "[" +:+ fullName +:+ "] " +:+ shortSHA +:+ ": " +:+ title.
Proof.
  intros Hreach Hlookup.
  exact (service_reachable_push_threads E pageWritten w Hreach key thread Hlookup).
Qed.

Lemma registry_invariant_witness :
  let hook := http.mkRequest {[ "X-Github-Event" := "push" ]} "push" in
  let w :=
    snd (bounceHandler (AuxSamples.request "POST" [] [])
           (snd (hookHandler Samples.env hook Samples.fresh))) in
  service_reachable Samples.env AuxSamples.pages w ∧
  entities w !! "fedcba9876543210"
  = Some (mkEmailThread "fedcba9876543210" "[org/repo] abc1234: Fix bug") ∧
  ∃ fullName shortSHA title,
    "[org/repo] abc1234: Fix bug"
    = "[" +:+ fullName +:+ "] " +:+ shortSHA +:+ ": " +:+ title.
Proof.
  cbn zeta.
  set (w := snd (bounceHandler (AuxSamples.request "POST" [] [])
                   (snd (hookHandler Samples.env
                           (http.mkRequest {[ "X-Github-Event" := "push" ]} "push")
                           Samples.fresh)))).
  assert (service_reachable Samples.env AuxSamples.pages w) as Hreach
    by apply service_bounce, service_hook, (service_fresh _ _ []).
  assert (entities w !! "fedcba9876543210"
          = Some (mkEmailThread "fedcba9876543210" "[org/repo] abc1234: Fix bug"))
    as Hlookup by (vm_compute; reflexivity).
  split; [exact Hreach|]. split; [exact Hlookup|].
  exact (proj2 (registry_invariant Samples.env AuxSamples.pages w _ _
                  Hreach Hlookup)).
Defined.

Section Auxiliary.

Variable E : Collaborators.
Variable pageWritten : string → option (gmap string PageValue) → string.

Lemma handlePayload_push body p w :
  decodePushPayload E body = inl p →
  handlePayload E "push" body w
  = handlePushPayload E p (with_events w [JsonDecode body]).
Proof.
  intros Hdecode. unfold handlePayload, decodePush, bind, emit.
  cbn [String.eqb Ascii.eqb Bool.eqb ret]. by rewrite Hdecode.
Qed.

(** [testSubjectHandler] on the development server, for a first [sha] value. *)
Lemma testSubjectHandler_lookup r w sha rest :
  isDevAppServer E = true →
  httpx.URLQuery r !! "sha" = Some (sha :: rest) →
  ∃ evs,
    testSubjectHandler E r w
    = (Ret (http.mkResponse 200
              (from_option Subject "" (registry_get w sha)
                 +:+ String (Ascii.ascii_of_nat 10) EmptyString)),
       mkWorld (entities w) (tail (rpc_faults w))
         (trace w ++ DatastoreGet sha :: evs)).
Proof.
  intros Hdev Hsha. unfold testSubjectHandler. rewrite Hdev, Hsha.
  cbn [negb orb length]. rewrite bool_decide_false by lia.
  rewrite (bind_Pure _ _ _ (Pure_index _ _)).
  change (value_of (index (sha :: rest) 0)) with (@Ret string sha).
  destruct (getSubjectForCommit_run sha w) as (evs & Hget & _).
  exists evs. by rewrite (bind_Ret _ _ _ _ _ Hget).
Qed.

End Auxiliary.

(** X16. [testSubjectHandler], case by case.  Off the development server it
    answers 405 and touches nothing; on it, without a [sha] parameter (or
    with an empty one) it answers 500 and touches nothing; otherwise it reads
    the registry once, for the first value of [sha] only, and answers 200
    with the stored subject and a newline, the subject being empty when the
    read misses.  It never writes the registry. *)
Theorem testSubjectHandler_cases E r w :
  match isDevAppServer E, httpx.URLQuery r !! "sha" with
  | false, _ =>
      testSubjectHandler E r w = (Ret (http.Error "" 405), w)
  | true, None | true, Some [] =>
      testSubjectHandler E r w
      = (Ret (http.Error "Need to specify sha param" 500), w)
  | true, Some (sha :: _) =>
      ∃ evs,
        testSubjectHandler E r w
        = (Ret (http.mkResponse 200
                  (from_option Subject "" (registry_get w sha)
                     +:+ String (Ascii.ascii_of_nat 10) EmptyString)),
           mkWorld (entities w) (tail (rpc_faults w))
             (trace w ++ DatastoreGet sha :: evs))
  end.
Proof.
  destruct (isDevAppServer E) eqn:Hdev.
  - destruct (httpx.URLQuery r !! "sha") as [[|sha rest]|] eqn:Hsha.
    + unfold testSubjectHandler. by rewrite Hdev, Hsha.
    + by eapply testSubjectHandler_lookup.
    + unfold testSubjectHandler. by rewrite Hdev, Hsha.
  - unfold testSubjectHandler. by rewrite Hdev.
Qed.

Lemma testSubjectHandler_cases_witness :
  let r := AuxSamples.request "GET" [("sha", ["abc1234def5678"; "ignored"])] [] in
  testSubjectHandler Samples.env r Samples.fresh
  = (Ret (http.Error "" 405), Samples.fresh) ∧
  testSubjectHandler AuxSamples.dev_env (AuxSamples.request "GET" [] [])
    Samples.fresh
  = (Ret (http.Error "Need to specify sha param" 500), Samples.fresh) ∧
  fst (testSubjectHandler AuxSamples.dev_env r Samples.fresh)
  = Ret (http.mkResponse 200 (String (Ascii.ascii_of_nat 10) EmptyString)).
Proof.
  cbn zeta. split; [|split].
  - exact (testSubjectHandler_cases Samples.env
             (AuxSamples.request "GET" [("sha", ["abc1234def5678"; "ignored"])] [])
             Samples.fresh).
  - exact (testSubjectHandler_cases AuxSamples.dev_env
             (AuxSamples.request "GET" [] []) Samples.fresh).
  - destruct (testSubjectHandler_cases AuxSamples.dev_env
                (AuxSamples.request "GET"
                   [("sha", ["abc1234def5678"; "ignored"])] [])
                Samples.fresh) as (evs & Hrun).
    by rewrite Hrun.
Defined.

(** X17. A round trip through the endpoints.  When [hookHandler] serves a
    push that decodes and yields a notification, with no service call
    failing, it answers 200 "OK", and the development test-subject endpoint
    asked afterwards for the id of any commit of that push answers with the
    subject of the notification. *)
Theorem test_subject_after_hook E r w p m oe w1 rq commit rest :
  isDevAppServer E = true →
  http.Header r !! "X-Github-Event" = Some "push" →
  decodePushPayload E (http.Body r) = inl p →
  rpc_faults w = [] →
  handlePushPayload E p (with_events w [JsonDecode (http.Body r)])
  = (Ret (Some m, oe), w1) →
  commit ∈ PushPayload.Commits p →
  httpx.URLQuery rq !! "sha" = Some (WebHookCommit.ID commit :: rest) →
  fst (hookHandler E r w) = Ret (http.mkResponse 200 "OK") ∧
  fst (testSubjectHandler E rq (snd (hookHandler E r w)))
  = Ret (http.mkResponse 200
           (mail.Subject m +:+ String (Ascii.ascii_of_nat 10) EmptyString)).
Proof.
  intros Hdev Hheader Hdecode Hfaults Hpush Hin Hsha.
  assert (handlePayload E (default "" (http.Header r !! "X-Github-Event"))
            (http.Body r) w = (Ret (Some m, None), w1)) as Hrun.
  { rewrite Hheader. change (default "" (Some "push")) with "push".
    rewrite (handlePayload_push E _ p w Hdecode), Hpush.
    by destruct (handlePushPayload_notification E _ _ _ _ _ Hpush) as (-> & _). }
  apply handlePushPayload_sends_inv in Hpush
    as (c & mailHtml & u & name & Hc & _ & _ & _ & -> & _ & ->).
  destruct (createThreadsLoop_registers (pc_displayCommits c) (pc_subject c)
              (with_events (with_events w [JsonDecode (http.Body r)])
                 [TemplateExecute "push" (pc_data E p c)])
              (WebHookCommit.ID commit) Hfaults) as [Hnone Hstored].
  rewrite (hookHandler_after E r w _ _ Hrun). unfold next_fault.
  rewrite Hnone. cbn [fst snd tail]. split; [done|].
  match goal with
  | |- context [testSubjectHandler E rq ?w'] =>
      destruct (testSubjectHandler_lookup E rq w' _ _ Hdev Hsha) as (evs & ->)
  end.
  cbn [fst]. unfold registry_get, next_fault. cbn [rpc_faults entities].
  rewrite Hstored; [done|]. left.
  rewrite (push_context_SHAs E p c Hc). by apply list_elem_of_fmap_2.
Qed.

Lemma test_subject_after_hook_witness :
  let hook := http.mkRequest {[ "X-Github-Event" := "push" ]} "push" in
  let ask := AuxSamples.request "GET" [("sha", ["fedcba9876543210"])] [] in
  fst (hookHandler AuxSamples.dev_env hook Samples.fresh)
  = Ret (http.mkResponse 200 "OK") ∧
  fst (testSubjectHandler AuxSamples.dev_env ask
         (snd (hookHandler AuxSamples.dev_env hook Samples.fresh)))
  = Ret (http.mkResponse 200
           ("[org/repo] abc1234: Fix bug"
              +:+ String (Ascii.ascii_of_nat 10) EmptyString)).
Proof.
  cbn zeta.
  refine (test_subject_after_hook AuxSamples.dev_env
            (http.mkRequest {[ "X-Github-Event" := "push" ]} "push")
            Samples.fresh Samples.two_commits
            {| mail.Sender := "Bob B <bob@bettermail.appspotmail.com>";
               mail.To := ["mihai@quip.com"];
               mail.Subject := "[org/repo] abc1234: Fix bug";
               mail.HTMLBody :=
                 "<a href=https://github.com/org/repo/compare/000...fed>diff</a>" |}
            None _
            (AuxSamples.request "GET" [("sha", ["fedcba9876543210"])] [])
            Samples.add_test [] eq_refl eq_refl eq_refl eq_refl
            (surjective_pairing _) _ eq_refl).
  do 2 constructor.
Defined.

(** X18. [testMailSendHandler] hands the mail transport one message on a
    POST and none otherwise.  The message is addressed to mihai@quip.com
    alone, whatever the form holds and on every server; its sender, subject
    and body are the first values of the form fields.  A method other than
    GET and POST is answered 405 with nothing touched, and no request writes
    the registry. *)
Theorem testMailSendHandler_mails pageWritten r w :
  let message :=
    {| mail.Sender := httpx.FormValue r "sender";
       mail.To := ["mihai@quip.com"];
       mail.Subject := httpx.FormValue r "subject";
       mail.HTMLBody := httpx.FormValue r "html_body" |} in
  let run := testMailSendHandler pageWritten r w in
  entities (snd run) = entities w ∧
  mails (emitted w (snd run))
  = (if String.eqb (httpx.Method r) "POST" then [message] else []) ∧
  (httpx.Method r ≠ "GET" → httpx.Method r ≠ "POST" →
   run = (Ret (http.Error "" 405), w)).
Proof.
  cbn zeta. split; [apply keeps_testMailSendHandler|].
  unfold testMailSendHandler.
  destruct (String.eqb (httpx.Method r) "GET") eqn:Hget.
  { apply String.eqb_eq in Hget. rewrite Hget. cbn [String.eqb Ascii.eqb Bool.eqb].
    split; [by rewrite emitted_same|]. by intros []. }
  destruct (String.eqb (httpx.Method r) "POST") eqn:Hpost.
  - split; [|intros _ []; by apply String.eqb_eq].
    unfold mail_Send, bind, emit, pop_fault; cbn [rpc_faults entities trace].
    destruct (rpc_faults w) as [|f rest]; cbn [ret snd];
      unfold emitted; cbn [trace]; by rewrite drop_app_length.
  - split; [by rewrite emitted_same|done].
Qed.

Lemma testMailSendHandler_mails_witness :
  let r :=
    AuxSamples.request "POST" []
      [("sender", ["a@b"]); ("subject", ["Hi"; "again"]); ("to", ["x@y"])] in
  mails (emitted Samples.fresh
           (snd (testMailSendHandler AuxSamples.pages r Samples.fresh)))
  = [{| mail.Sender := "a@b";
        mail.To := ["mihai@quip.com"];
        mail.Subject := "Hi";
        mail.HTMLBody := "" |}] ∧
  testMailSendHandler AuxSamples.pages (AuxSamples.request "PUT" [] [])
    Samples.fresh
  = (Ret (http.Error "" 405), Samples.fresh).
Proof.
  cbn zeta. split.
  - exact (proj1 (proj2 (testMailSendHandler_mails AuxSamples.pages
                           (AuxSamples.request "POST" []
                              [("sender", ["a@b"]); ("subject", ["Hi"; "again"]);
                               ("to", ["x@y"])])
                           Samples.fresh))).
  - apply (proj2 (proj2 (testMailSendHandler_mails AuxSamples.pages
                           (AuxSamples.request "PUT" [] []) Samples.fresh)));
      discriminate.
Defined.

(** X19. [hookTestHarnessHandler] never sends mail.  A POST has exactly the
    effects of [handlePayload] on the posted event type and payload, so a
    push posted to the harness registers its threads; a GET and any other
    method touch nothing. *)
Theorem hookTestHarnessHandler_effects E pageWritten r w :
  let run := hookTestHarnessHandler E pageWritten r w in
  mails (emitted w (snd run)) = [] ∧
  snd run
  = (if String.eqb (httpx.Method r) "POST"
     then snd (handlePayload E (httpx.FormValue r "event_type")
                 (httpx.FormValue r "payload") w)
     else w).
Proof.
  cbn zeta. rewrite hookTestHarnessHandler_world.
  destruct (String.eqb (httpx.Method r) "GET") eqn:Hget.
  { apply String.eqb_eq in Hget. rewrite Hget. cbn [String.eqb Ascii.eqb Bool.eqb].
    by rewrite emitted_same. }
  destruct (String.eqb (httpx.Method r) "POST"); [|by rewrite emitted_same].
  split; [|done].
  apply mails_payload_events, emits_emitted, emits_handlePayload.
Qed.

Lemma hookTestHarnessHandler_effects_witness :
  let r :=
    AuxSamples.request "POST" []
      [("event_type", ["push"]); ("payload", ["push"])] in
  let run := hookTestHarnessHandler Samples.env AuxSamples.pages r Samples.fresh in
  mails (emitted Samples.fresh (snd run)) = [] ∧
  entities (snd run) !! "abc1234def5678"
  = Some (mkEmailThread "abc1234def5678" "[org/repo] abc1234: Fix bug").
Proof.
  cbn zeta.
  destruct (hookTestHarnessHandler_effects Samples.env AuxSamples.pages
              (AuxSamples.request "POST" []
                 [("event_type", ["push"]); ("payload", ["push"])])
              Samples.fresh) as [Hmails Hworld].
  split; [exact Hmails|]. rewrite Hworld. vm_compute. reflexivity.
Defined.

Section Registry.

Variable E : Collaborators.

(** A loop of writes that all fail leaves the registry as it was. *)
Lemma createThreadsLoop_all_fail displayCommits subject w errs rest :
  rpc_faults w = (Some <$> errs) ++ rest →
  length errs = length displayCommits →
  entities (snd (createThreadsLoop displayCommits subject w)) = entities w ∧
  rpc_faults (snd (createThreadsLoop displayCommits subject w)) = rest.
Proof.
  revert w errs. induction displayCommits as [|d ds IH]; intros w errs Hfaults Hlen.
  - destruct errs; [|done]. by split.
  - destruct errs as [|e errs]; [done|].
    rewrite createThreadsLoop_cons, createThread_run. cbn [snd].
    rewrite Hfaults. cbn [fmap list_fmap app].
    destruct (IH (mkWorld (entities w) ((Some <$> errs) ++ rest)
                    (trace w ++ [DatastorePut (DisplayCommit.SHA d)
                                   (mkEmailThread (DisplayCommit.SHA d) subject);
                                 LogError ("Error creating thread: " +:+ e)]))
                errs eq_refl ltac:(by injection Hlen)) as [Hents Hrest].
    by split.
Qed.

Lemma handleCommitCommentPayload_body p w m oe w' :
  handleCommitCommentPayload E p w = (Ret (Some m, oe), w') →
  ∃ c login,
    comment_context p c ∧
    User.Login (CommitCommentPayload.Sender p) = Some login ∧
    mail.Sender m = senderAddress E login login ∧
    templateOutput E "commit-comment" (cc_data E p c) = inl (mail.HTMLBody m) ∧
    ∃ evs, trace w' = trace w ++ cc_events E p c ++ evs.
Proof.
  intros Hrun. pose proof (handleCommitCommentPayload_run E p w) as H.
  rewrite Hrun in H. cbn [fst snd] in H.
  inversion H as [| | | |c mailHtml user subject Hc Hout Huser Hget]; subst.
  exists c, user. split_and!; try done.
  unfold cc_after_get.
  destruct (getSubjectForCommit_run (cc_commitSHA c)
              (with_events w (cc_events E p c))) as (evs & -> & _).
  exists (DatastoreGet (cc_commitSHA c) :: evs).
  cbn [snd trace with_events]. by rewrite <-app_assoc.
Qed.

End Registry.

(** X20. [createThread] is an upsert that touches one key.  After a
    [createThread] under [sha] whose write goes through, whatever was stored
    under [sha] before, a registry read for [sha] that goes through returns
    the new subject (the last write wins), and every other key holds what it
    held. *)
Theorem createThread_last_write_wins sha subject w :
  next_fault w = None →
  let w' := snd (createThread sha subject w) in
  (next_fault w' = None → fst (getSubjectForCommit sha w') = Ret subject) ∧
  (∀ key, key ≠ sha → entities w' !! key = entities w !! key).
Proof.
  intros Hnext. cbn zeta.
  assert (entities (snd (createThread sha subject w))
          = <[sha := mkEmailThread sha subject]> (entities w)) as Hw'.
  { rewrite createThread_run. cbn [snd]. unfold next_fault in Hnext.
    by destruct (rpc_faults w) as [|[e|] rest]. }
  split.
  - intros Hnext'.
    destruct (getSubjectForCommit_run sha (snd (createThread sha subject w)))
      as (evs & -> & _).
    unfold registry_get. by rewrite Hnext', Hw', lookup_insert_eq.
  - intros key Hne. by rewrite Hw', lookup_insert_ne.
Qed.

Lemma createThread_last_write_wins_witness :
  let w :=
    mkWorld {[ "abc1234def5678" :=
                 mkEmailThread "abc1234def5678" "[org/repo] abc1234: Old" ]}
      [] [] in
  let w' := snd (createThread "abc1234def5678" "[org/repo] abc1234: New" w) in
  next_fault w = None ∧
  fst (getSubjectForCommit "abc1234def5678" w') = Ret "[org/repo] abc1234: New".
Proof.
  cbn zeta. split; [reflexivity|].
  exact (proj1 (createThread_last_write_wins "abc1234def5678"
                  "[org/repo] abc1234: New"
                  (mkWorld {[ "abc1234def5678" :=
                                mkEmailThread "abc1234def5678"
                                  "[org/repo] abc1234: Old" ]} [] [])
                  eq_refl) eq_refl).
Defined.

(** X21. When the registry write of every commit of a push fails, the push
    run leaves the registry exactly as it found it, whatever its outcome. *)
Theorem push_all_writes_fail E p w r w' errs rest :
  handlePushPayload E p w = (r, w') →
  rpc_faults w = (Some <$> errs) ++ rest →
  length errs = length (PushPayload.Commits p) →
  entities w' = entities w.
Proof.
  intros Hrun Hfaults Hlen. pose proof (handlePushPayload_run E p w) as H.
  rewrite Hrun in H. cbn [fst snd] in H.
  inversion H as [pn|c err Hc Hout|c mailHtml pn Hc Hout
                  |c mailHtml u senderName Hc Hout Hu Hname]; subst; try done.
  apply (createThreadsLoop_all_fail (pc_displayCommits c) (pc_subject c)
           (with_events w [TemplateExecute "push" (pc_data E p c)]) errs rest);
    [done|].
  by rewrite Hlen, (Forall2_length _ _ _ (push_context_commits E p c Hc)).
Qed.

Lemma push_all_writes_fail_witness :
  let w := mkWorld ∅ [Some "datastore: timeout"; Some "datastore: timeout"] [] in
  let run := handlePushPayload Samples.env Samples.two_commits w in
  fst run = Ret (Some Samples.push_mail, None) ∧
  entities (snd run) = ∅.
Proof.
  cbn zeta. split; [vm_compute; reflexivity|].
  exact (push_all_writes_fail Samples.env Samples.two_commits
           (mkWorld ∅ [Some "datastore: timeout"; Some "datastore: timeout"] [])
           _ _ ["datastore: timeout"; "datastore: timeout"] []
           (surjective_pairing _) eq_refl eq_refl).
Defined.

(** X22. In the notification of a commit comment the sender's display name
    is the sender's login itself: the sender is
    ["{login} <{login}@{appID}.appspotmail.com>"]. *)
Theorem comment_sender_is_login E p w m oe w' :
  handleCommitCommentPayload E p w = (Ret (Some m, oe), w') →
  ∃ login,
    User.Login (CommitCommentPayload.Sender p) = Some login ∧
    mail.Sender m
    = login +:+ " <" +:+ login +:+ "@" +:+ appID E +:+ ".appspotmail.com>".
Proof.
  intros (c & login & _ & Hlogin & Hsender & _)%handleCommitCommentPayload_body.
  by exists login.
Qed.

Lemma comment_sender_is_login_witness :
  let run :=
    handleCommitCommentPayload Samples.env
      (Samples.comment_on "abc1234def5678" "LGTM") Samples.fresh in
  ∃ m, fst run = Ret (Some m, None) ∧
       mail.Sender m = "carol <carol@bettermail.appspotmail.com>".
Proof.
  cbn zeta.
  assert (∀ run,
            run = handleCommitCommentPayload Samples.env
                    (Samples.comment_on "abc1234def5678" "LGTM") Samples.fresh →
            run = (Ret (Some {| mail.Sender := "carol <carol@bettermail.appspotmail.com>";
                                mail.To := ["eng+commits@quip.com"];
                                mail.Subject := "[org/repo] abc1234";
                                mail.HTMLBody := "<div><p>LGTM</p></div>" |},
                        None), snd run)) as Hrun
    by (intros run ->; vm_compute; reflexivity).
  specialize (Hrun _ eq_refl).
  destruct (comment_sender_is_login Samples.env _ _ _ _ _ Hrun)
    as (login & Hlogin & Hsender).
  injection Hlogin as <-.
  eexists. split; [by rewrite Hrun|exact Hsender].
Defined.

(** X23. The HTML body of every notification [handlePayload] returns is what
    the template returned for the data the run handed to it: the run executed
    a template on some data, the template succeeded, and its output is the
    body. *)
Theorem notification_body_is_rendered E eventType body w m oe w' :
  handlePayload E eventType body w = (Ret (Some m, oe), w') →
  ∃ name data,
    TemplateExecute name data ∈ emitted w w' ∧
    templateOutput E name data = inl (mail.HTMLBody m).
Proof.
  unfold handlePayload.
  destruct (String.eqb eventType "push").
  { unfold decodePush, bind, emit. cbn [ret].
    destruct (decodePushPayload E body) as [p|err]; [|done].
    intros Hrun. pose proof Hrun as Hinv.
    apply handlePushPayload_sends_inv in Hinv
      as (c & mailHtml & u & name & Hc & Hout & _ & _ & -> & _ & ->).
    exists "push", (pc_data E p c). split; [|done].
    destruct (createThreadsLoop_trace (pc_displayCommits c) (pc_subject c)
                (with_events
                   (mkWorld (entities w) (rpc_faults w) (trace w ++ [JsonDecode body]))
                   [TemplateExecute "push" (pc_data E p c)]))
      as (evs & Htr & _).
    rewrite (emitted_app w _
               (JsonDecode body :: TemplateExecute "push" (pc_data E p c) :: evs)).
    - by right; left.
    - rewrite Htr. cbn [trace with_events]. by rewrite <-!app_assoc. }
  destruct (String.eqb eventType "commit_comment"); [|done].
  unfold decodeCommitComment, bind, emit. cbn [ret].
  destruct (decodeCommitCommentPayload E body) as [p|err]; [|done].
  intros (c & login & Hc & _ & _ & Hout & evs & Htr)%handleCommitCommentPayload_body.
  exists "commit-comment", (cc_data E p c). split; [|done].
  cbn [trace] in Htr.
  rewrite (emitted_app w _ (JsonDecode body :: cc_events E p c ++ evs))
    by (by rewrite Htr, <-app_assoc).
  right. apply elem_of_app. left. unfold cc_events.
  apply elem_of_app. right. by left.
Qed.

Lemma notification_body_is_rendered_witness :
  let run := handlePayload Samples.env "push" "push" Samples.fresh in
  run = (Ret (Some Samples.push_mail, None), snd run) ∧
  ∃ name data,
    TemplateExecute name data ∈ emitted Samples.fresh (snd run) ∧
    templateOutput Samples.env name data
    = inl "<a href=https://github.com/org/repo/compare/000...fed>diff</a>".
Proof.
  assert (handlePayload Samples.env "push" "push" Samples.fresh
          = (Ret (Some Samples.push_mail, None),
             snd (handlePayload Samples.env "push" "push" Samples.fresh)))
    as Hrun by (vm_compute; reflexivity).
  split; [exact Hrun|].
  exact (notification_body_is_rendered _ _ _ _ _ _ _ Hrun).
Defined.

(** ** The sender's display name *)

Section SenderScan.

Variable E : Collaborators.

(** The scan passes a commit that carries two other usernames. *)
Lemma senderNameLoop_passes commit rest user senderName :
  other_user user commit →
  value_of (senderNameLoop (commit :: rest) user senderName)
  = value_of (senderNameLoop rest user senderName).
Proof.
  intros (a & k & Ha & Hk & Hna & Hnk). cbn [senderNameLoop].
  rewrite value_of_bind by apply Pure_deref. rewrite Ha. cbn [deref].
  rewrite value_of_ret. apply String.eqb_neq in Hna. rewrite Hna.
  rewrite value_of_bind by apply Pure_deref. rewrite Hk. cbn [deref].
  rewrite value_of_ret. apply String.eqb_neq in Hnk. by rewrite Hnk.
Qed.

Lemma senderNameLoop_passes_all before rest user senderName :
  Forall (other_user user) before →
  value_of (senderNameLoop (before ++ rest) user senderName)
  = value_of (senderNameLoop rest user senderName).
Proof.
  induction 1 as [|commit before Hcommit _ IH]; [done|].
  rewrite <-app_comm_cons. by rewrite senderNameLoop_passes.
Qed.

Lemma senderNameLoop_scan_resolves user commits name :
  scan_resolves user commits name →
  value_of (senderNameLoop commits user user) = Ret name.
Proof.
  intros [Hall|before commit after n -> Hbefore Ha Hn
          |before commit after a n -> Hbefore Ha Hna Hk Hn].
  - rewrite <-(app_nil_r commits). by rewrite senderNameLoop_passes_all.
  - rewrite senderNameLoop_passes_all by done. cbn [senderNameLoop].
    rewrite value_of_bind by apply Pure_deref. rewrite Ha. cbn [deref].
    rewrite value_of_ret, String.eqb_refl. by rewrite Hn.
  - rewrite senderNameLoop_passes_all by done. cbn [senderNameLoop].
    rewrite value_of_bind by apply Pure_deref. rewrite Ha. cbn [deref].
    rewrite value_of_ret. apply String.eqb_neq in Hna. rewrite Hna.
    rewrite value_of_bind by apply Pure_deref. rewrite Hk. cbn [deref].
    rewrite value_of_ret, String.eqb_refl. by rewrite Hn.
Qed.

Lemma senderNameLoop_scan_panics user commits senderName :
  scan_panics user commits →
  value_of (senderNameLoop commits user senderName) = Panic NilDereference.
Proof.
  intros [before commit after -> Hbefore Hnil].
  rewrite senderNameLoop_passes_all by done. cbn [senderNameLoop].
  rewrite value_of_bind by apply Pure_deref.
  destruct Hnil as [Ha|[[Ha Hn]|(a & Ha & Hna & Hk)]].
  - by rewrite Ha.
  - rewrite Ha. cbn [deref]. rewrite value_of_ret, String.eqb_refl.
    by rewrite Hn.
  - rewrite Ha. cbn [deref]. rewrite value_of_ret.
    apply String.eqb_neq in Hna. rewrite Hna.
    rewrite value_of_bind by apply Pure_deref.
    destruct Hk as [Hk|[Hk Hn]].
    + by rewrite Hk.
    + rewrite Hk. cbn [deref]. rewrite value_of_ret, String.eqb_refl.
      by rewrite Hn.
Qed.

(** Every list of commits is scanned to a name or to a nil. *)
Lemma scan_total user commits :
  (∃ name, scan_resolves user commits name) ∨ scan_panics user commits.
Proof.
  induction commits as [|c rest IH].
  { left. exists user. apply scan_fallback. constructor. }
  destruct (WebHookAuthor.Username (WebHookCommit.Author c)) as [a|] eqn:Ha.
  2:{ right. apply (scan_panics_at user _ [] c rest); [done|constructor|].
      by left. }
  destruct (decide (a = user)) as [->|Hna].
  { destruct (WebHookAuthor.Name (WebHookCommit.Author c)) as [n|] eqn:Hn.
    - left. exists n. by apply (scan_author user _ [] c rest n).
    - right. apply (scan_panics_at user _ [] c rest); [done|constructor|].
      right. by left. }
  destruct (WebHookAuthor.Username (WebHookCommit.Committer c)) as [k|] eqn:Hk.
  2:{ right. apply (scan_panics_at user _ [] c rest); [done|constructor|].
      right. right. exists a. split_and!; [done..|by left]. }
  destruct (decide (k = user)) as [->|Hnk].
  { destruct (WebHookAuthor.Name (WebHookCommit.Committer c)) as [n|] eqn:Hn.
    - left. exists n. by apply (scan_committer user _ [] c rest a n).
    - right. apply (scan_panics_at user _ [] c rest); [done|constructor|].
      right. right. exists a. split_and!; [done..|by right]. }
  assert (other_user user c) as Hc by (by exists a, k).
  destruct IH as [[name Hres]|[before commit after -> Hbefore Hnil]].
  - left. exists name.
    destruct Hres as [Hall|before commit after n -> Hbefore Hau Hn
                     |before commit after au n -> Hbefore Hau Hnau Hco Hn].
    + apply scan_fallback. by constructor.
    + apply (scan_author user _ (c :: before) commit after n); [done| |done..].
      by constructor.
    + apply (scan_committer user _ (c :: before) commit after au n);
        [done| |done..].
      by constructor.
  - right. apply (scan_panics_at user _ (c :: before) commit after);
      [done| |done].
    by constructor.
Qed.

Lemma other_user_no_match user commits :
  Forall (other_user user) commits → no_match user commits.
Proof.
  intros Hall. eapply Forall_impl; [exact Hall|].
  intros c (a & k & Ha & Hk & Hna & Hnk).
  unfold authorIs, committerIs. rewrite Ha, Hk. split; congruence.
Qed.

(** A scan that gives a name gives the one section 4.4 describes. *)
Lemma scan_resolves_resolvedName user commits name :
  scan_resolves user commits name → resolvedName user commits name.
Proof.
  intros [Hall|before commit after n -> Hbefore Ha Hn
          |before commit after a n -> Hbefore Ha Hna Hk Hn].
  - by apply resolved_fallback, other_user_no_match.
  - apply (resolved_author user _ before commit after n); [done| |done..].
    by apply other_user_no_match.
  - apply (resolved_committer user _ before commit after n); [done| | |done..].
    + by apply other_user_no_match.
    + unfold authorIs. rewrite Ha. congruence.
Qed.

End SenderScan.

(** C4 (as amended). In every notification [handlePushPayload] returns the
    sender's display name is resolved from the commits scanned in payload
    order: the first commit whose author or committer username equals the
    pusher's username gives it, the author's name when the author matches
    and the committer's name otherwise; when no commit matches, it is the
    pusher's username itself.  The scan dereferences the usernames of every
    commit up to the first match and the name of the person matched.  For a
    push that reaches the scan (its template rendered, its pusher named):
    when those are all present the notification is returned, its sender
    formed from the name so resolved; when one of them is nil the run
    panics with a nil dereference, the template call its only effect, and no
    notification is returned; and every list of commits is of one of the two
    kinds. *)
Theorem C4_sender_display_name E p w :
  (∀ m oe w',
     handlePushPayload E p w = (Ret (Some m, oe), w') →
     ∃ user name,
       Pusher.Name (PushPayload.Pusher p) = Some user ∧
       resolvedName user (PushPayload.Commits p) name ∧
       mail.Sender m = senderAddress E name user) ∧
  (∀ c mailHtml user,
     push_context E p c →
     templateOutput E "push" (pc_data E p c) = inl mailHtml →
     Pusher.Name (PushPayload.Pusher p) = Some user →
     (∀ name,
        scan_resolves user (PushPayload.Commits p) name →
        resolvedName user (PushPayload.Commits p) name ∧
        fst (handlePushPayload E p w)
        = Ret (Some {| mail.Sender := senderAddress E name user;
                       mail.To := [getRecipient E];
                       mail.Subject := pc_subject c;
                       mail.HTMLBody := mailHtml |},
               None)) ∧
     (scan_panics user (PushPayload.Commits p) →
        handlePushPayload E p w
        = (Panic NilDereference,
           with_events w [TemplateExecute "push" (pc_data E p c)])) ∧
     ((∃ name, scan_resolves user (PushPayload.Commits p) name) ∨
      scan_panics user (PushPayload.Commits p))).
Proof.
  split.
  - intros m oe w'
      (c & mailHtml & user & name & _ & _ & Huser & Hname & -> & _ & _)
      %handlePushPayload_sends_inv.
    exists user, name. split; [done|]. split; [|done].
    by apply senderNameLoop_resolves.
  - intros c mailHtml user Hc Hout Huser. split_and!.
    + intros name Hscan. split; [by apply scan_resolves_resolvedName|].
      rewrite (handlePushPayload_with_context E p w c Hc). cbn zeta.
      by rewrite Hout, Huser, (senderNameLoop_scan_resolves _ _ _ Hscan).
    + intros Hscan.
      rewrite (handlePushPayload_with_context E p w c Hc). cbn zeta.
      by rewrite Hout, Huser, (senderNameLoop_scan_panics _ _ user Hscan).
    + apply scan_total.
Qed.

Lemma C4_witness :
  let by_bob := Samples.two_commits in
  let by_alice :=
    Samples.push "refs/heads/main" "alice" [Samples.fix_bug; Samples.add_test] in
  let by_carol :=
    Samples.push "refs/heads/main" "carol" [Samples.fix_bug; Samples.add_test] in
  let past_stranger :=
    Samples.push "refs/heads/main" "alice"
      [AuxSamples.by_stranger; Samples.fix_bug] in
  let sent (p : PushPayload.t) (m : mail.Message) : Prop :=
    handlePushPayload Samples.env p Samples.fresh
    = (Ret (Some m, None), snd (handlePushPayload Samples.env p Samples.fresh)) ∧
    ∃ user name,
      Pusher.Name (PushPayload.Pusher p) = Some user ∧
      resolvedName user (PushPayload.Commits p) name ∧
      mail.Sender m = senderAddress Samples.env name user in
  sent by_bob
    (Samples.push_mail_from "Bob B <bob@bettermail.appspotmail.com>") ∧
  sent by_alice
    (Samples.push_mail_from "Alice A <alice@bettermail.appspotmail.com>") ∧
  sent by_carol
    (Samples.push_mail_from "carol <carol@bettermail.appspotmail.com>") ∧
  scan_panics "alice" (PushPayload.Commits past_stranger) ∧
  handlePushPayload Samples.env past_stranger Samples.fresh
  = (Panic NilDereference,
     with_events Samples.fresh
       [TemplateExecute "push"
          (pc_data Samples.env past_stranger
             (AuxSamples.push_context_of Samples.env past_stranger))]).
Proof.
  cbn zeta.
  assert (∀ p m,
            handlePushPayload Samples.env p Samples.fresh
            = (Ret (Some m, None),
               snd (handlePushPayload Samples.env p Samples.fresh)) →
            handlePushPayload Samples.env p Samples.fresh
            = (Ret (Some m, None),
               snd (handlePushPayload Samples.env p Samples.fresh)) ∧
            ∃ user name,
              Pusher.Name (PushPayload.Pusher p) = Some user ∧
              resolvedName user (PushPayload.Commits p) name ∧
              mail.Sender m = senderAddress Samples.env name user) as Hsent.
  { intros p m Hrun. split; [exact Hrun|].
    exact (proj1 (C4_sender_display_name Samples.env p Samples.fresh)
             _ _ _ Hrun). }
  split; [|split; [|split]]; [apply Hsent; vm_compute; reflexivity..|].
  assert (scan_panics "alice"
            [AuxSamples.by_stranger; Samples.fix_bug]) as Hscan.
  { apply (scan_panics_at "alice" _ [] AuxSamples.by_stranger [Samples.fix_bug]);
      [reflexivity|constructor|left; reflexivity]. }
  split; [exact Hscan|].
  refine (proj1 (proj2 (proj2 (C4_sender_display_name Samples.env
                                 (Samples.push "refs/heads/main" "alice"
                                    [AuxSamples.by_stranger; Samples.fix_bug])
                                 Samples.fresh)
                          _ _ "alice" _ _ eq_refl)) Hscan).
  - sample_context.
  - vm_compute. reflexivity.
Defined.

(** C4, as the spec words it, fails on a push whose first commit has an
    author without username.  With the committer of that commit the pusher,
    the resolution of section 4.4 names the committer, "Bob B"; with a
    pusher no commit names, it gives the username, "carol".  The code
    dereferences the author's nil username and panics: no notification is
    returned in either case. *)
Lemma C4_counterexample :
  let by_bob :=
    Samples.push "refs/heads/main" "bob"
      [AuxSamples.by_stranger; Samples.add_test] in
  let by_carol :=
    Samples.push "refs/heads/main" "carol" [AuxSamples.by_stranger] in
  resolvedName "bob" (PushPayload.Commits by_bob) "Bob B" ∧
  fst (handlePushPayload Samples.env by_bob Samples.fresh)
  = Panic NilDereference ∧
  (∀ m oe w',
     handlePushPayload Samples.env by_bob Samples.fresh
     ≠ (Ret (Some m, oe), w')) ∧
  resolvedName "carol" (PushPayload.Commits by_carol) "carol" ∧
  fst (handlePushPayload Samples.env by_carol Samples.fresh)
  = Panic NilDereference ∧
  (∀ m oe w',
     handlePushPayload Samples.env by_carol Samples.fresh
     ≠ (Ret (Some m, oe), w')).
Proof.
  cbn zeta.
  assert (∀ p,
            fst (handlePushPayload Samples.env p Samples.fresh)
            = Panic NilDereference →
            ∀ m oe w',
              handlePushPayload Samples.env p Samples.fresh
              ≠ (Ret (Some m, oe), w')) as Hnone.
  { intros p Hpanic m oe w' Hrun. by rewrite Hrun in Hpanic. }
  split_and!.
  - apply (resolved_committer "bob" _ [] AuxSamples.by_stranger
             [Samples.add_test] "Bob B"); [reflexivity|constructor|..].
    + intros [=].
    + reflexivity.
    + reflexivity.
  - vm_compute. reflexivity.
  - apply Hnone. vm_compute. reflexivity.
  - apply resolved_fallback. repeat constructor; intros [=].
  - vm_compute. reflexivity.
  - apply Hnone. vm_compute. reflexivity.
Qed.
